(** * pbm-auto-conversion: parsing, transformation, output and job orchestration

    A shallow embedding of the Python services of the repository
    ([backend/app/services]) and the properties its specification states
    about them.

    - [Py]: the fragment of Python the services rely on (exceptions, dynamically
      typed values, [str] methods, [int()] and [float()]).
    - [BaseParser], [ParserFactory], [FlatFileParser]: [parsers/].
    - [TransformationRule], [TransformationEngine], [FixedWidthOutputGenerator]:
      [transformers/].
    - [MappingService]: [ai/mapping_service.py] (the rule-based fallback).
    - [BackgroundTaskManager], [JobProcessor]: [task_manager.py],
      [job_processor.py].

    Text is modelled as [string] (one [ascii] per code point, so the text is
    ASCII); Python's [int] is [Z]; Python's [float] is an IEEE 754 binary64
    value, [spec_float] with precision 53 and maximal exponent 1024; a [dict]
    with string keys is a [gmap string _]; a [set] is a [gset]. *)

From Stdlib Require Import ZArith String Ascii List Bool Lia SpecFloat DecimalString.
From stdpp Require Import gmap strings list.

Local Open Scope string_scope.
Local Open Scope Z_scope.

(* ===================================================================== *)
(** ** The Python fragment *)
(* ===================================================================== *)

Module Py.

(** *** Exceptions

    Only instances of [Exception] are modelled: these are what an
    [except Exception] clause catches. [str(e)] is [exc_msg e]. *)

Inductive exc_class : Type :=
| ValueError
| TypeError
| OverflowError
| ZeroDivisionError
| Exception_.

Record exn : Type := mk_exn { exc_type : exc_class; exc_msg : string }.

Inductive result (A : Type) : Type :=
| Ok (a : A)
| Raise (e : exn).
Arguments Ok {A} a.
Arguments Raise {A} e.

Definition bind {A B : Type} (r : result A) (k : A -> result B) : result B :=
  match r with
  | Ok a => k a
  | Raise e => Raise e
  end.

Definition is_Ok {A : Type} (r : result A) : bool :=
  match r with Ok _ => true | Raise _ => false end.

(** [try: r except (ValueError, TypeError): handler]. *)
Definition is_value_or_type_error (e : exn) : bool :=
  match exc_type e with
  | ValueError | TypeError => true
  | _ => false
  end.

Definition try_except_value_type {A : Type} (r : result A) (handler : result A) : result A :=
  match r with
  | Ok a => Ok a
  | Raise e => if is_value_or_type_error e then handler else Raise e
  end.

#[global] Instance exc_class_eq_dec : EqDecision exc_class.
Proof. solve_decision. Defined.
#[global] Instance exn_eq_dec : EqDecision exn.
Proof. solve_decision. Defined.

(** *** Characters and [str] methods *)

Definition code (c : ascii) : N := N_of_ascii c.

(** [c.isspace()]: TAB, LF, VT, FF, CR, FS, GS, RS, US and SPACE. *)
Definition is_space (c : ascii) : bool :=
  let n := code c in
  ((9 <=? n) && (n <=? 13) || (28 <=? n) && (n <=? 32))%N.

Definition is_digit (c : ascii) : bool :=
  let n := code c in ((48 <=? n) && (n <=? 57))%N.

Definition is_upper (c : ascii) : bool :=
  let n := code c in ((65 <=? n) && (n <=? 90))%N.

Definition is_lower (c : ascii) : bool :=
  let n := code c in ((97 <=? n) && (n <=? 122))%N.

Definition lower_char (c : ascii) : ascii :=
  if is_upper c then ascii_of_N (code c + 32) else c.

Definition upper_char (c : ascii) : ascii :=
  if is_lower c then ascii_of_N (code c - 32) else c.

Definition chars (s : string) : list ascii := list_ascii_of_string s.
Definition text (l : list ascii) : string := string_of_list_ascii l.

Definition len (s : string) : Z := Z.of_nat (String.length s).

(** [s.lower()], [s.upper()] of an ASCII text: the letters [A]-[Z] and
    [a]-[z] change, every other character stays. Python changes letters
    outside ASCII too, some of them into two; these are outside the text
    modelled here. *)
Definition lower (s : string) : string := text (map lower_char (chars s)).
Definition upper (s : string) : string := text (map upper_char (chars s)).

(** The characters left once the leading ones satisfying [p] are dropped,
    and the same at both ends. *)
Fixpoint lskip (p : ascii -> bool) (l : list ascii) : list ascii :=
  match l with
  | c :: l' => if p c then lskip p l' else l
  | [] => []
  end.

Definition skip_around (p : ascii -> bool) (l : list ascii) : list ascii :=
  rev (lskip p (rev (lskip p l))).

Definition strip_chars (l : list ascii) : list ascii := skip_around is_space l.

(** [s.strip()]. *)
Definition strip (s : string) : string := text (strip_chars (chars s)).

(** [s.replace(old, new)] for a one-character [old] and [new]. *)
Definition replace_char (old new : ascii) (s : string) : string :=
  text (map (fun c => if Ascii.eqb c old then new else c) (chars s)).

(** [s.replace(old, '')] for a one-character [old]. *)
Definition remove_char (old : ascii) (s : string) : string :=
  text (List.filter (fun c => negb (Ascii.eqb c old)) (chars s)).

(** [sep in s] and [s.count(sep)] for a one-character [sep]. *)
Definition contains_char (sep : ascii) (s : string) : bool :=
  existsb (Ascii.eqb sep) (chars s).

Definition count_char (sep : ascii) (s : string) : Z :=
  Z.of_nat (List.length (List.filter (Ascii.eqb sep) (chars s))).

(** [s.split(sep)] for a one-character [sep], on the characters. *)
Fixpoint split_chars (sep : ascii) (l : list ascii) : list (list ascii) :=
  match l with
  | [] => [[]]
  | c :: l' =>
      match split_chars sep l' with
      | part :: parts => if Ascii.eqb c sep then [] :: part :: parts else (c :: part) :: parts
      | [] => [[c]]
      end
  end.

Definition split (sep : ascii) (s : string) : list string :=
  map text (split_chars sep (chars s)).

(** [s.isdigit()]: at least one character, all of them digits. *)
Definition isdigit_chars (l : list ascii) : bool :=
  negb (Nat.eqb (List.length l) 0) && forallb is_digit l.

Definition isdigit (s : string) : bool := isdigit_chars (chars s).

(** [s[start:stop]] with integer bounds: a negative bound counts from the
    end, and both are clamped to the string. *)
Definition slice_index (n i : Z) : nat :=
  Z.to_nat (Z.min n (if i <? 0 then Z.max 0 (n + i) else i)).

Definition slice (s : string) (start stop : Z) : string :=
  let a := slice_index (len s) start in
  let b := slice_index (len s) stop in
  text (take (b - a) (drop a (chars s))).

(** [s[:stop]]. *)
Definition slice_to (s : string) (stop : Z) : string := slice s 0 stop.

(** [s.ljust(width)]: padded with spaces on the right up to [width]; the
    string itself when it is at least that long. *)
Definition ljust (s : string) (width : Z) : string :=
  s +:+ text (repeat " "%char (Z.to_nat (width - len s))).

(** [str(n)] for an [int] of at most 4300 digits. Beyond that limit of the
    interpreter ([sys.get_int_max_str_digits()]) [str()] raises [ValueError],
    which is not modelled. *)
Definition str_of_int (z : Z) : string := NilZero.string_of_int (Z.to_int z).

(** C's [isspace], which [int()] and [float()] skip around an ASCII literal. *)
Definition is_c_space (c : ascii) : bool :=
  let n := code c in ((9 <=? n) && (n <=? 13) || (n =? 32))%N.

(** *** Floats: IEEE 754 binary64, rounding to nearest, ties to even *)

Definition pyfloat : Type := spec_float.
Definition prec : Z := 53.
Definition emax : Z := 1024.

(** [x] and [y] are the same value with the same sign ([nan] counted as the
    same as itself). *)
Definition float_same (x y : pyfloat) : bool :=
  match x, y with
  | S754_zero a, S754_zero b => Bool.eqb a b
  | S754_infinity a, S754_infinity b => Bool.eqb a b
  | S754_nan, S754_nan => true
  | S754_finite a m e, S754_finite b m' e' => Bool.eqb a b && (m =? m')%positive && (e =? e')
  | _, _ => false
  end.

(** The binary64 value nearest to [n / d], for [n >= 0] and [d > 0]: the
    quotient is taken with 66 significant bits and a sticky bit, then rounded
    once. *)
Definition float_of_ratio (neg : bool) (n d : Z) : pyfloat :=
  if n =? 0 then S754_zero neg
  else
    let s := Z.max 0 (Z.log2 d - Z.log2 n + 66) in
    let q := (n * 2 ^ s) / d in
    let r := (n * 2 ^ s) mod d in
    let m := 2 * q + (if r =? 0 then 0 else 1) in
    binary_normalize prec emax (if neg then - m else m) (- s - 1) neg.

(** The binary64 value nearest to [m * 10 ^ e], for [m >= 0]. *)
Definition float_of_decimal (neg : bool) (m e : Z) : pyfloat :=
  if 0 <=? e then float_of_ratio neg (m * 10 ^ e) 1 else float_of_ratio neg m (10 ^ (- e)).

(** *** Literals

    What [int()] and [float()] accept of a string: optional white space
    around an optional sign and
    - for [int()], a [digitpart];
    - for [float()], [inf], [infinity] or [nan] in any case, or digits with an
      optional point and an optional exponent.
    Underscores are allowed between two digits only. The interpreter's limit on
    the length of the literals of [int()] ([sys.int_info], 4300 digits by
    default) is not modelled. *)

(** After a digit: the further digits of the [digitpart], and what follows
    them. *)
Fixpoint scan_digits_tail (l : list ascii) : list ascii * list ascii :=
  match l with
  | c :: l' =>
      if is_digit c then let (ds, r) := scan_digits_tail l' in (c :: ds, r)
      else if Ascii.eqb c "_" then
        match l' with
        | d :: l'' =>
            if is_digit d then let (ds, r) := scan_digits_tail l'' in (d :: ds, r) else ([], l)
        | [] => ([], l)
        end
      else ([], l)
  | [] => ([], [])
  end.

(** [digitpart ::= digit (["_"] digit)*]: its digits and what follows it. *)
Definition scan_digitpart (l : list ascii) : option (list ascii * list ascii) :=
  match l with
  | c :: l' => if is_digit c then let (ds, r) := scan_digits_tail l' in Some (c :: ds, r) else None
  | [] => None
  end.

(** An optional sign ([true] for [-]) and what follows it. *)
Definition scan_sign (l : list ascii) : bool * list ascii :=
  match l with
  | c :: l' =>
      if Ascii.eqb c "-" then (true, l')
      else if Ascii.eqb c "+" then (false, l')
      else (false, l)
  | [] => (false, [])
  end.

(** The number the decimal digits [ds] write. *)
Definition digits_value (ds : list ascii) : Z :=
  fold_left (fun acc c => 10 * acc + Z.of_N (code c - 48)) ds 0.

(** [int(s)] for a string: [None] stands for [ValueError]. *)
Definition int_of_str (s : string) : option Z :=
  let (neg, l) := scan_sign (skip_around is_c_space (chars s)) in
  match scan_digitpart l with
  | Some (ds, []) => Some (if neg then - digits_value ds else digits_value ds)
  | _ => None
  end.

(** An optional exponent, [0] when there is none, and what follows it;
    [None] when an [e] is not followed by digits. *)
Definition scan_exponent (l : list ascii) : option (Z * list ascii) :=
  match l with
  | c :: l' =>
      if Ascii.eqb (lower_char c) "e" then
        let (neg, l1) := scan_sign l' in
        match scan_digitpart l1 with
        | Some (ds, r) => Some (if neg then - digits_value ds else digits_value ds, r)
        | None => None
        end
      else Some (0, l)
  | [] => Some (0, [])
  end.

(** [number ::= [digitpart] "." digitpart | digitpart ["."]]: the digits
    before the point, those after it, and what follows the number. *)
Definition scan_number (l : list ascii) : option (list ascii * list ascii * list ascii) :=
  let '(ipart, l1) :=
    match scan_digitpart l with
    | Some (ds, r) => (Some ds, r)
    | None => (None, l)
    end in
  match l1 with
  | c :: l2 =>
      if Ascii.eqb c "." then
        match scan_digitpart l2, ipart with
        | Some (fs, r), Some ds => Some (ds, fs, r)
        | Some (fs, r), None => Some ([], fs, r)
        | None, Some ds => Some (ds, [], l2)
        | None, None => None
        end
      else match ipart with Some ds => Some (ds, [], l1) | None => None end
  | [] => match ipart with Some ds => Some (ds, [], []) | None => None end
  end.

(** [float(s)] for a string: [None] stands for [ValueError]. *)
Definition float_of_str (s : string) : option pyfloat :=
  let (neg, l) := scan_sign (skip_around is_c_space (chars s)) in
  let word := text (map lower_char l) in
  if String.eqb word "inf" || String.eqb word "infinity" then Some (S754_infinity neg)
  else if String.eqb word "nan" then Some S754_nan
  else
    match scan_number l with
    | Some (ds, fs, r) =>
        match scan_exponent r with
        | Some (e, []) =>
            Some (float_of_decimal neg (digits_value (ds ++ fs)) (e - Z.of_nat (List.length fs)))
        | _ => None
        end
    | None => None
    end.

(** *** [repr] of a float: the shortest decimal that reads back as the same
    value, the closest to it among the shortest. *)

(** [10 ^ k <= n / d]. *)
Definition le_pow10 (n d k : Z) : bool :=
  if 0 <=? k then d * 10 ^ k <=? n else d <=? n * 10 ^ (- k).

Fixpoint raise_exponent (fuel : nat) (n d k : Z) : Z :=
  match fuel with
  | O => k
  | S fuel' => if le_pow10 n d (k + 1) then raise_exponent fuel' n d (k + 1) else k
  end.

(** [k] with [10 ^ k <= n / d < 10 ^ (k + 1)]. *)
Definition decimal_exponent (n d : Z) : Z :=
  raise_exponent 8 n d (((Z.log2 n - Z.log2 d - 1) * 30103) / 100000 - 1).

(** The decimal [digits * 10 ^ scale] of [ndig] digits that reads back as
    [f], the value of [n / d]: of the two decimals of [ndig] digits around
    [n / d], the one that reads back as [f], and the nearer one when both do. *)
Definition shortest_candidate (f : pyfloat) (n d k : Z) (ndig : Z) : option (Z * Z) :=
  let scale := k - ndig + 1 in
  let '(num, den) := if 0 <=? scale then (n, d * 10 ^ scale) else (n * 10 ^ (- scale), d) in
  let d0 := num / den in
  let r := num mod den in
  let ok0 := float_same (float_of_decimal false d0 scale) f in
  let ok1 := float_same (float_of_decimal false (d0 + 1) scale) f in
  match ok0, ok1 with
  | true, true =>
      if (2 * r <? den) || ((2 * r =? den) && Z.even d0) then Some (d0, scale)
      else Some (d0 + 1, scale)
  | true, false => Some (d0, scale)
  | false, true => Some (d0 + 1, scale)
  | false, false => None
  end.

(** The first of these decimals, from [ndig] digits on: 17 digits always
    read back. *)
Fixpoint shortest_digits (fuel : nat) (f : pyfloat) (n d k ndig : Z) : Z * Z :=
  match fuel with
  | O => (0, 0)
  | S fuel' =>
      match shortest_candidate f n d k ndig with
      | Some r => r
      | None => shortest_digits fuel' f n d k (ndig + 1)
      end
  end.

(** The digits without the zeros at their end. *)
Definition strip_trailing_zeros (l : list ascii) : list ascii :=
  rev (lskip (Ascii.eqb "0") (rev l)).

(** [n] zeros. *)
Definition zeros (n : Z) : string := text (repeat "0"%char (Z.to_nat n)).

(** The exponent, with its sign and two digits at least. *)
Definition format_exponent (e : Z) : string :=
  let a := str_of_int (Z.abs e) in
  (if e <? 0 then "-" else "+") +:+ (if Z.abs e <? 10 then "0" +:+ a else a).

(** The digits [ds] with the point after [decpt] of them: in exponent
    notation when [decpt] is below -3 or above 16. *)
Definition format_digits (ds : list ascii) (decpt : Z) : string :=
  let nd := Z.of_nat (List.length ds) in
  if (decpt <=? -4) || (16 <? decpt) then
    match ds with
    | c :: rest =>
        String c (match rest with [] => "" | _ => "." +:+ text rest end)
          +:+ "e" +:+ format_exponent (decpt - 1)
    | [] => ""
    end
  else if decpt <=? 0 then "0." +:+ zeros (- decpt) +:+ text ds
  else if nd <=? decpt then text ds +:+ zeros (decpt - nd) +:+ ".0"
  else text (take (Z.to_nat decpt) ds) +:+ "." +:+ text (drop (Z.to_nat decpt) ds).

(** [repr(f)], which is also [str(f)]. *)
Definition repr_float (f : pyfloat) : string :=
  match f with
  | S754_nan => "nan"
  | S754_infinity s => if s then "-inf" else "inf"
  | S754_zero s => if s then "-0.0" else "0.0"
  | S754_finite s m e =>
      let '(n, d) := if 0 <=? e then (Zpos m * 2 ^ e, 1) else (Zpos m, 2 ^ (- e)) in
      let k := decimal_exponent n d in
      let '(dg, scale) := shortest_digits 17 (S754_finite false m e) n d k 1 in
      let all := chars (str_of_int dg) in
      let decpt := Z.of_nat (List.length all) + scale in
      (if s then "-" else "") +:+ format_digits (strip_trailing_zeros all) decpt
  end.

(** The float nearest to an integer, and the product of two floats. *)
Definition float_of_Z (z : Z) : pyfloat := binary_normalize prec emax z 0 false.
Definition float_mul (x y : pyfloat) : pyfloat := SFmul prec emax x y.

(** [a / b] on integers: the float nearest to the quotient. *)
Definition int_truediv (a b : Z) : result pyfloat :=
  if b =? 0 then Raise (mk_exn ZeroDivisionError "division by zero")
  else
    match float_of_ratio (xorb (a <? 0) (b <? 0)) (Z.abs a) (Z.abs b) with
    | S754_infinity _ =>
        Raise (mk_exn OverflowError "integer division result too large for a float")
    | f => Ok f
    end.

(** *** Values

    The values a parsed table holds: pandas hands the parsers' rows over as
    [None], [bool], [int], [float] and [str] cells. *)

Inductive value : Type :=
| VNone
| VBool (b : bool)
| VInt (z : Z)
| VFloat (f : pyfloat)
| VStr (s : string).

Definition is_none (v : value) : bool :=
  match v with VNone => true | _ => false end.

(** [isinstance(v, bool)]. *)
Definition is_bool (v : value) : bool :=
  match v with VBool _ => true | _ => false end.

(** [v == s] for a string [s]. *)
Definition eq_str (v : value) (s : string) : bool :=
  match v with VStr s' => String.eqb s' s | _ => false end.

(** The truth value of [v], as [if v] tests it. *)
Definition truthy (v : value) : bool :=
  match v with
  | VNone => false
  | VBool b => b
  | VInt z => negb (z =? 0)
  | VFloat (S754_zero _) => false
  | VFloat _ => true
  | VStr s => negb (String.eqb s "")
  end.

(** [str(v)]. *)
Definition str (v : value) : string :=
  match v with
  | VNone => "None"
  | VBool b => if b then "True" else "False"
  | VInt z => str_of_int z
  | VFloat f => repr_float f
  | VStr s => s
  end.

(** [int(f)] for a float: truncation towards zero. *)
Definition int_of_float (f : pyfloat) : result Z :=
  match f with
  | S754_zero _ => Ok 0
  | S754_finite s m e =>
      let mag := if 0 <=? e then Z.shiftl (Zpos m) e else Z.shiftr (Zpos m) (- e) in
      Ok (if s then - mag else mag)
  | S754_infinity _ => Raise (mk_exn OverflowError "cannot convert float infinity to integer")
  | S754_nan => Raise (mk_exn ValueError "cannot convert float NaN to integer")
  end.

(** [int(v)]. The text of the [ValueError] for a string quotes the string
    as it is (Python quotes its [repr]). *)
Definition int_ (v : value) : result Z :=
  match v with
  | VNone =>
      Raise (mk_exn TypeError
        "int() argument must be a string, a bytes-like object or a real number, not 'NoneType'")
  | VBool b => Ok (if b then 1 else 0)
  | VInt z => Ok z
  | VFloat f => int_of_float f
  | VStr s =>
      match int_of_str s with
      | Some z => Ok z
      | None => Raise (mk_exn ValueError ("invalid literal for int() with base 10: '" +:+ s +:+ "'"))
      end
  end.

(** [float(v)]. *)
Definition float_ (v : value) : result pyfloat :=
  match v with
  | VNone =>
      Raise (mk_exn TypeError "float() argument must be a string or a real number, not 'NoneType'")
  | VBool b => Ok (float_of_Z (if b then 1 else 0))
  | VInt z =>
      match float_of_Z z with
      | S754_infinity _ => Raise (mk_exn OverflowError "int too large to convert to float")
      | f => Ok f
      end
  | VFloat f => Ok f
  | VStr s =>
      match float_of_str s with
      | Some f => Ok f
      | None => Raise (mk_exn ValueError ("could not convert string to float: '" +:+ s +:+ "'"))
      end
  end.

(** *** Further [str] operations *)

(** [sep.join(parts)]. *)
Fixpoint join (sep : string) (parts : list string) : string :=
  match parts with
  | [] => ""
  | [part] => part
  | part :: parts' => part +:+ sep +:+ join sep parts'
  end.

(** [l] starts with [needle]. *)
Fixpoint starts_with (needle l : list ascii) : bool :=
  match needle, l with
  | [], _ => true
  | c :: needle', d :: l' => Ascii.eqb c d && starts_with needle' l'
  | _ :: _, [] => false
  end.

(** [needle] occurs in [l]. *)
Fixpoint occurs_in (needle l : list ascii) : bool :=
  starts_with needle l
  || match l with
     | [] => false
     | _ :: l' => occurs_in needle l'
     end.

(** [needle in s] for two strings. *)
Definition contains (needle s : string) : bool := occurs_in (chars needle) (chars s).

(** [sum(1 for a, b in zip(s, t) if a == b)]. *)
Fixpoint common_chars (l m : list ascii) : Z :=
  match l, m with
  | a :: l', b :: m' => (if Ascii.eqb a b then 1 else 0) + common_chars l' m'
  | _, _ => 0
  end.

(** [dict(pairs)]: of two pairs with the same key, the later one stays. *)
Definition dict {A : Type} (pairs : list (string * A)) : gmap string A :=
  fold_left (fun d pair => <[fst pair := snd pair]> d) pairs ∅.

(** The tab and the line feed. *)
Definition tab : ascii := ascii_of_N 9.
Definition line_feed : ascii := ascii_of_N 10.

End Py.

(* ===================================================================== *)
(** ** parsers/base.py *)
(* ===================================================================== *)

Module BaseParser.
Import Py.

(** The date test of [infer_data_type]: [value_str] holds [-] or [/], and
    split at them it gives two parts or more, all of digits. *)
Definition date_like (value_str : string) : bool :=
  if existsb (fun sep => contains_char sep value_str) ["-"%char; "/"%char] then
    let parts := split "/" (replace_char "-" "/" value_str) in
    (2 <=? Z.of_nat (List.length parts)) && forallb isdigit parts
  else false.

(** [BaseParser.infer_data_type]. *)
Definition infer_data_type (value : value) : result string :=
  if is_none value || eq_str value "" then Ok "null"
  else
    try_except_value_type (bind (int_ value) (fun _ => Ok "integer"))
      (try_except_value_type (bind (float_ value) (fun _ => Ok "float"))
         (if is_bool value
             || existsb (String.eqb (lower (str value))) ["true"; "false"; "yes"; "no"]
          then Ok "boolean"
          else if date_like (str value) then Ok "date"
          else Ok "string")).

(** *** Notions for the properties *)

(** The replacement [replace('-', '/')] makes of a character. *)
Definition dash_to_slash (c : ascii) : ascii := if Ascii.eqb c "-" then "/"%char else c.

(** [sep.join(parts)], the inverse of [split]. *)
Fixpoint join_chars (sep : ascii) (parts : list (list ascii)) : list ascii :=
  match parts with
  | [] => []
  | [part] => part
  | part :: parts' => (part ++ sep :: join_chars sep parts')%list
  end.

(** The shape of the text the date test accepts: digits, then [-] or [/],
    and a digit at the end. *)
Inductive date_shape (l : list ascii) : Prop :=
| mk_date_shape (first : ascii) (digits : list ascii) (sep : ascii) (rest : list ascii)
    (last_pre : list ascii) (last : ascii)
    (Hshape : l = (first :: digits ++ sep :: rest)%list)
    (Hfirst : is_digit first = true)
    (Hdigits : forallb is_digit digits = true)
    (Hsep : dash_to_slash sep = "/"%char)
    (Hend : l = (last_pre ++ [last])%list)
    (Hlast : is_digit last = true).

End BaseParser.


(* ===================================================================== *)
(** ** parsers/flat_file_parser.py *)
(* ===================================================================== *)

Module FlatFileParser.
Import Py.

(** [FieldDefinition]: [start] is the 0-based first position, [end_] the
    position after the last one. *)
Record FieldDefinition : Type := mk_field {
  name : string;
  start : Z;
  end_ : Z;
  data_type : string
}.

(** [FieldDefinition.extract]. *)
Definition extract (field : FieldDefinition) (line : string) : string :=
  strip (slice line (start field) (end_ field)).

(** The positions [i] of [range(len(header_line) - 1)] at which every one of
    the first five sample lines holds two spaces. *)
Definition potential_breaks (sample_lines : list string) (header_line : string) : list Z :=
  List.filter
    (fun i => forallb (fun line => (i <? len line) && String.eqb (slice line i (i + 2)) "  ")
                      (take 5 sample_lines))
    (seqZ 0 (len header_line - 1)).

(** "Remove consecutive breaks": a break is kept when it is the first one or
    lies more than two positions after the break before it. *)
Fixpoint kept_breaks (previous : option Z) (breaks : list Z) : list Z :=
  match breaks with
  | [] => []
  | b :: rest =>
      let keep := match previous with None => true | Some p => p + 2 <? b end in
      ((if keep then [b] else []) ++ kept_breaks (Some b) rest)%list
  end.

(** The fields between consecutive breaks, numbered from [i]. *)
Fixpoint fields_between (header_line : string) (i : Z) (breaks : list Z) : list FieldDefinition :=
  match breaks with
  | first :: ((next :: _) as rest) =>
      let field_name := strip (slice header_line first next) in
      let field_name := if String.eqb field_name "" then "field_" +:+ str_of_int (i + 1) else field_name in
      mk_field field_name first next "string" :: fields_between header_line (i + 1) rest
  | _ => []
  end.

(** [FlatFileParser.auto_detect_layout]. *)
Definition auto_detect_layout (sample_lines : list string) : list FieldDefinition :=
  match sample_lines with
  | header_line :: _ :: _ =>
      let breaks := (0 :: kept_breaks None (potential_breaks sample_lines header_line)
                       ++ [len header_line])%list in
      fields_between header_line 0 breaks
  | _ => []
  end.

(** [ParseResult], with the layout, row count and column count of its
    metadata. *)
Record ParseResult : Type := mk_parse_result {
  data : list (gmap string value);
  headers : list string;
  metadata_layout : list FieldDefinition;
  metadata_row_count : Z;
  metadata_column_count : Z
}.

Definition layout_undetectable : exn :=
  mk_exn ValueError "Could not detect field layout. Please provide layout definition.".

Definition parse_line (layout : list FieldDefinition) (line : string) : gmap string value :=
  fold_left (fun row field => <[name field := VStr (extract field line)]> row) layout ∅.

(** [FlatFileParser.parse] on a parser whose [layout] attribute is [layout]
    ([[]] when none was supplied) and whose file holds the lines [lines] (line
    ends removed). *)
Definition parse (layout : list FieldDefinition) (lines : list string) (skip_header : bool)
    : result ParseResult :=
  let layout := match layout with [] => auto_detect_layout lines | _ => layout end in
  match layout with
  | [] => Raise layout_undetectable
  | _ =>
      let headers := map name layout in
      let data :=
        map (parse_line layout)
            (List.filter (fun line => negb (String.eqb (strip line) ""))
                         (drop (if skip_header then 1 else 0)%nat lines)) in
      Ok (mk_parse_result data headers layout (Z.of_nat (List.length data))
                          (Z.of_nat (List.length headers)))
  end.

(** *** Notions for the properties *)

(** The positions [breaks] do not decrease, from [from] on. *)
Fixpoint ascending (from : Z) (breaks : list Z) : Prop :=
  match breaks with
  | [] => True
  | b :: breaks' => from <= b /\ ascending b breaks'
  end.

(** The fields of [layout] follow one another from position [from] to
    position [to]: each starts where the one before it ends, and none ends
    before it starts. *)
Fixpoint tiles (from to : Z) (layout : list FieldDefinition) : Prop :=
  match layout with
  | [] => from = to
  | field :: layout' =>
      start field = from /\ from <= end_ field /\ tiles (end_ field) to layout'
  end.

End FlatFileParser.


(* ===================================================================== *)
(** ** parsers/txt_parser.py *)
(* ===================================================================== *)

Module TXTParser.
Import Py.

(** [TXTParser.detect_structure_type]. *)
Definition detect_structure_type (lines : list string) : string :=
  match lines with
  | [] => "unstructured"
  | first :: _ =>
      let sample := join (String line_feed "") (take 10 lines) in
      if contains_char "," sample then "csv"
      else if contains_char tab sample then "tsv"
      else if contains_char "|" sample then "pipe_delimited"
      else if forallb (fun line => len line =? len first) (take 10 lines) then "fixed_width"
      else "unstructured"
  end.

(** What [TXTParser.parse] returns: the data, the headers, and the structure
    type and line count of the metadata. *)
Record ParseResult : Type := mk_parse_result {
  data : list (gmap string value);
  headers : list string;
  metadata_structure_type : string;
  metadata_line_count : Z
}.

(** The row of a line of a delimited text, when it holds as many values as
    there are headers: [dict(zip(headers, values))]. *)
Definition delimited_row (delimiter : ascii) (headers : list string) (line : string)
    : option (gmap string value) :=
  let values := split delimiter line in
  if (List.length values =? List.length headers)%nat
  then Some (dict (zip headers (VStr <$> values)))
  else None.

(** The row of the line of number [i + 1] of a text that is not delimited. *)
Definition numbered_row (i : nat) (line : string) : gmap string value :=
  dict [("line_number", VInt (Z.of_nat i + 1)); ("content", VStr line)].

(** [TXTParser.parse] on a file that holds the lines [lines] (line ends
    removed). *)
Definition parse (lines : list string) : ParseResult :=
  let structure_type := detect_structure_type lines in
  if existsb (String.eqb structure_type) ["csv"; "tsv"; "pipe_delimited"] then
    let delimiter :=
      if String.eqb structure_type "csv" then ","%char
      else if String.eqb structure_type "tsv" then tab
      else "|"%char in
    match lines with
    | first :: rest =>
        let headers := split delimiter first in
        mk_parse_result (omap (delimited_row delimiter headers) rest) headers
                        structure_type (Z.of_nat (List.length lines))
    | [] => mk_parse_result [] [] structure_type (Z.of_nat (List.length lines))
    end
  else
    mk_parse_result (imap numbered_row lines) ["line_number"; "content"]
                    structure_type (Z.of_nat (List.length lines)).

End TXTParser.

(* ===================================================================== *)
(** ** parsers/pipe_parser.py *)
(* ===================================================================== *)

Module PipeDelimitedParser.
Import Py.

(** The delimiters [detect_delimiter] counts, in the order of its
    dictionary. *)
Definition candidates : list ascii := ["|"%char; tab; ";"%char; ":"%char].

(** [max(delimiters, key=delimiters.get)]: the first of the candidates that
    no other one outnumbers. *)
Definition most_common (sample : string) : ascii :=
  fold_left (fun best d => if count_char best sample <? count_char d sample then d else best)
            (tail candidates) "|"%char.

(** [PipeDelimitedParser.detect_delimiter] on a file that holds [content]:
    the sample is its first 8192 characters. *)
Definition detect_delimiter (content : string) : ascii :=
  most_common (slice_to content 8192).

(** The delimiter [PipeDelimitedParser.parse] reads the file with:
    [self_delimiter] is the delimiter of the parser (a bar unless the parser
    was built with another one), [delimiter] the argument of [parse]. *)
Definition parse_delimiter (self_delimiter : string) (delimiter : option string)
    (content : string) : string :=
  match delimiter with
  | Some d =>
      if negb (String.eqb d "") then d
      else if String.eqb self_delimiter "|" then String (detect_delimiter content) ""
      else self_delimiter
  | None =>
      if String.eqb self_delimiter "|" then String (detect_delimiter content) ""
      else self_delimiter
  end.

(** [PipeDelimitedParser._get_delimiter_name]. *)
Definition _get_delimiter_name (self_delimiter : string) : string :=
  if String.eqb self_delimiter "|" then "pipe"
  else if String.eqb self_delimiter (String tab "") then "tab"
  else if String.eqb self_delimiter ";" then "semicolon"
  else if String.eqb self_delimiter ":" then "colon"
  else if String.eqb self_delimiter "," then "comma"
  else "custom".

End PipeDelimitedParser.


(* ===================================================================== *)
(** ** parsers/factory.py *)
(* ===================================================================== *)

Module ParserFactory.
Import Py.

(** The parser classes the factory instantiates. *)
Inductive parser_class : Type :=
| CSVParser
| ExcelParser
| TXTParser
| PipeDelimitedParser
| FlatFileParser.

(** A parser instance: its class and the path it was built with. *)
Record BaseParser : Type := mk_parser {
  parser_cls : parser_class;
  file_path : string
}.

Definition PARSER_MAP : gmap string parser_class :=
  list_to_map
    [("csv", CSVParser); ("xls", ExcelParser); ("xlsx", ExcelParser); ("txt", TXTParser);
     ("tsv", PipeDelimitedParser); ("dat", FlatFileParser); ("fixed", FlatFileParser)].

(** [Path(file_path).name]: the last component of the path that is neither
    empty nor [.]. *)
Definition path_name (file_path : string) : string :=
  List.last
    (List.filter (fun part => negb (String.eqb part "" || String.eqb part "."))
                 (split "/" file_path))
    "".

(** The index of the last [.] of the characters, [-1] when there is none. *)
Fixpoint rfind_dot (l : list ascii) (i : Z) (found : Z) : Z :=
  match l with
  | [] => found
  | c :: l' => rfind_dot l' (i + 1) (if Ascii.eqb c "." then i else found)
  end.

(** [Path(file_path).suffix]. *)
Definition path_suffix (file_path : string) : string :=
  let name := path_name file_path in
  let i := rfind_dot (chars name) 0 (-1) in
  if (0 <? i) && (i <? len name - 1) then slice name i (len name) else "".

(** [Path(file_path).suffix.lstrip('.').lower()]. *)
Definition path_extension (file_path : string) : string :=
  lower (text (lskip (Ascii.eqb ".") (chars (path_suffix file_path)))).

Definition unsupported_file_type (extension : string) : exn :=
  mk_exn ValueError ("Unsupported file type: " +:+ extension).

(** [ParserFactory.create_parser]. *)
Definition create_parser (file_path : string) (file_type : option string) : result BaseParser :=
  let extension :=
    match file_type with
    | Some t => if String.eqb t "" then path_extension file_path else lower t
    | None => path_extension file_path
    end in
  match PARSER_MAP !! extension with
  | Some parser_class => Ok (mk_parser parser_class file_path)
  | None => Raise (unsupported_file_type extension)
  end.

(** The first four bytes of a legacy spreadsheet and of a ZIP container. *)
Definition xls_signature : string :=
  text [ascii_of_N 208; ascii_of_N 207; ascii_of_N 17; ascii_of_N 224].
Definition xlsx_signature : string := text ["P"; "K"; ascii_of_N 3; ascii_of_N 4]%char.

(** [ParserFactory.detect_file_type]. [content] is what the file holds, one
    character per byte, [None] when it cannot be opened or read. The text
    sample is the first 1024 bytes: decoding them as UTF-8 with errors ignored
    keeps every comma, tab and bar and adds none. *)
Definition detect_file_type (file_path : string) (content : option string) : option string :=
  let extension := path_extension file_path in
  if decide (extension ∈ dom PARSER_MAP) then Some extension
  else
    match content with
    | None => None
    | Some bytes =>
        let header := slice_to bytes 8 in
        if String.eqb (slice_to header 4) xls_signature then Some "xls"
        else if String.eqb (slice_to header 4) xlsx_signature then Some "xlsx"
        else
          let sample := slice_to bytes 1024 in
          if contains_char "," sample && (count_char (ascii_of_N 9) sample <? count_char "," sample)
          then Some "csv"
          else if contains_char (ascii_of_N 9) sample then Some "tsv"
          else if contains_char "|" sample then Some "pipe"
          else None
    end.

(** [ParserFactory.get_supported_types]: the keys of the map, in the order
    of its definition. *)
Definition get_supported_types : list string :=
  ["csv"; "xls"; "xlsx"; "txt"; "tsv"; "dat"; "fixed"].

End ParserFactory.


(* ===================================================================== *)
(** ** transformers/engine.py *)
(* ===================================================================== *)

Module TransformationRule.
Import Py.

(** A row of a table: [Dict[str, Any]]. *)
Abbreviation row := (gmap string value).

(** [TransformationRule]. [transformation_func], when given, is called with
    the value and the parameters, and may raise. *)
Record TransformationRule : Type := mk_rule {
  source_column : string;
  target_column : string;
  transformation_type : string;
  transformation_func : option (value -> gmap string value -> result value);
  parameters : gmap string value
}.

(** [x if value else None]. *)
Definition if_truthy (value : value) (x : result Py.value) : result Py.value :=
  if truthy value then x else Ok VNone.

(** [TransformationRule.apply]. *)
Definition apply (self : TransformationRule) (value : value) : result Py.value :=
  if is_none value then Ok (default VNone (parameters self !! "default_value"))
  else
    match transformation_func self with
    | Some func => func value (parameters self)
    | None =>
        let kind := transformation_type self in
        if String.eqb kind "direct" then Ok value
        else if String.eqb kind "uppercase" then if_truthy value (Ok (VStr (upper (str value))))
        else if String.eqb kind "lowercase" then if_truthy value (Ok (VStr (lower (str value))))
        else if String.eqb kind "trim" then if_truthy value (Ok (VStr (strip (str value))))
        else if String.eqb kind "int" then
          try_except_value_type
            (if_truthy value (bind (float_ value) (fun f => bind (int_of_float f) (fun z => Ok (VInt z)))))
            (Ok VNone)
        else if String.eqb kind "float" then
          try_except_value_type
            (if_truthy value (bind (float_ value) (fun f => Ok (VFloat f))))
            (Ok VNone)
        else if String.eqb kind "boolean" then
          if is_bool value then Ok value
          else Ok (VBool (existsb (String.eqb (lower (str value))) ["true"; "yes"; "1"; "y"]))
        else if String.eqb kind "date" then if_truthy value (Ok (VStr (str value)))
        else Ok value
    end.

End TransformationRule.

Module TransformationEngine.
Import Py TransformationRule.

(** An entry of [validation_errors]. *)
Record validation_error : Type := mk_validation_error {
  row_index : Z;
  error : string;
  row_data : row
}.

(** [TransformationEngine]: the rules and the errors collected so far. *)
Record TransformationEngine : Type := mk_engine {
  rules : list TransformationRule;
  validation_errors : list validation_error
}.

(** [TransformationEngine.add_rule]. *)
Definition add_rule (self : TransformationEngine) (rule : TransformationRule) : TransformationEngine :=
  mk_engine (rules self ++ [rule])%list (validation_errors self).

(** [row.get(rule.source_column)]. *)
Definition source_value (rule : TransformationRule) (r : row) : value :=
  default VNone (r !! source_column rule).

(** The loop of [transform_row] over the rules still to apply, [transformed]
    holding the entries written so far. *)
Fixpoint transform_row_loop (todo : list TransformationRule) (r : row) (transformed : row)
    : result row :=
  match todo with
  | [] => Ok transformed
  | rule :: todo' =>
      bind (apply rule (source_value rule r))
           (fun transformed_value =>
              transform_row_loop todo' r (<[target_column rule := transformed_value]> transformed))
  end.

(** [TransformationEngine.transform_row]. *)
Definition transform_row (self : TransformationEngine) (r : row) : result row :=
  transform_row_loop (rules self) r ∅.

(** The loop of [transform_data] over the rows from index [idx] on. *)
Fixpoint transform_data_loop (self : TransformationEngine) (idx : Z) (todo : list row)
    (transformed_data : list row) : TransformationEngine * list row :=
  match todo with
  | [] => (self, transformed_data)
  | r :: todo' =>
      match transform_row self r with
      | Ok transformed_row =>
          transform_data_loop self (idx + 1) todo' (transformed_data ++ [transformed_row])%list
      | Raise e =>
          transform_data_loop
            (mk_engine (rules self)
               (validation_errors self ++ [mk_validation_error idx (exc_msg e) r])%list)
            (idx + 1) todo' transformed_data
      end
  end.

(** [TransformationEngine.transform_data]: the engine as the call leaves it,
    and the list the call returns. *)
Definition transform_data (self : TransformationEngine) (data : list row)
    : TransformationEngine * list row :=
  transform_data_loop self 0 data [].

(** [TransformationEngine.get_validation_errors] and
    [TransformationEngine.clear_errors]. *)
Definition get_validation_errors (self : TransformationEngine) : list validation_error :=
  validation_errors self.

Definition clear_errors (self : TransformationEngine) : TransformationEngine :=
  mk_engine (rules self) [].

(** An entry of the ["mappings"] list of a mapping configuration: the column
    names and the transformation name it holds, each [None] when the entry
    has no such key. *)
Record config_mapping : Type := mk_config_mapping {
  cfg_input_column : option string;
  cfg_reference_column : option string;
  cfg_target_column : option string;
  cfg_transformation : option string
}.

(** The truth value of what [mapping.get(key)] gives for a name, and
    [a or b]. *)
Definition given (name : option string) : bool :=
  match name with
  | Some s => negb (String.eqb s "")
  | None => false
  end.

Definition or_else (a b : option string) : option string := if given a then a else b.

(** [mapping.get("reference_column") or mapping.get("target_column")]. *)
Definition config_target (mapping : config_mapping) : option string :=
  or_else (cfg_reference_column mapping) (cfg_target_column mapping).

(** The body of the loop of [add_rules_from_config]. *)
Definition add_rule_from_mapping (self : TransformationEngine) (mapping : config_mapping)
    : TransformationEngine :=
  let source := cfg_input_column mapping in
  let target := config_target mapping in
  let transform_type := default "direct" (cfg_transformation mapping) in
  match source, target with
  | Some source_column, Some target_column =>
      if given source && given target
      then add_rule self (mk_rule source_column target_column transform_type None ∅)
      else self
  | _, _ => self
  end.

(** [TransformationEngine.add_rules_from_config] on a configuration whose
    ["mappings"] list is [mappings] ([[]] when it has none). *)
Definition add_rules_from_config (self : TransformationEngine) (mappings : list config_mapping)
    : TransformationEngine :=
  fold_left add_rule_from_mapping mappings self.

(** *** Notions for the properties *)

(** What [transform_data] returns for a row, and the error it records for
    the row of index [idx]: [None] when there is none. *)
Definition transformed_row (self : TransformationEngine) (r : row) : option row :=
  match transform_row self r with
  | Ok transformed => Some transformed
  | Raise _ => None
  end.

Definition recorded_error (self : TransformationEngine) (idx : Z) (r : row)
    : option validation_error :=
  match transform_row self r with
  | Ok _ => None
  | Raise e => Some (mk_validation_error idx (exc_msg e) r)
  end.

(** The value a rule writes for a row. *)
Definition written (rule : TransformationRule) (r : row) : result value :=
  apply rule (source_value rule r).

(** The target columns of rules. *)
Definition target_columns (todo : list TransformationRule) : gset string :=
  list_to_set (target_column <$> todo).

(** [rule] is the last rule of [todo] that writes its target column. *)
Definition last_for_target (todo : list TransformationRule) (rule : TransformationRule) : Prop :=
  exists before after,
    todo = (before ++ rule :: after)%list
    /\ Forall (fun later => target_column later <> target_column rule) after.

End TransformationEngine.

Module DataValidator.
Import Py.

(** [DataValidator.validate_required]: the message, [None] when the value
    passes. *)
Definition validate_required (value : value) (field_name : string) : option string :=
  if is_none value || eq_str value "" then Some (field_name +:+ " is required") else None.

(** [DataValidator.validate_type]. *)
Definition validate_type (value : value) (expected_type field_name : string)
    : result (option string) :=
  if is_none value then Ok None
  else
    try_except_value_type
      (if String.eqb expected_type "integer" then bind (int_ value) (fun _ => Ok None)
       else if String.eqb expected_type "float" then bind (float_ value) (fun _ => Ok None)
       else if String.eqb expected_type "boolean" then
         if negb (is_bool value)
            && negb (existsb (String.eqb (lower (str value)))
                             ["true"; "false"; "yes"; "no"; "1"; "0"])
         then Ok (Some (field_name +:+ " must be a boolean value"))
         else Ok None
       else Ok None)
      (Ok (Some (field_name +:+ " must be of type " +:+ expected_type))).

(** [DataValidator.validate_length]. *)
Definition validate_length (value : value) (min_length max_length : option Z)
    (field_name : string) : option string :=
  if is_none value then None
  else
    let str_value := str value in
    match min_length with
    | Some least =>
        if len str_value <? least
        then Some (field_name +:+ " must be at least " +:+ str_of_int least +:+ " characters")
        else
          match max_length with
          | Some most =>
              if most <? len str_value
              then Some (field_name +:+ " must be at most " +:+ str_of_int most +:+ " characters")
              else None
          | None => None
          end
    | None =>
        match max_length with
        | Some most =>
            if most <? len str_value
            then Some (field_name +:+ " must be at most " +:+ str_of_int most +:+ " characters")
            else None
        | None => None
        end
    end.

End DataValidator.

(* ===================================================================== *)
(** ** transformers/output_generators.py *)
(* ===================================================================== *)

Module FixedWidthOutputGenerator.
Import Py.

(** [self.column_widths.get(header, 20)]. *)
Definition width_of (column_widths : gmap string Z) (header : string) : Z :=
  default 20 (column_widths !! header).

(** The header line of [generate]. *)
Definition header_line (headers : list string) (column_widths : gmap string Z) : string :=
  fold_left (fun line header => line +:+ ljust header (width_of column_widths header)) headers "".

(** The cell [generate] writes for [header]: [value.ljust(width)[:width]]. *)
Definition cell (column_widths : gmap string Z) (r : gmap string value) (header : string) : string :=
  let width := width_of column_widths header in
  let value := str (default (VStr "") (r !! header)) in
  slice_to (ljust value width) width.

(** The line [generate] writes for a row, without its line end. *)
Definition data_line (headers : list string) (column_widths : gmap string Z) (r : gmap string value)
    : string :=
  fold_left (fun line header => line +:+ cell column_widths r header) headers "".

(** [FixedWidthOutputGenerator.generate]: the text written to the file. *)
Definition generate (data : list (gmap string value)) (headers : list string)
    (column_widths : gmap string Z) : string :=
  fold_left (fun out r => out +:+ data_line headers column_widths r +:+ String (ascii_of_N 10) "")
            data
            (header_line headers column_widths +:+ String (ascii_of_N 10) "").

(** *** Notions for the properties *)


(** The sum over the headers of the longer of the header and the width of its
    column. *)
Definition header_width (headers : list string) (column_widths : gmap string Z) : Z :=
  fold_right Z.add 0
    ((fun header => Z.max (len header) (width_of column_widths header)) <$> headers).

End FixedWidthOutputGenerator.


Module OutputGeneratorFactory.
Import Py.

(** The generator classes the factory instantiates. *)
Inductive generator_class : Type :=
| CSVOutputGenerator
| ExcelOutputGenerator
| JSONOutputGenerator
| TSVOutputGenerator
| PipeDelimitedOutputGenerator
| FixedWidthOutputGenerator.

(** A generator instance: its class, its data and headers, and the column
    widths of a fixed-width generator. *)
Record generator : Type := mk_generator {
  generator_cls : generator_class;
  generator_data : list (gmap string value);
  generator_headers : list string;
  generator_column_widths : option (gmap string Z)
}.

Definition GENERATORS : gmap string generator_class :=
  list_to_map
    [("csv", CSVOutputGenerator); ("excel", ExcelOutputGenerator); ("xlsx", ExcelOutputGenerator);
     ("xls", ExcelOutputGenerator); ("json", JSONOutputGenerator); ("tsv", TSVOutputGenerator);
     ("pipe", PipeDelimitedOutputGenerator); ("fixed", FixedWidthOutputGenerator);
     ("txt", CSVOutputGenerator)].

Definition unsupported_output_format (output_format : string) : exn :=
  mk_exn ValueError ("Unsupported output format: " +:+ output_format).

(** [OutputGeneratorFactory.create_generator]: [column_widths] is the keyword
    argument of that name, [None] when it is not given. *)
Definition create_generator (output_format : string) (data : list (gmap string value))
    (headers : list string) (column_widths : option (gmap string Z)) : result generator :=
  match GENERATORS !! lower output_format with
  | None => Raise (unsupported_output_format output_format)
  | Some generator_class =>
      if String.eqb (lower output_format) "fixed"
      then Ok (mk_generator generator_class data headers (Some (default ∅ column_widths)))
      else Ok (mk_generator generator_class data headers None)
  end.

(** [OutputGeneratorFactory.get_supported_formats]. *)
Definition get_supported_formats : list string :=
  ["csv"; "excel"; "xlsx"; "xls"; "json"; "tsv"; "pipe"; "fixed"; "txt"].

(** The text a fixed-width generator writes to its file; the writers of the
    other classes are those of [csv], [json] and [pandas]. *)
Definition generate_fixed (g : generator) : string :=
  FixedWidthOutputGenerator.generate (generator_data g) (generator_headers g)
    (default ∅ (generator_column_widths g)).

End OutputGeneratorFactory.


(* ===================================================================== *)
(** ** ai/mapping_service.py *)
(* ===================================================================== *)

Module MappingService.
Import Py.

(** A file structure, as the parsers' [detect_structure] gives it: its
    ["columns"] entry ([[]] when absent). *)
Record structure : Type := mk_structure { columns : list string }.

Record mapping : Type := mk_mapping {
  input_column : string;
  reference_column : string;
  confidence : Z;
  reasoning : string;
  transformation : string
}.

Record mapping_result : Type := mk_mapping_result {
  mappings : list mapping;
  unmapped_input_columns : list string;
  unmapped_reference_columns : list string;
  overall_confidence : pyfloat;
  fallback_used : bool
}.

(** What the two loops of [_fallback_mapping] carry. *)
Record fallback_state : Type := mk_fallback_state {
  st_mappings : list mapping;
  mapped_inputs : gset string;
  mapped_references : gset string
}.

(** [col.lower().replace('_', '').replace(' ', '')]. *)
Definition normalized (col : string) : string :=
  remove_char " " (remove_char "_" (lower col)).

(** First loop: exact matches. *)
Definition exact_match_step (reference_columns : list string) (st : fallback_state)
    (input_col : string) : fallback_state :=
  if decide (input_col ∈ reference_columns) then
    mk_fallback_state
      (st_mappings st ++ [mk_mapping input_col input_col 100 "Exact name match" "none"])%list
      (mapped_inputs st ∪ {[input_col]})
      (mapped_references st ∪ {[input_col]})
  else st.

(** The inner loop of the second pass: the first reference column not yet
    mapped whose normalized name is [input_lower], when there is one. *)
Fixpoint first_insensitive_match (input_lower : string) (taken : gset string)
    (reference_columns : list string) : option string :=
  match reference_columns with
  | [] => None
  | ref_col :: rest =>
      if decide (ref_col ∈ taken) then first_insensitive_match input_lower taken rest
      else if String.eqb input_lower (normalized ref_col) then Some ref_col
      else first_insensitive_match input_lower taken rest
  end.

(** Second loop: matches up to case, underscores and spaces. *)
Definition insensitive_match_step (reference_columns : list string) (st : fallback_state)
    (input_col : string) : fallback_state :=
  if decide (input_col ∈ mapped_inputs st) then st
  else
    match first_insensitive_match (normalized input_col) (mapped_references st) reference_columns with
    | Some ref_col =>
        mk_fallback_state
          (st_mappings st ++ [mk_mapping input_col ref_col 90 "Case-insensitive match" "rename"])%list
          (mapped_inputs st ∪ {[input_col]})
          (mapped_references st ∪ {[ref_col]})
    | None => st
    end.

(** [MappingService._fallback_mapping]. *)
Definition _fallback_mapping (input_structure reference_structure : structure) : mapping_result :=
  let input_columns := columns input_structure in
  let reference_columns := columns reference_structure in
  let st := fold_left (exact_match_step reference_columns) input_columns
                      (mk_fallback_state [] ∅ ∅) in
  let st := fold_left (insensitive_match_step reference_columns) input_columns st in
  mk_mapping_result
    (st_mappings st)
    (List.filter (fun c => bool_decide (c ∉ mapped_inputs st)) input_columns)
    (List.filter (fun c => bool_decide (c ∉ mapped_references st)) reference_columns)
    (float_mul
       (float_of_ratio false (Z.of_nat (List.length (st_mappings st)))
                       (Z.max (Z.of_nat (List.length input_columns)) 1))
       (float_of_Z 100))
    true.

(** *** Notions for the properties *)

(** The mapping the first loop makes of a column, and the one the second
    loop makes of two columns. *)
Definition exact_mapping (col : string) : mapping :=
  mk_mapping col col 100 "Exact name match" "none".

Definition insensitive_mapping (input_col ref_col : string) : mapping :=
  mk_mapping input_col ref_col 90 "Case-insensitive match" "rename".

(** [m] maps a column of [input_columns] to a column of [reference_columns]
    of the same name up to case, underscores and spaces, and is one of the
    two mappings above. *)
Definition sound_mapping (input_columns reference_columns : list string) (m : mapping) : Prop :=
  input_column m ∈ input_columns
  /\ reference_column m ∈ reference_columns
  /\ normalized (input_column m) = normalized (reference_column m)
  /\ (m = exact_mapping (input_column m)
      \/ (m = insensitive_mapping (input_column m) (reference_column m)
          /\ input_column m ∉ reference_columns)).

(** The input columns the first loop maps: those that are reference columns
    too. *)
Definition exact_columns (input_columns reference_columns : list string) : list string :=
  List.filter (fun c => bool_decide (c ∈ reference_columns)) input_columns.

(** What the second loop keeps true, [done] being the input columns it has
    gone through and [extra] the mappings it has added. *)
Record second_loop_invariant (input_columns reference_columns done : list string)
    (st : fallback_state) (extra : list mapping) : Prop := mk_second_loop_invariant {
  inv_mappings :
    st_mappings st
    = ((exact_mapping <$> exact_columns input_columns reference_columns) ++ extra)%list;
  inv_inputs :
    mapped_inputs st
    = list_to_set (exact_columns input_columns reference_columns)
      ∪ list_to_set (input_column <$> extra);
  inv_references :
    mapped_references st
    = list_to_set (exact_columns input_columns reference_columns)
      ∪ list_to_set (reference_column <$> extra);
  inv_extra :
    Forall (fun m => m = insensitive_mapping (input_column m) (reference_column m)
                     /\ input_column m ∈ done
                     /\ (input_column m ∉ reference_columns)
                     /\ reference_column m ∈ reference_columns
                     /\ (reference_column m ∉ exact_columns input_columns reference_columns)
                     /\ normalized (input_column m) = normalized (reference_column m))
           extra;
  inv_inputs_once : NoDup (input_column <$> extra);
  inv_references_once : NoDup (reference_column <$> extra);
  inv_no_match_left :
    forall c r,
      c ∈ done -> c ∉ mapped_inputs st ->
      r ∈ reference_columns -> r ∉ mapped_references st ->
      normalized c <> normalized r
}.

(** What [_simple_similarity] returns. *)
Record similarity : Type := mk_similarity {
  similarity_score : Z;
  similarity_reasoning : string
}.

(** [MappingService._simple_similarity]. *)
Definition _simple_similarity (col1 col2 : string) : result similarity :=
  let c1 := normalized col1 in
  let c2 := normalized col2 in
  if String.eqb c1 c2 then Ok (mk_similarity 100 "Exact match (case-insensitive)")
  else if contains c1 c2 || contains c2 c1 then Ok (mk_similarity 75 "Substring match")
  else
    let common := common_chars (chars c1) (chars c2) in
    let max_len := Z.max (len c1) (len c2) in
    bind (if 0 <? max_len
          then bind (int_truediv common max_len)
                    (fun ratio => int_of_float (float_mul ratio (float_of_Z 100)))
          else Ok 0)
         (fun score => Ok (mk_similarity score "Character-based similarity")).

(** The mapping configuration a mapping result is stored and applied as: the
    entries of its ["mappings"] list, which hold no ["target_column"]. *)
Definition config_of (result : mapping_result) : list TransformationEngine.config_mapping :=
  (fun m => TransformationEngine.mk_config_mapping
              (Some (input_column m)) (Some (reference_column m)) None (Some (transformation m)))
    <$> mappings result.

End MappingService.


(* ===================================================================== *)
(** ** task_manager.py *)
(* ===================================================================== *)

Module TaskStatus.
Definition PENDING : string := "pending".
Definition PROCESSING : string := "processing".
Definition COMPLETED : string := "completed".
Definition FAILED : string := "failed".
Definition CANCELLED : string := "cancelled".
End TaskStatus.

Module BackgroundTaskManager.
Import Py.

(** A row of the [jobs] table ([updated_at] left out). *)
Record job : Type := mk_job {
  user_id : string;
  status : string;
  progress : Z;
  input_file_id : option string;
  reference_file_id : option string;
  template_id : option string;
  error_message : option string;
  result_file_id : option string
}.

(** A status written to the [jobs] table: by the insert of [create_job], or by
    an update of [update_job_status], with the progress it carries. *)
Record status_write : Type := mk_write {
  w_job_id : string;
  w_status : string;
  w_progress : option Z
}.

(** The [jobs] table behind [supabase_admin], and the status writes issued
    to it so far, the latest last. *)
Record database : Type := mk_database {
  jobs : gmap string job;
  writes : list status_write
}.

(** The update [update_job_status] builds: [progress] clamped to 0..100 when
    given; [error_message] and [result_file_id] only when they are not empty. *)
Definition apply_update (new_status : string) (new_progress : option Z)
    (new_error_message new_result_file_id : option string) (j : job) : job :=
  let keep_if_empty (new old : option string) :=
    match new with
    | Some text => if String.eqb text "" then old else Some text
    | None => old
    end in
  mk_job (user_id j) new_status
    (match new_progress with Some p => Z.min 100 (Z.max 0 p) | None => progress j end)
    (input_file_id j) (reference_file_id j) (template_id j)
    (keep_if_empty new_error_message (error_message j))
    (keep_if_empty new_result_file_id (result_file_id j)).

(** [BackgroundTaskManager.update_job_status]. *)
Definition update_job_status (db : database) (job_id : string) (new_status : string)
    (new_progress : option Z) (new_error_message new_result_file_id : option string) : database :=
  mk_database
    (alter (apply_update new_status new_progress new_error_message new_result_file_id) job_id (jobs db))
    (writes db ++ [mk_write job_id new_status (Z.min 100 ∘ Z.max 0 <$> new_progress)])%list.

(** [BackgroundTaskManager.get_job]. *)
Definition get_job (db : database) (job_id : string) : option job := jobs db !! job_id.

(** [BackgroundTaskManager.create_job]: the table gives the row an
    identifier no other row has. The row holds neither [job_type] nor
    [metadata]. *)
Definition create_job (db : database) (user job_type : string)
    (input_file reference_file template : option string) : database * string :=
  let job_id := fresh (dom (jobs db)) in
  (mk_database
     (<[job_id := mk_job user TaskStatus.PENDING 0 input_file reference_file template None None]>
        (jobs db))
     (writes db ++ [mk_write job_id TaskStatus.PENDING (Some 0)])%list,
   job_id).

(** *** Job bodies

    A job body is a coroutine that awaits the task manager and then returns
    or raises. None of these awaits suspends ([update_job_status] and
    [get_job] call the table synchronously), so a body runs from start to end
    in one turn of the event loop. *)

Inductive coroutine (R : Type) : Type :=
| Return (r : R)
| Throw (e : exn)
| AwaitUpdateJobStatus (job_id : string) (new_status : string) (new_progress : option Z)
    (new_error_message new_result_file_id : option string) (k : coroutine R)
| AwaitGetJob (job_id : string) (k : option job -> coroutine R).
Arguments Return {R} r.
Arguments Throw {R} e.
Arguments AwaitUpdateJobStatus {R} job_id new_status new_progress
  new_error_message new_result_file_id k.
Arguments AwaitGetJob {R} job_id k.

Fixpoint run {R : Type} (c : coroutine R) (db : database) : database * result R :=
  match c with
  | Return r => (db, Ok r)
  | Throw e => (db, Raise e)
  | AwaitUpdateJobStatus job_id new_status new_progress new_error_message new_result_file_id k =>
      run k (update_job_status db job_id new_status new_progress new_error_message new_result_file_id)
  | AwaitGetJob job_id k => run (k (get_job db job_id)) db
  end.

Section Manager.

(** [R] is what the job bodies return; [result_file_id_of result] is
    [result.get("result_file_id") if isinstance(result, dict) else None]. *)
Context {R : Type} (result_file_id_of : R -> option string).

(** [BackgroundTaskManager.execute_task]: the table as the call leaves it, and
    what the call returns or raises. *)
Definition execute_task (db : database) (job_id : string) (task_func : string -> coroutine R)
    : database * result R :=
  let db := update_job_status db job_id TaskStatus.PROCESSING (Some 0) None None in
  let (db, outcome) := run (task_func job_id) db in
  match outcome with
  | Ok result =>
      (update_job_status db job_id TaskStatus.COMPLETED (Some 100) None (result_file_id_of result),
       Ok result)
  | Raise e =>
      (update_job_status db job_id TaskStatus.FAILED None (Some (exc_msg e)) None, Raise e)
  end.

(** An [asyncio.Task] wrapping [execute_task(job_id, task_func)]:
    [must_cancel] is set by [task.cancel()], [done] is [task.done()]. *)
Record task : Type := mk_task {
  task_func : string -> coroutine R;
  must_cancel : bool;
  done : bool
}.

(** The task manager with the table it writes to. *)
Record manager : Type := mk_manager {
  db : database;
  _active_tasks : gmap string task
}.

Definition initial_manager : manager := mk_manager (mk_database ∅ []) ∅.

(** [BackgroundTaskManager.start_background_task]. *)
Definition start_background_task (self : manager) (job_id : string)
    (func : string -> coroutine R) : manager :=
  mk_manager (db self) (<[job_id := mk_task func false false]> (_active_tasks self)).

(** [BackgroundTaskManager.cancel_job]. *)
Definition cancel_job (self : manager) (job_id : string) : manager * bool :=
  match _active_tasks self !! job_id with
  | Some t =>
      if negb (done t) then
        (mk_manager
           (update_job_status (db self) job_id TaskStatus.CANCELLED None None None)
           (<[job_id := mk_task (task_func t) true (done t)]> (_active_tasks self)),
         true)
      else (self, false)
  | None => (self, false)
  end.

(** The event loop runs the task registered for [job_id]: a task asked to
    cancel ends with [CancelledError] before its body runs, which
    [except Exception] does not catch; any other runs [execute_task]. *)
Definition loop_run_task (self : manager) (job_id : string) : manager :=
  match _active_tasks self !! job_id with
  | Some t =>
      if done t then self
      else if must_cancel t then
        mk_manager (db self) (<[job_id := mk_task (task_func t) true true]> (_active_tasks self))
      else
        mk_manager (fst (execute_task (db self) job_id (task_func t)))
                   (<[job_id := mk_task (task_func t) false true]> (_active_tasks self))
  | None => self
  end.

(** The event loop calls the done callback of the task of [job_id]:
    [self._active_tasks.pop(job_id, None)]. *)
Definition loop_done_callback (self : manager) (job_id : string) : manager :=
  match _active_tasks self !! job_id with
  | Some t => if done t then mk_manager (db self) (delete job_id (_active_tasks self)) else self
  | None => self
  end.

(** [BackgroundTaskManager.get_active_task]. *)
Definition get_active_task (self : manager) (job_id : string) : option task :=
  _active_tasks self !! job_id.

(** What the application and the event loop do with a task manager. *)
Inductive action : Type :=
| CreateJob (user job_type : string) (input_file reference_file template : option string)
| StartBackgroundTask (job_id : string) (func : string -> coroutine R)
| CancelJob (job_id : string)
| LoopRunTask (job_id : string)
| LoopDoneCallback (job_id : string).

Definition perform (self : manager) (a : action) : manager :=
  match a with
  | CreateJob user job_type input_file reference_file template =>
      mk_manager (fst (create_job (db self) user job_type input_file reference_file template))
                 (_active_tasks self)
  | StartBackgroundTask job_id func => start_background_task self job_id func
  | CancelJob job_id => fst (cancel_job self job_id)
  | LoopRunTask job_id => loop_run_task self job_id
  | LoopDoneCallback job_id => loop_done_callback self job_id
  end.

(** *** Notions for the properties *)

(** The statuses written for [job_id], in order. *)
Definition status_history (d : database) (job_id : string) : list string :=
  w_status <$> List.filter (fun w => String.eqb (w_job_id w) job_id) (writes d).

(** The status of [job_id] in the table. *)
Definition job_status (d : database) (job_id : string) : option string :=
  status <$> jobs d !! job_id.

(** What the application may do: it starts tasks for jobs it has created. *)
Definition allowed (self : manager) (a : action) : Prop :=
  match a with
  | StartBackgroundTask job_id _ => job_id ∈ dom (jobs (db self))
  | _ => True
  end.

(** The task managers the application and the event loop can bring about. *)
Inductive reachable : manager -> Prop :=
| reachable_initial : reachable initial_manager
| reachable_perform (self : manager) (a : action) :
    reachable self -> allowed self a -> reachable (perform self a).

(** Tasks are registered for jobs of the table only. *)
Definition tasks_have_jobs (self : manager) : Prop :=
  dom (_active_tasks self) ⊆ dom (jobs (db self)).

End Manager.

Arguments task R : clear implicits.
Arguments manager R : clear implicits.
Arguments action R : clear implicits.
Arguments initial_manager R : clear implicits.

End BackgroundTaskManager.

(* ===================================================================== *)
(** ** job_processor.py *)
(* ===================================================================== *)

Module JobProcessor.
Import Py BackgroundTaskManager.

Section Batch.

(** [ParsingService.analyze_structure(file_id, user_id)] and the structure
    it returns, or the exception it raises. *)
Context {structure : Type} (analyze_structure : string -> string -> result structure).

(** The dictionary [process_batch_files] returns. *)
Record batch_result : Type := mk_batch_result {
  total : Z;
  processed : Z;
  failed : Z;
  results : list (string * structure);
  errors : list (string * string)
}.

(** [int(((idx + 1) / total_files) * 100)]. *)
Definition batch_progress (idx total_files : Z) : result Z :=
  bind (int_truediv (idx + 1) total_files)
       (fun ratio => int_of_float (float_mul ratio (float_of_Z 100))).

(** [raise Exception(f"Batch processing failed: {str(e)}")]. *)
Definition batch_failure (e : exn) : exn :=
  mk_exn Exception_ ("Batch processing failed: " +:+ exc_msg e).

(** The loop of [process_batch_files] from item [idx] on. *)
Fixpoint batch_loop (job_id operation user : string) (total_files idx : Z) (todo : list string)
    (processed_files : list (string * structure)) (failed_files : list (string * string))
    : coroutine batch_result :=
  match todo with
  | [] =>
      Return (mk_batch_result total_files
                (Z.of_nat (List.length processed_files)) (Z.of_nat (List.length failed_files))
                processed_files failed_files)
  | file_id :: todo' =>
      match batch_progress idx total_files with
      | Raise e => Throw (batch_failure e)
      | Ok p =>
          AwaitUpdateJobStatus job_id TaskStatus.PROCESSING (Some p) None None
            (if String.eqb operation "analyze" then
               match analyze_structure file_id user with
               | Ok result =>
                   batch_loop job_id operation user total_files (idx + 1) todo'
                     (processed_files ++ [(file_id, result)])%list failed_files
               | Raise e =>
                   batch_loop job_id operation user total_files (idx + 1) todo'
                     processed_files (failed_files ++ [(file_id, exc_msg e)])%list
               end
             else
               batch_loop job_id operation user total_files (idx + 1) todo'
                 processed_files (failed_files ++ [(file_id, "Unknown operation")])%list)
      end
  end.

(** [JobProcessor.process_batch_files]. *)
Definition process_batch_files (file_ids : list string) (operation user : string)
    (job_id : string) : coroutine batch_result :=
  batch_loop job_id operation user (Z.of_nat (List.length file_ids)) 0 file_ids [] [].

(** *** Notions for the properties *)

(** What the loop appends to the processed files and to the failed files
    for an item. *)
Definition processed_entry (operation user file_id : string) : option (string * structure) :=
  if String.eqb operation "analyze" then
    match analyze_structure file_id user with
    | Ok result => Some (file_id, result)
    | Raise _ => None
    end
  else None.

Definition failed_entry (operation user file_id : string) : option (string * string) :=
  if String.eqb operation "analyze" then
    match analyze_structure file_id user with
    | Ok _ => None
    | Raise e => Some (file_id, exc_msg e)
    end
  else Some (file_id, "Unknown operation").

(** The progress written for the item of index [idx], clamped to 0..100. *)
Definition progress_write (total_files idx : Z) : option Z :=
  match batch_progress idx total_files with
  | Ok p => Some (Z.min 100 (Z.max 0 p))
  | Raise _ => None
  end.

(** The progress values a run of a body wrote to the table. *)
Definition reported_progress (before after : database) : list Z :=
  omap w_progress (drop (List.length (writes before)) (writes after)).

End Batch.

Section Analysis.

Context {structure : Type} (analyze_structure : string -> string -> result structure).

(** [raise Exception(f"File analysis failed: {str(e)}")]. *)
Definition analysis_failure (e : exn) : exn :=
  mk_exn Exception_ ("File analysis failed: " +:+ exc_msg e).

(** [JobProcessor.process_file_analysis]: it returns the structure and the
    file identifier. *)
Definition process_file_analysis (file_id user : string) (job_id : string)
    : coroutine (structure * string) :=
  AwaitUpdateJobStatus job_id TaskStatus.PROCESSING (Some 10) None None
    (AwaitUpdateJobStatus job_id TaskStatus.PROCESSING (Some 30) None None
       match analyze_structure file_id user with
       | Ok found =>
           AwaitUpdateJobStatus job_id TaskStatus.PROCESSING (Some 100) None None
             (Return (found, file_id))
       | Raise e => Throw (analysis_failure e)
       end).

End Analysis.

Section Transformation.

(** [TransformationService.transform_file(input_file_id, mapping_config,
    output_format, user_id)], the dictionary it returns and the
    ["output_file_id"] entry of that dictionary. *)
Context {mapping_config transform_result : Type}
  (output_file_id : transform_result -> option string)
  (transform_file : string -> mapping_config -> string -> string -> result transform_result).

(** [raise Exception(f"File transformation failed: {str(e)}")]. *)
Definition transformation_failure (e : exn) : exn :=
  mk_exn Exception_ ("File transformation failed: " +:+ exc_msg e).

(** The dictionary [process_file_transformation] returns: its
    ["input_file_id"] and ["result_file_id"] entries, and the result of
    [transform_file] its other entries are read from. *)
Record transformation_outcome : Type := mk_transformation_outcome {
  outcome_input_file_id : string;
  outcome_result_file_id : option string;
  outcome_details : transform_result
}.

(** [JobProcessor.process_file_transformation]. *)
Definition process_file_transformation (input_file_id output_format : string)
    (config : mapping_config) (user : string) (job_id : string)
    : coroutine transformation_outcome :=
  AwaitUpdateJobStatus job_id TaskStatus.PROCESSING (Some 20) None None
    match transform_file input_file_id config output_format user with
    | Ok result =>
        AwaitUpdateJobStatus job_id TaskStatus.PROCESSING (Some 100) None (output_file_id result)
          (Return (mk_transformation_outcome input_file_id (output_file_id result) result))
    | Raise e => Throw (transformation_failure e)
    end.

End Transformation.

End JobProcessor.

(* ===================================================================== *)
(** ** parsing_service.py *)
(* ===================================================================== *)

Module ParsingService.
Import Py.

(** The ["comparison"] entry of what [compare_structures] returns. The three
    lists are made of sets, so their order is not fixed: they are sets
    here. *)
Record comparison : Type := mk_comparison {
  exact_matches : gset string;
  input_only_columns : gset string;
  reference_only_columns : gset string;
  match_percentage : pyfloat
}.

(** The comparison [ParsingService.compare_structures] makes of the
    ["columns"] of the two structures. *)
Definition compare_columns (input_structure_columns reference_structure_columns : list string)
    : comparison :=
  let input_columns : gset string := list_to_set input_structure_columns in
  let reference_columns : gset string := list_to_set reference_structure_columns in
  let exact_matches := input_columns ∩ reference_columns in
  let input_only := input_columns ∖ reference_columns in
  let reference_only := reference_columns ∖ reference_columns in
  mk_comparison exact_matches input_only reference_only
    (float_mul
       (float_of_ratio false (Z.of_nat (size exact_matches))
                       (Z.max (Z.of_nat (size input_columns)) 1))
       (float_of_Z 100)).

End ParsingService.

(* ===================================================================== *)
(** * Properties *)
(* ===================================================================== *)

(** ** Strings *)

Module PyFacts.
Import Py.

Lemma chars_text (l : list ascii) : chars (text l) = l.
Proof. apply list_ascii_of_string_of_list_ascii. Qed.

Lemma text_chars (s : string) : text (chars s) = s.
Proof. apply string_of_list_ascii_of_string. Qed.

Lemma length_text (l : list ascii) : String.length (text l) = List.length l.
Proof. induction l as [|c l IH]; simpl; [reflexivity|]. f_equal. exact IH. Qed.

Lemma length_chars (s : string) : List.length (chars s) = String.length s.
Proof. rewrite <- (text_chars s) at 2. symmetry. apply length_text. Qed.

Lemma length_append (s t : string) :
  String.length (s +:+ t) = (String.length s + String.length t)%nat.
Proof. induction s as [|c s IH]; simpl; [reflexivity|]. f_equal. exact IH. Qed.

Lemma append_cons (c : ascii) (s t : string) : String c s +:+ t = String c (s +:+ t).
Proof. reflexivity. Qed.

Lemma append_nil_r (s : string) : s +:+ "" = s.
Proof.
  induction s as [|c s IH]; [reflexivity|]. rewrite append_cons. f_equal. exact IH.
Qed.

Lemma append_assoc (s t u : string) : (s +:+ t) +:+ u = s +:+ (t +:+ u).
Proof.
  induction s as [|c s IH]; [reflexivity|]. rewrite !append_cons. f_equal. exact IH.
Qed.

Lemma len_append (s t : string) : len (s +:+ t) = len s + len t.
Proof. unfold len. rewrite length_append. lia. Qed.

Lemma len_nonneg (s : string) : 0 <= len s.
Proof. unfold len. lia. Qed.

(** [s.ljust(width)] is as long as the longer of [s] and [width]. *)
Lemma len_ljust (s : string) (width : Z) : len (ljust s width) = Z.max (len s) width.
Proof.
  unfold ljust. rewrite len_append. unfold len at 2.
  rewrite length_text, repeat_length. pose proof (len_nonneg s). lia.
Qed.


End PyFacts.

(** ** Type inference ([BaseParser.infer_data_type]) *)

Module InferDataTypeFacts.
Import Py PyFacts BaseParser.

(** Facts on single characters, by enumeration of the 256 characters. *)
Ltac by_cases_on_char c :=
  destruct c as [[] [] [] [] [] [] [] []]; try discriminate; try reflexivity; auto.

Lemma digit_not_c_space c : is_digit c = true -> is_c_space c = false.
Proof. by_cases_on_char c. Qed.

Lemma digit_not_underscore c : is_digit c = true -> Ascii.eqb c "_" = false.
Proof. by_cases_on_char c. Qed.

Lemma digit_not_sign c :
  is_digit c = true -> Ascii.eqb c "-" = false /\ Ascii.eqb c "+" = false.
Proof. by_cases_on_char c. Qed.

Lemma digit_lower c : is_digit c = true -> lower_char c = c.
Proof. by_cases_on_char c. Qed.

Lemma digit_not_letter c :
  is_digit c = true ->
  c <> "i"%char /\ c <> "n"%char /\ c <> "t"%char /\ c <> "f"%char /\ c <> "y"%char.
Proof. by_cases_on_char c; repeat split; discriminate. Qed.

Lemma dash_to_slash_digit c : is_digit (dash_to_slash c) = true -> dash_to_slash c = c /\ is_digit c = true.
Proof. by_cases_on_char c. Qed.

Lemma dash_to_slash_slash c :
  dash_to_slash c = "/"%char ->
  is_digit c = false /\ Ascii.eqb c "_" = false /\ Ascii.eqb c "." = false
  /\ Ascii.eqb (lower_char c) "e" = false.
Proof. by_cases_on_char c. Qed.

Lemma split_chars_not_nil sep l : split_chars sep l <> [].
Proof.
  destruct l as [|c l]; simpl; [discriminate|].
  destruct (split_chars sep l); [discriminate|].
  destruct (Ascii.eqb c sep); discriminate.
Qed.

Lemma join_split_chars sep l : join_chars sep (split_chars sep l) = l.
Proof.
  induction l as [|c l IH]; simpl; [reflexivity|].
  destruct (split_chars sep l) as [|part parts] eqn:E.
  - exfalso. eapply split_chars_not_nil; eauto.
  - destruct (Ascii.eqb c sep) eqn:Ec.
    + apply Ascii.eqb_eq in Ec. subst c. simpl. simpl in IH.
      f_equal. exact IH.
    + destruct parts; simpl in *; f_equal; exact IH.
Qed.

Lemma isdigit_chars_inv l :
  isdigit_chars l = true -> exists d l', l = d :: l' /\ is_digit d = true /\ forallb is_digit l' = true.
Proof.
  unfold isdigit_chars. destruct l as [|d l']; simpl; [discriminate|].
  intros H. apply andb_true_iff in H. exists d, l'. tauto.
Qed.

(** A joined list of digit parts ends in a digit. *)
Lemma join_digits_last sep parts :
  parts <> [] -> forallb isdigit_chars parts = true ->
  exists pre d, join_chars sep parts = (pre ++ [d])%list /\ is_digit d = true.
Proof.
  induction parts as [|part parts IH]; [congruence|]. intros _ H.
  simpl in H. apply andb_true_iff in H as [Hp Hps].
  destruct parts as [|part' parts'].
  - simpl. destruct (isdigit_chars_inv _ Hp) as (d & l' & -> & Hd & Hl').
    destruct (exists_last (l := d :: l')) as (pre & z & E); [discriminate|].
    exists pre, z. split; [exact E|].
    assert (Hall : forallb is_digit (d :: l') = true) by (simpl; rewrite Hd, Hl'; reflexivity).
    rewrite E in Hall. rewrite forallb_app in Hall. simpl in Hall.
    apply andb_true_iff in Hall as [_ Hz]. apply andb_true_iff in Hz. tauto.
  - destruct IH as (pre & d & E & Hd); [discriminate|exact Hps|].
    exists (part ++ sep :: pre)%list, d. split; [|exact Hd].
    change (join_chars sep (part :: part' :: parts'))
      with (part ++ sep :: join_chars sep (part' :: parts'))%list.
    rewrite E. rewrite <- app_assoc. reflexivity.
Qed.

Lemma map_dash_digits l p :
  map dash_to_slash l = p -> forallb is_digit p = true -> l = p.
Proof.
  revert p. induction l as [|c l IH]; intros p E H; simpl in E; subst p; [reflexivity|].
  simpl in H. apply andb_true_iff in H as [Hc Hl].
  destruct (dash_to_slash_digit c Hc) as [Ec _].
  simpl. rewrite Ec. f_equal. exact (IH _ eq_refl Hl).
Qed.

Lemma date_like_shape s : date_like s = true -> date_shape (chars s).
Proof.
  unfold date_like. destruct (existsb _ _); [|discriminate].
  intros H. apply andb_true_iff in H as [Hlen Hall].
  unfold split, replace_char in *. rewrite chars_text in *.
  change (fun c => if Ascii.eqb c "-" then "/"%char else c) with dash_to_slash in *.
  set (l := chars s) in *.
  assert (Hj := join_split_chars "/" (map dash_to_slash l)).
  assert (Hparts : forallb isdigit_chars (split_chars "/" (map dash_to_slash l)) = true).
  { rewrite forallb_forall in *. intros p Hp. 
    specialize (Hall (text p) (in_map text _ _ Hp)).
    unfold isdigit in Hall. rewrite chars_text in Hall. exact Hall. }
  rewrite length_map in Hlen.
  destruct (split_chars "/" (map dash_to_slash l)) as [|p1 [|p2 ps]] eqn:E;
    simpl in Hlen; try discriminate.
  destruct (join_digits_last "/" (p1 :: p2 :: ps)) as (pre & d & El & Hd); [discriminate|exact Hparts|].
  rewrite Hj in El.
  simpl in Hparts. apply andb_true_iff in Hparts as [Hp1 _].
  destruct (isdigit_chars_inv _ Hp1) as (d1 & q1 & -> & Hd1 & Hq1).
  change (join_chars "/" ((d1 :: q1) :: p2 :: ps))
    with (d1 :: q1 ++ "/"%char :: join_chars "/" (p2 :: ps))%list in Hj.
  (* back from the replaced text to the text itself *)
  destruct l as [|c0 l0]; [discriminate|].
  simpl in Hj. injection Hj as Hc0 Hj.
  symmetry in Hj. apply map_eq_app in Hj as (la & lb & -> & Ha & Hb).
  destruct lb as [|cs lb]; [discriminate|]. simpl in Hb. injection Hb as Hcs Hb.
  destruct (exists_last (l := c0 :: la ++ cs :: lb)) as (pre0 & d0 & E0); [discriminate|].
  assert (Hd0 : is_digit d0 = true).
  { rewrite E0 in El. rewrite map_app in El. simpl in El.
    apply app_inj_tail in El as [_ Hm]. rewrite <- Hm in Hd.
    apply dash_to_slash_digit in Hd. tauto. }
  rewrite Hc0 in Hd1.
  apply dash_to_slash_digit in Hd1 as [_ Hd1].
  apply map_dash_digits in Ha; [|exact Hq1]. subst la.
  exact (mk_date_shape _ c0 q1 cs lb pre0 d0 eq_refl Hd1 Hq1 Hcs E0 Hd0).
Qed.

Lemma skip_around_id (p : ascii -> bool) first l pre last :
  (first :: l)%list = (pre ++ [last])%list -> p first = false -> p last = false ->
  skip_around p (first :: l) = (first :: l)%list.
Proof.
  intros E Hf Hl. unfold skip_around. simpl. rewrite Hf.
  rewrite E at 1. rewrite rev_app_distr. simpl. rewrite Hl.
  change (last :: rev pre)%list with (rev [last] ++ rev pre)%list.
  rewrite <- rev_app_distr, rev_involutive. symmetry. exact E.
Qed.

Lemma scan_digits_tail_stop digits sep rest :
  forallb is_digit digits = true -> is_digit sep = false -> Ascii.eqb sep "_" = false ->
  scan_digits_tail (digits ++ sep :: rest) = (digits, (sep :: rest)%list).
Proof.
  intros Hd Hs Hu. induction digits as [|d digits IH]; simpl.
  - rewrite Hs, Hu. reflexivity.
  - simpl in Hd. apply andb_true_iff in Hd as [Hd Hds].
    rewrite Hd, (IH Hds). reflexivity.
Qed.

Section DateShape.

Context (s : string) (Hs : date_shape (chars s)).

Lemma date_shape_not_empty : String.eqb s "" = false.
Proof.
  destruct Hs. apply String.eqb_neq. intros ->. discriminate.
Qed.

Lemma date_shape_literal :
  exists first digits sep rest,
    skip_around is_c_space (chars s) = (first :: digits ++ sep :: rest)%list
    /\ scan_sign (first :: digits ++ sep :: rest) = (false, (first :: digits ++ sep :: rest)%list)
    /\ scan_digitpart (first :: digits ++ sep :: rest) = Some ((first :: digits)%list, (sep :: rest)%list)
    /\ is_digit first = true
    /\ dash_to_slash sep = "/"%char.
Proof.
  destruct Hs as [first digits sep rest pre last E Hf Hd Hsep El Hl].
  exists first, digits, sep, rest.
  destruct (dash_to_slash_slash _ Hsep) as (Hsd & Hsu & _).
  rewrite E in *. repeat split; auto.
  - eapply skip_around_id; eauto using digit_not_c_space.
  - unfold scan_sign. destruct (digit_not_sign _ Hf) as [-> ->]. reflexivity.
  - unfold scan_digitpart. rewrite Hf, scan_digits_tail_stop by assumption. reflexivity.
Qed.

Lemma date_shape_not_int : int_of_str s = None.
Proof.
  destruct date_shape_literal as (first & digits & sep & rest & E1 & E2 & E3 & _).
  unfold int_of_str. rewrite E1, E2, E3. reflexivity.
Qed.

Lemma date_shape_not_float : float_of_str s = None.
Proof.
  destruct date_shape_literal as (first & digits & sep & rest & E1 & E2 & E3 & Hf & Hsep).
  destruct (dash_to_slash_slash _ Hsep) as (_ & _ & Hdot & He).
  destruct (digit_not_letter _ Hf) as (Hi & Hn & _).
  unfold float_of_str. rewrite E1, E2.
  assert (Hw : forall w c, c <> first ->
            String.eqb (text (map lower_char (first :: digits ++ sep :: rest))) (String c w) = false).
  { intros w c Hc. apply String.eqb_neq. simpl. rewrite (digit_lower _ Hf). congruence. }
  rewrite !Hw by congruence. simpl orb. cbv iota.
  unfold scan_number. rewrite E3. rewrite Hdot.
  unfold scan_exponent. rewrite He. reflexivity.
Qed.

Lemma date_shape_not_boolean :
  existsb (String.eqb (lower s)) ["true"; "false"; "yes"; "no"] = false.
Proof.
  destruct Hs as [first digits sep rest pre last E Hf _ _ _ _].
  destruct (digit_not_letter _ Hf) as (_ & Hn & Ht & Hff & Hy).
  unfold lower. rewrite E. simpl. rewrite (digit_lower _ Hf).
  apply Ascii.eqb_neq in Hn, Ht, Hff, Hy. rewrite Hn, Ht, Hff, Hy. reflexivity.
Qed.

End DateShape.

(** Every string the date test accepts is classified as a date. *)
Lemma date_like_is_date (s : string) :
  date_like s = true -> infer_data_type (VStr s) = Ok "date".
Proof.
  intros H. pose proof (date_like_shape s H) as Hs.
  unfold infer_data_type, int_, float_, str, is_none, eq_str, is_bool. cbn [orb].
  rewrite (date_shape_not_empty s Hs), (date_shape_not_int s Hs), (date_shape_not_float s Hs).
  cbn [bind try_except_value_type is_value_or_type_error exc_type orb].
  rewrite (date_shape_not_boolean s Hs), H. reflexivity.
Qed.

(** Every string [int()] accepts is classified as an integer. *)
Lemma int_literal_is_integer (s : string) (z : Z) :
  int_of_str s = Some z -> infer_data_type (VStr s) = Ok "integer".
Proof.
  intros H. unfold infer_data_type. simpl.
  destruct (String.eqb s "") eqn:E.
  - apply String.eqb_eq in E. subst s. discriminate.
  - rewrite H. reflexivity.
Qed.

(** No exception leaves [infer_data_type] on a string. *)
Lemma infer_data_type_str_total (s : string) :
  exists t, infer_data_type (VStr s) = Ok t
            /\ t ∈ ["null"; "integer"; "float"; "boolean"; "date"; "string"].
Proof.
  unfold infer_data_type, int_, float_, str, is_none, eq_str, is_bool. cbn [orb].
  destruct (String.eqb s ""); [eexists; split; [reflexivity|set_solver]|].
  destruct (int_of_str s);
    cbn [bind try_except_value_type is_value_or_type_error exc_type];
    [eexists; split; [reflexivity|set_solver]|].
  destruct (float_of_str s);
    cbn [bind try_except_value_type is_value_or_type_error exc_type];
    [eexists; split; [reflexivity|set_solver]|].
  destruct (existsb _ _); [eexists; split; [reflexivity|set_solver]|].
  destruct (date_like s); eexists; (split; [reflexivity|set_solver]).
Qed.

(** C2. [infer_data_type] never raises on a string and returns one of the six
    type names; it classifies [""] as null, ["42"] as integer, ["42.5"] as
    float, ["true"] as boolean, ["2024-01-05"] as date and ["hello"] as string;
    the integer test comes first, so every string [int()] accepts is an
    integer and none of them a float; and every string the date test accepts
    is a date, none of them a float or an integer. *)
Theorem infer_data_type_spec :
  (forall s : string,
      exists t, infer_data_type (VStr s) = Ok t
                /\ t ∈ ["null"; "integer"; "float"; "boolean"; "date"; "string"])
  /\ infer_data_type (VStr "") = Ok "null"
  /\ infer_data_type (VStr "42") = Ok "integer"
  /\ infer_data_type (VStr "42.5") = Ok "float"
  /\ infer_data_type (VStr "true") = Ok "boolean"
  /\ infer_data_type (VStr "2024-01-05") = Ok "date"
  /\ infer_data_type (VStr "hello") = Ok "string"
  /\ (forall (s : string) (z : Z),
         int_ (VStr s) = Ok z -> infer_data_type (VStr s) = Ok "integer")
  /\ (forall s : string,
         date_like s = true ->
         infer_data_type (VStr s) = Ok "date"
         /\ is_Ok (int_ (VStr s)) = false /\ is_Ok (float_ (VStr s)) = false).
Proof.
  split; [exact infer_data_type_str_total|].
  do 6 (split; [vm_compute; reflexivity|]).
  split.
  - intros s z H. simpl in H. destruct (int_of_str s) eqn:E; [|discriminate].
    eapply int_literal_is_integer; eauto.
  - intros s H. pose proof (date_like_shape s H) as Hs.
    split; [exact (date_like_is_date s H)|]. simpl.
    rewrite (date_shape_not_int s Hs), (date_shape_not_float s Hs). split; reflexivity.
Qed.

End InferDataTypeFacts.

(** ** The fixed-width parser ([FlatFileParser]) *)

Module FlatFileParserFacts.
Import Py FlatFileParser.

(** Two breaks or more give a field. *)
Lemma fields_between_not_nil (header_line : string) (i first : Z) (breaks : list Z) :
  breaks <> [] -> fields_between header_line i (first :: breaks) <> [].
Proof. destruct breaks as [|next rest]; [congruence|]. simpl. discriminate. Qed.

(** Auto-detection gives no field exactly when it has fewer than two sample
    lines. *)
Lemma auto_detect_layout_nil (sample_lines : list string) :
  auto_detect_layout sample_lines = [] <-> (List.length sample_lines < 2)%nat.
Proof.
  destruct sample_lines as [|header_line [|second rest]]; simpl; try (split; [lia|reflexivity]); [].
  split; [|lia]. intros H. exfalso. revert H. apply fields_between_not_nil.
  destruct (kept_breaks None _); discriminate.
Qed.

(** With no boundary found, the layout is one field that spans the header
    line. *)
Lemma auto_detect_layout_no_boundary (header_line second : string) (rest : list string) :
  potential_breaks (header_line :: second :: rest) header_line = [] ->
  exists field_name,
    auto_detect_layout (header_line :: second :: rest)
    = [mk_field field_name 0 (len header_line) "string"].
Proof.
  intros H. unfold auto_detect_layout. rewrite H. simpl. eauto.
Qed.

Lemma parse_with_layout (field : FieldDefinition) (layout : list FieldDefinition)
    (lines : list string) (skip_header : bool) :
  exists result,
    parse (field :: layout) lines skip_header = Ok result
    /\ metadata_layout result = (field :: layout)%list
    /\ headers result = name <$> (field :: layout)%list.
Proof. unfold parse. eexists. split; [reflexivity|]. split; reflexivity. Qed.

(** C6 (amended). With no layout supplied, [parse] fails with the error that
    asks for a layout definition exactly when the file has fewer than two
    lines, the one case in which auto-detection gives no field. A file of two
    lines or more in which auto-detection finds no column boundary is parsed
    as a table of one column that spans the header line. *)
Theorem parse_layout_undetectable :
  (forall (lines : list string) (skip_header : bool),
      parse [] lines skip_header = Raise layout_undetectable
      <-> (List.length lines < 2)%nat)
  /\ (forall (header_line second : string) (rest : list string) (skip_header : bool),
         potential_breaks (header_line :: second :: rest) header_line = [] ->
         exists result field_name,
           parse [] (header_line :: second :: rest) skip_header = Ok result
           /\ metadata_layout result = [mk_field field_name 0 (len header_line) "string"]
           /\ headers result = [field_name]).
Proof.
  split.
  - intros lines skip_header. rewrite <- auto_detect_layout_nil.
    unfold parse. destruct (auto_detect_layout lines); split; congruence.
  - intros header_line second rest skip_header H.
    destruct (auto_detect_layout_no_boundary header_line second rest H) as [field_name E].
    unfold parse. rewrite E. eexists _, field_name. split; [reflexivity|]. split; reflexivity.
Qed.

(** A file of one line has no layout; a file of two lines without two
    spaces in a row has a layout of one field. *)
Lemma parse_layout_undetectable_witness :
  parse [] ["ID  NAME      AGE"] false = Raise layout_undetectable
  /\ exists result field_name,
       parse [] ["AB"; "CD"] false = Ok result
       /\ metadata_layout result = [mk_field field_name 0 2 "string"]
       /\ headers result = [field_name].
Proof.
  split.
  - apply (proj1 parse_layout_undetectable). simpl. lia.
  - apply (proj2 parse_layout_undetectable "AB" "CD" [] false). reflexivity.
Defined.

(** C6 as stated fails: no layout is supplied for the lines [AB] and [CD] and
    auto-detection finds no boundary in them, yet [parse] returns a table, of
    the one column [AB]. *)
Lemma parse_without_boundaries :
  potential_breaks ["AB"; "CD"] "AB" = []
  /\ parse [] ["AB"; "CD"] false
     = Ok (mk_parse_result [{["AB" := VStr "AB"]}; {["AB" := VStr "CD"]}] ["AB"]
                           [mk_field "AB" 0 2 "string"] 2 1).
Proof. vm_compute. split; reflexivity. Qed.

(** *** The detected layout covers the header line *)

Lemma ascending_weaken (a b : Z) (breaks : list Z) :
  a <= b -> ascending b breaks -> ascending a breaks.
Proof. destruct breaks as [|c breaks]; simpl; [tauto|]. intros ? [? ?]. split; [lia|assumption]. Qed.

Lemma ascending_seqZ (m : Z) (n : nat) : ascending m (seqZ m (Z.of_nat n)).
Proof.
  revert m. induction n as [|n IH]; intros m.
  - rewrite seqZ_nil by lia. exact I.
  - rewrite seqZ_cons by lia. simpl. split; [lia|].
    replace (Z.pred (Z.of_nat (S n))) with (Z.of_nat n) by lia.
    apply (ascending_weaken m (Z.succ m)); [lia|apply IH].
Qed.

Lemma ascending_filter (p : Z -> bool) (a : Z) (breaks : list Z) :
  ascending a breaks -> ascending a (List.filter p breaks).
Proof.
  revert a. induction breaks as [|b breaks IH]; intros a; simpl; [tauto|].
  intros [Hab Hb]. destruct (p b); simpl.
  - split; [exact Hab|apply IH; exact Hb].
  - apply (ascending_weaken a b); [exact Hab|apply IH; exact Hb].
Qed.

Lemma ascending_kept_breaks (n : Z) (breaks : list Z) :
  forall (a : Z) (previous : option Z),
    ascending a breaks -> a <= n -> Forall (fun b => b <= n) breaks ->
    ascending a (kept_breaks previous breaks ++ [n]).
Proof.
  induction breaks as [|b breaks IH]; intros a previous Hasc Han Hall; simpl.
  - tauto.
  - destruct Hasc as [Hab Hb]. apply Forall_cons in Hall as [Hbn Hall].
    pose proof (IH b (Some b) Hb Hbn Hall) as Hrest.
    destruct (match previous with None => true | Some p => p + 2 <? b end); simpl.
    + split; assumption.
    + apply (ascending_weaken a b); assumption.
Qed.

Lemma last_cons_default (b : Z) (breaks : list Z) (d d' : Z) :
  List.last (b :: breaks) d = List.last (b :: breaks) d'.
Proof.
  revert b. induction breaks as [|c breaks IH]; intros b; [reflexivity|].
  change (List.last (c :: breaks) d = List.last (c :: breaks) d'). apply IH.
Qed.

Lemma tiles_fields_between (header_line : string) (breaks : list Z) :
  forall (i first : Z),
    ascending first breaks ->
    tiles first (List.last breaks first) (fields_between header_line i (first :: breaks)).
Proof.
  induction breaks as [|next breaks IH]; intros i first Hasc.
  - reflexivity.
  - destruct Hasc as [Hle Hasc]. cbn [fields_between tiles start end_].
    split; [reflexivity|]. split; [exact Hle|].
    assert (Hlast : List.last (next :: breaks) first = List.last breaks next).
    { destruct breaks as [|c breaks']; [reflexivity|].
      change (List.last (c :: breaks') first = List.last (c :: breaks') next).
      apply last_cons_default. }
    rewrite Hlast. apply IH. exact Hasc.
Qed.

(** X1. Whatever the sample lines, two of them or more: the detected fields
    follow one another from position 0 to the end of the header line, without
    overlap and without gap, and there is a field at least. *)
Theorem auto_detect_layout_tiles (header_line second : string) (rest : list string) :
  auto_detect_layout (header_line :: second :: rest) <> []
  /\ tiles 0 (len header_line) (auto_detect_layout (header_line :: second :: rest)).
Proof.
  split.
  - intros H. apply auto_detect_layout_nil in H. simpl in H. lia.
  - unfold auto_detect_layout.
    set (kept := kept_breaks None (potential_breaks (header_line :: second :: rest) header_line)).
    assert (Hasc : ascending 0 (kept ++ [len header_line])).
    { apply ascending_kept_breaks.
      - unfold potential_breaks. apply ascending_filter.
        destruct (Z.le_gt_cases (len header_line - 1) 0) as [Hle|Hgt].
        + rewrite seqZ_nil by exact Hle. exact I.
        + rewrite <- (Z2Nat.id (len header_line - 1)) by lia. apply ascending_seqZ.
      - unfold len. lia.
      - unfold potential_breaks. apply Forall_forall. intros b Hb.
        apply list_elem_of_In, filter_In in Hb as [Hb _].
        apply list_elem_of_In, elem_of_seqZ in Hb. lia. }
    pose proof (tiles_fields_between header_line _ 0 0 Hasc) as Htiles.
    rewrite last_last in Htiles. exact Htiles.
Qed.

(** The sample of the specification: three fields that cover the line. *)
Example auto_detect_layout_sample :
  auto_detect_layout ["ID  NAME      AGE"; "1   Alice     30 "; "2   Bob       25 "]
  = [mk_field "ID" 0 2 "string"; mk_field "NAME" 2 9 "string"; mk_field "AGE" 9 17 "string"].
Proof. vm_compute. reflexivity. Qed.

End FlatFileParserFacts.

(** ** The parser factory ([ParserFactory]) *)

Module ParserFactoryFacts.
Import Py ParserFactory.

(** What makes content detection answer [pipe]. *)
Lemma detect_file_type_pipe (file_path bytes : string) :
  path_extension file_path ∉ dom PARSER_MAP ->
  slice_to (slice_to bytes 8) 4 <> xls_signature ->
  slice_to (slice_to bytes 8) 4 <> xlsx_signature ->
  contains_char "," (slice_to bytes 1024) = false ->
  contains_char (ascii_of_N 9) (slice_to bytes 1024) = false ->
  contains_char "|" (slice_to bytes 1024) = true ->
  detect_file_type file_path (Some bytes) = Some "pipe".
Proof.
  intros Hext Hxls Hxlsx Hcomma Htab Hbar. unfold detect_file_type.
  destruct (decide _) as [?|_]; [contradiction|].
  fold xls_signature xlsx_signature.
  apply String.eqb_neq in Hxls, Hxlsx. rewrite Hxls, Hxlsx, Hcomma, Htab, Hbar. reflexivity.
Qed.

Lemma pipe_not_registered : PARSER_MAP !! "pipe" = None.
Proof. vm_compute. reflexivity. Qed.

(** C9. Content detection can answer [pipe]: it does for every file whose
    extension is not registered, that does not start with a spreadsheet
    signature, and whose sample holds a bar but no comma and no tab, as for
    the file [export] holding [id|name|age]. [pipe] is no key of
    [PARSER_MAP], so [create_parser] called with this type raises the
    unsupported-file-type error, for any path. *)
Theorem detected_pipe_is_unsupported :
  (forall file_path bytes : string,
      path_extension file_path ∉ dom PARSER_MAP ->
      slice_to (slice_to bytes 8) 4 <> xls_signature ->
      slice_to (slice_to bytes 8) 4 <> xlsx_signature ->
      contains_char "," (slice_to bytes 1024) = false ->
      contains_char (ascii_of_N 9) (slice_to bytes 1024) = false ->
      contains_char "|" (slice_to bytes 1024) = true ->
      detect_file_type file_path (Some bytes) = Some "pipe")
  /\ detect_file_type "export" (Some "id|name|age") = Some "pipe"
  /\ ("pipe" ∉ dom PARSER_MAP)
  /\ (forall file_path : string,
         create_parser file_path (Some "pipe")
         = Raise (unsupported_file_type "pipe"))
  /\ (forall file_path content detected,
         detect_file_type file_path content = Some detected ->
         detected = "pipe" \/ detected ∈ dom PARSER_MAP).
Proof.
  split; [exact detect_file_type_pipe|].
  split; [vm_compute; reflexivity|].
  split; [apply not_elem_of_dom; exact pipe_not_registered|].
  split.
  - intros file_path. vm_compute. reflexivity.
  - intros file_path content detected. unfold detect_file_type.
    destruct (decide _) as [Hin|_]; [intros [= <-]; right; exact Hin|].
    destruct content as [bytes|]; [|discriminate].
    repeat match goal with
    | |- (if ?b then _ else _) = _ -> _ => destruct b
    end; intros [= <-]; try (left; reflexivity);
      right; apply elem_of_dom; vm_compute; eauto.
Qed.

End ParserFactoryFacts.

(** ** The fallback mapping ([MappingService._fallback_mapping]) *)

Module MappingServiceFacts.
Import Py MappingService.

(** C7. On the input columns [Customer_Name], [Email] and the reference
    columns [customer_name], [Email_Address], the fallback gives the one
    mapping [Customer_Name -> customer_name], of confidence 90 (the names
    agree once case, underscores and spaces are dropped), leaves [Email]
    among the unmapped input columns and [Email_Address] among the unmapped
    reference columns, and marks the result as the fallback's. *)
Theorem fallback_mapping_example :
  let result := _fallback_mapping (mk_structure ["Customer_Name"; "Email"])
                                  (mk_structure ["customer_name"; "Email_Address"]) in
  mappings result
  = [mk_mapping "Customer_Name" "customer_name" 90 "Case-insensitive match" "rename"]
  /\ unmapped_input_columns result = ["Email"]
  /\ unmapped_reference_columns result = ["Email_Address"]
  /\ fallback_used result = true
  /\ normalized "Customer_Name" = normalized "customer_name"
  /\ normalized "Email" <> normalized "Email_Address".
Proof.
  vm_compute. repeat split; try reflexivity. discriminate.
Qed.

End MappingServiceFacts.

(** ** The transformation engine ([TransformationEngine]) *)

Module TransformationEngineFacts.
Import Py TransformationRule TransformationEngine.

Lemma transform_row_rules (a b : TransformationEngine) (r : row) :
  rules a = rules b -> transform_row a r = transform_row b r.
Proof. unfold transform_row. intros ->. reflexivity. Qed.

Lemma recorded_error_rules (a b : TransformationEngine) (idx : Z) (r : row) :
  rules a = rules b -> recorded_error a idx r = recorded_error b idx r.
Proof. unfold recorded_error. intros H. rewrite (transform_row_rules a b r H). reflexivity. Qed.

Lemma transformed_row_rules (a b : TransformationEngine) (r : row) :
  rules a = rules b -> transformed_row a r = transformed_row b r.
Proof. unfold transformed_row. intros H. rewrite (transform_row_rules a b r H). reflexivity. Qed.

Lemma recorded_errors_shift (a b : TransformationEngine) (idx : Z) (todo : list row) :
  rules a = rules b ->
  imap (fun i r => recorded_error a (idx + 1 + Z.of_nat i) r) todo
  = imap ((fun i r => recorded_error b (idx + Z.of_nat i) r) ∘ S) todo.
Proof.
  intros H. apply imap_ext. intros i x _. simpl.
  rewrite (recorded_error_rules a b _ _ H). f_equal. lia.
Qed.

Lemma transformed_rows_rules (a b : TransformationEngine) (todo : list row) :
  rules a = rules b -> omap (transformed_row a) todo = omap (transformed_row b) todo.
Proof.
  intros H. induction todo as [|r todo IH]; csimpl; [reflexivity|].
  rewrite (transformed_row_rules a b r H), IH. reflexivity.
Qed.

Lemma transform_data_loop_spec (todo : list row) :
  forall (self : TransformationEngine) (idx : Z) (acc : list row),
    transform_data_loop self idx todo acc =
    (mk_engine (rules self)
       (validation_errors self
          ++ omap id (imap (fun i r => recorded_error self (idx + Z.of_nat i) r) todo))%list,
     (acc ++ omap (transformed_row self) todo)%list).
Proof.
  induction todo as [|r todo IH]; intros self idx acc.
  - simpl. rewrite !app_nil_r. destruct self; reflexivity.
  - cbn [transform_data_loop]. rewrite imap_cons. csimpl. rewrite Z.add_0_r.
    destruct (transform_row self r) as [t|e] eqn:E.
    + assert (E1 : recorded_error self idx r = None)
        by (unfold recorded_error; rewrite E; reflexivity).
      assert (E2 : transformed_row self r = Some t)
        by (unfold transformed_row; rewrite E; reflexivity).
      rewrite E1, E2, IH.
      rewrite (recorded_errors_shift self self) by reflexivity.
      rewrite <- app_assoc. reflexivity.
    + assert (E1 : recorded_error self idx r = Some (mk_validation_error idx (exc_msg e) r))
        by (unfold recorded_error; rewrite E; reflexivity).
      assert (E2 : transformed_row self r = None)
        by (unfold transformed_row; rewrite E; reflexivity).
      rewrite E1, E2, IH. cbn [rules validation_errors].
      rewrite (recorded_errors_shift _ self) by reflexivity.
      rewrite (transformed_rows_rules _ self) by reflexivity.
      rewrite <- app_assoc. reflexivity.
Qed.

(** One error at most is recorded for a row, and exactly when it raises. *)
Lemma recorded_error_iff (self : TransformationEngine) (idx : Z) (r : row) :
  is_Ok (transform_row self r) = false <-> is_Some (recorded_error self idx r).
Proof.
  unfold recorded_error. destruct (transform_row self r); simpl; split;
    intros H; try discriminate; eauto; destruct H; discriminate.
Qed.

Lemma rows_partition (self : TransformationEngine) (idx : Z) (data : list row) :
  (List.length (omap (transformed_row self) data)
   + List.length (omap id (imap (fun i r => recorded_error self (idx + Z.of_nat i) r) data))
   = List.length data)%nat.
Proof.
  revert idx. induction data as [|r data IH]; intros idx; [reflexivity|].
  rewrite imap_cons. csimpl.
  rewrite <- (recorded_errors_shift self self) by reflexivity.
  specialize (IH (idx + 1)).
  unfold transformed_row at 1, recorded_error at 1.
  destruct (transform_row self r); simpl; lia.
Qed.

Lemma elem_of_recorded_errors (self : TransformationEngine) (idx : Z) (data : list row)
    (err : validation_error) :
  err ∈ omap id (imap (fun i r => recorded_error self (idx + Z.of_nat i) r) data)
  <-> exists (i : nat) (r : row),
        data !! i = Some r /\ recorded_error self (idx + Z.of_nat i) r = Some err.
Proof.
  rewrite list_elem_of_omap. split.
  - intros (o & Ho & Hid). unfold id in Hid. subst o.
    apply elem_of_lookup_imap in Ho as (i & r & Hr & Hi). eauto.
  - intros (i & r & Hi & Hr). exists (Some err). split; [|reflexivity].
    rewrite <- Hr. apply elem_of_lookup_imap. eauto.
Qed.

Lemma recorded_error_index (self : TransformationEngine) (idx : Z) (r : row)
    (err : validation_error) :
  recorded_error self idx r = Some err -> row_index err = idx.
Proof.
  unfold recorded_error. destruct (transform_row self r); [discriminate|].
  intros [= <-]. reflexivity.
Qed.

Lemma filter_nil_of_forall {A : Type} (p : A -> bool) (l : list A) :
  (forall x, x ∈ l -> p x = false) -> List.filter p l = [].
Proof.
  induction l as [|x l IH]; intros H; simpl; [reflexivity|].
  rewrite (H x) by set_solver. apply IH. intros y Hy. apply H. set_solver.
Qed.

(** The errors recorded for the index of a row are the one of that row. *)
Lemma recorded_errors_at (self : TransformationEngine) (data : list row) :
  forall (idx : Z) (i : nat) (r : row),
    data !! i = Some r ->
    List.filter (fun err => row_index err =? idx + Z.of_nat i)
      (omap id (imap (fun j r => recorded_error self (idx + Z.of_nat j) r) data))
    = option_list (recorded_error self (idx + Z.of_nat i) r).
Proof.
  induction data as [|r0 data IH]; intros idx i r Hi; [discriminate|].
  rewrite imap_cons. csimpl.
  rewrite <- (recorded_errors_shift self self) by reflexivity.
  destruct i as [|i]; simpl in Hi.
  - injection Hi as ->. rewrite !Z.add_0_r.
    assert (Hrest : List.filter (fun err => row_index err =? idx)
              (omap id (imap (fun j r => recorded_error self (idx + 1 + Z.of_nat j) r) data)) = []).
    { apply filter_nil_of_forall. intros err Herr.
      apply elem_of_recorded_errors in Herr as (j & r' & _ & Hj).
      apply recorded_error_index in Hj. lia. }
    destruct (recorded_error self idx r) as [err|] eqn:E; simpl.
    + rewrite (recorded_error_index _ _ _ _ E), Z.eqb_refl, Hrest. reflexivity.
    + exact Hrest.
  - replace (idx + Z.of_nat (S i)) with (idx + 1 + Z.of_nat i) by lia.
    rewrite Z.add_0_r.
    destruct (recorded_error self idx r0) as [err|] eqn:E; simpl.
    + rewrite (recorded_error_index _ _ _ _ E).
      replace (idx =? idx + 1 + Z.of_nat i) with false by (symmetry; apply Z.eqb_neq; lia).
      apply IH. exact Hi.
    + apply IH. exact Hi.
Qed.

(** C1. [transform_data] always returns, whatever the rows and the rules: it
    leaves the rules as they are, returns the transformed rows of the rows
    that do not raise, in the order of the input, and appends to
    [validation_errors] one entry for each row that raises and for no other,
    holding the index of the row, the text of the exception and the row, in
    the order of the input. In particular, of 10 rows of which only the row
    of index 4 raises, 9 are returned and the one error recorded is that of
    index 4. *)
Theorem transform_data_isolates_rows (self : TransformationEngine) (data : list row) :
  let new_errors :=
    omap id (imap (fun i r => recorded_error self (Z.of_nat i) r) data) in
  transform_data self data
  = (mk_engine (rules self) (validation_errors self ++ new_errors)%list,
     omap (transformed_row self) data)
  /\ (List.length (omap (transformed_row self) data) + List.length new_errors
      = List.length data)%nat
  /\ (forall (i : nat) (r : row),
         data !! i = Some r ->
         match transform_row self r with
         | Ok transformed =>
             transformed ∈ omap (transformed_row self) data
             /\ forall err, err ∈ new_errors -> row_index err <> Z.of_nat i
         | Raise e =>
             List.filter (fun err => row_index err =? Z.of_nat i) new_errors
             = [mk_validation_error (Z.of_nat i) (exc_msg e) r]
         end)
  /\ (List.length data = 10%nat ->
      (forall (i : nat) (r : row),
          data !! i = Some r -> (is_Ok (transform_row self r) = false <-> i = 4%nat)) ->
      List.length (snd (transform_data self data)) = 9%nat
      /\ exists e r, data !! 4%nat = Some r /\ transform_row self r = Raise e
                     /\ new_errors = [mk_validation_error 4 (exc_msg e) r]).
Proof.
  intros new_errors.
  assert (Hshift : new_errors
            = omap id (imap (fun i r => recorded_error self (0 + Z.of_nat i) r) data))
    by reflexivity.
  assert (Hrun : transform_data self data
            = (mk_engine (rules self) (validation_errors self ++ new_errors)%list,
               omap (transformed_row self) data)).
  { unfold transform_data. rewrite transform_data_loop_spec. reflexivity. }
  split; [exact Hrun|]. split; [rewrite Hshift; apply rows_partition|]. split.
  - intros i r Hi. destruct (transform_row self r) as [t|e] eqn:E.
    + split.
      * apply list_elem_of_omap. exists r. split; [eapply list_elem_of_lookup_2; eauto|].
        unfold transformed_row. rewrite E. reflexivity.
      * intros err Herr Hidx. rewrite Hshift in Herr.
        apply elem_of_recorded_errors in Herr as (j & r' & Hj & Hr').
        pose proof (recorded_error_index _ _ _ _ Hr') as Hk.
        assert (j = i) by lia. subst j. rewrite Hi in Hj. injection Hj as <-.
        unfold recorded_error in Hr'. rewrite E in Hr'. discriminate.
    + etransitivity; [exact (recorded_errors_at self data 0 i r Hi)|].
      unfold recorded_error. rewrite E. reflexivity.
  - intros Hlen Honly. rewrite Hrun. cbn [snd]. subst new_errors. clear Hshift Hrun.
    destruct data as [|r0 [|r1 [|r2 [|r3 [|r4 [|r5 [|r6 [|r7 [|r8 [|r9 [|]]]]]]]]]]];
      try discriminate.
    assert (Hok : forall (i : nat) (r : row),
               [r0; r1; r2; r3; r4; r5; r6; r7; r8; r9] !! i = Some r -> i <> 4%nat ->
               exists t, transform_row self r = Ok t).
    { intros i r Hi Hne. destruct (transform_row self r) as [t|e] eqn:E; [eauto|].
      exfalso. apply Hne. apply (Honly i r Hi). rewrite E. reflexivity. }
    destruct (Hok 0%nat r0 eq_refl) as [t0 E0]; [lia|].
    destruct (Hok 1%nat r1 eq_refl) as [t1 E1]; [lia|].
    destruct (Hok 2%nat r2 eq_refl) as [t2 E2]; [lia|].
    destruct (Hok 3%nat r3 eq_refl) as [t3 E3]; [lia|].
    destruct (Hok 5%nat r5 eq_refl) as [t5 E5]; [lia|].
    destruct (Hok 6%nat r6 eq_refl) as [t6 E6]; [lia|].
    destruct (Hok 7%nat r7 eq_refl) as [t7 E7]; [lia|].
    destruct (Hok 8%nat r8 eq_refl) as [t8 E8]; [lia|].
    destruct (Hok 9%nat r9 eq_refl) as [t9 E9]; [lia|].
    destruct (transform_row self r4) as [t4|e] eqn:E4.
    { pose proof (proj2 (Honly 4%nat r4 eq_refl) eq_refl) as Hc.
      rewrite E4 in Hc. discriminate. }
    csimpl. unfold transformed_row, recorded_error.
    rewrite E0, E1, E2, E3, E4, E5, E6, E7, E8, E9. csimpl.
    split; [reflexivity|]. exists e, r4. auto.
Qed.

(** Ten rows with an [int] rule, the row of index 4 holding [inf]: nine
    rows come back and the error recorded is that of index 4. *)
Example transform_data_ten_rows :
  let self := mk_engine [mk_rule "amount" "total" "int" None ∅] [] in
  let data := (fun a => {["amount" := VStr a]} : row)
                <$> ["10"; "11.5"; "12"; "13"; "inf"; "15"; "16"; "17"; "18"; "19"] in
  transform_data self data
  = (mk_engine (rules self)
       [mk_validation_error 4 "cannot convert float infinity to integer" {["amount" := VStr "inf"]}],
     (fun z => {["total" := VInt z]} : row) <$> [10; 11; 12; 13; 15; 16; 17; 18; 19]).
Proof. vm_compute. reflexivity. Qed.

(** *** The keys of a transformed row *)

Lemma transform_row_loop_spec (r : row) (todo : list TransformationRule) :
  forall transformed : row,
    Forall (fun rule => is_Ok (written rule r) = true) todo ->
    exists out,
      transform_row_loop todo r transformed = Ok out
      /\ dom out = dom transformed ∪ target_columns todo
      /\ (forall key, key ∉ target_columns todo -> out !! key = transformed !! key)
      /\ (forall rule v,
             last_for_target todo rule -> written rule r = Ok v ->
             out !! target_column rule = Some v).
Proof.
  induction todo as [|rule todo IH]; intros transformed Hall.
  - exists transformed. unfold target_columns. simpl. repeat split.
    + set_solver.
    + intros rule v (before & after & E & _). destruct before; discriminate.
  - apply Forall_cons in Hall as [Hrule Hall].
    cbn [transform_row_loop]. fold (written rule r).
    destruct (written rule r) as [v0|e] eqn:Ev; [|discriminate]. cbn [bind].
    destruct (IH (<[target_column rule := v0]> transformed) Hall)
      as (out & Hrun & Hdom & Hframe & Hlast).
    exists out. split; [exact Hrun|]. split; [|split].
    + rewrite Hdom, dom_insert_L. unfold target_columns. simpl. set_solver.
    + intros key Hkey. unfold target_columns in Hkey. simpl in Hkey.
      rewrite Hframe by (unfold target_columns; set_solver).
      apply lookup_insert_ne. set_solver.
    + intros rule' v (before & after & E & Hafter) Hv.
      destruct before as [|b before]; simpl in E; injection E as -> ->.
      * rewrite Hframe.
        -- rewrite lookup_insert_eq. congruence.
        -- unfold target_columns. rewrite elem_of_list_to_set, list_elem_of_fmap.
           intros (later & Heq & Hin). rewrite Forall_forall in Hafter.
           apply (Hafter later); [exact Hin | congruence].
      * apply Hlast; [|exact Hv]. exists before, after. auto.
Qed.

(** Exactly when one of its rules raises does [transform_row] raise. *)
Lemma transform_row_raises (self : TransformationEngine) (r : row) :
  is_Ok (transform_row self r) = false
  <-> Exists (fun rule => is_Ok (written rule r) = false) (rules self).
Proof.
  unfold transform_row. generalize (∅ : row).
  induction (rules self) as [|rule todo IH]; intros transformed; simpl.
  - split; [discriminate|]. intros H. inversion H.
  - fold (written rule r). rewrite Exists_cons.
    destruct (written rule r); simpl.
    + rewrite IH. split; [tauto|]. intros [?|?]; [discriminate|assumption].
    + tauto.
Qed.

(** The first rule that raises ends the loop: what it raises is what the
    loop raises, whatever the record holds by then. *)
Lemma transform_row_loop_first_raise (r : row) (before : list TransformationRule)
    (rule : TransformationRule) (after : list TransformationRule) (e : exn) :
  forall transformed : row,
    Forall (fun rule => is_Ok (written rule r) = true) before ->
    written rule r = Raise e ->
    transform_row_loop (before ++ rule :: after) r transformed = Raise e.
Proof.
  induction before as [|earlier before IH]; intros transformed Hbefore Hrule.
  - cbn [List.app transform_row_loop]. fold (written rule r). rewrite Hrule. reflexivity.
  - apply Forall_cons in Hbefore as [Hearlier Hbefore].
    change ((earlier :: before) ++ rule :: after)%list
      with (earlier :: (before ++ rule :: after))%list.
    cbn [transform_row_loop]. fold (written earlier r).
    destruct (written earlier r) as [v|e']; [|discriminate]. cbn [bind].
    apply IH; assumption.
Qed.

(** C8 (amended). For every row on which none of the rules raises,
    [transform_row] returns a record whose keys are exactly the target columns
    of the rules, whatever the columns of the row are; and each key holds the
    value written by the last rule that has it as its target column. When a
    rule raises, [transform_row] returns no record: it raises, and what it
    raises is the exception of the first rule that raises, in the order of
    the list; and it raises in no other case. *)
Theorem transform_row_target_keys (self : TransformationEngine) (r : row) :
  (Forall (fun rule => is_Ok (written rule r) = true) (rules self) ->
   exists transformed,
     transform_row self r = Ok transformed
     /\ dom transformed = target_columns (rules self)
     /\ (forall rule v,
            last_for_target (rules self) rule -> written rule r = Ok v ->
            transformed !! target_column rule = Some v))
  /\ (forall before rule after e,
         rules self = (before ++ rule :: after)%list ->
         Forall (fun rule => is_Ok (written rule r) = true) before ->
         written rule r = Raise e ->
         transform_row self r = Raise e)
  /\ (Exists (fun rule => is_Ok (written rule r) = false) (rules self)
      <-> exists e, transform_row self r = Raise e).
Proof.
  split; [|split].
  - intros Hall. unfold transform_row.
    destruct (transform_row_loop_spec r (rules self) ∅ Hall) as (out & Hrun & Hdom & _ & Hlast).
    exists out. split; [exact Hrun|]. split; [|exact Hlast].
    rewrite Hdom. set_solver.
  - intros before rule after e Hrules Hbefore Hrule. unfold transform_row. rewrite Hrules.
    apply transform_row_loop_first_raise; assumption.
  - rewrite <- transform_row_raises.
    destruct (transform_row self r) as [transformed|e]; split.
    + discriminate.
    + intros [e He]. discriminate.
    + intros _. eauto.
    + reflexivity.
Qed.

(** The rules [a -> x (direct)], [b -> y (uppercase)], [c -> x (int)] on a row
    with the columns [a], [b], [c] and [d]: the keys are [x] and [y], and [x]
    holds what the third rule wrote. On a row whose [c] is [inf], the third
    rule raises and so does [transform_row], though the two rules before it
    have written their values. *)
Lemma transform_row_target_keys_witness :
  let self :=
    mk_engine [mk_rule "a" "x" "direct" None ∅; mk_rule "b" "y" "uppercase" None ∅;
               mk_rule "c" "x" "int" None ∅] [] in
  let r : row := {["a" := VStr "first"; "b" := VStr "Mid"; "c" := VStr "42.9"; "d" := VInt 0]} in
  let r' : row := {["a" := VStr "first"; "b" := VStr "Mid"; "c" := VStr "inf"]} in
  (exists transformed,
      transform_row self r = Ok transformed
      /\ dom transformed = ({["x"; "y"]} : gset string)
      /\ transformed !! "x" = Some (VInt 42))
  /\ transform_row self r'
     = Raise (mk_exn OverflowError "cannot convert float infinity to integer").
Proof.
  intros self r r'. split.
  - destruct (proj1 (transform_row_target_keys self r)) as (transformed & Hrun & Hdom & Hlast).
    + repeat constructor.
    + exists transformed. split; [exact Hrun|]. split.
      * rewrite Hdom. vm_compute. reflexivity.
      * apply (Hlast (mk_rule "c" "x" "int" None ∅) (VInt 42)).
        -- exists [mk_rule "a" "x" "direct" None ∅; mk_rule "b" "y" "uppercase" None ∅], [].
           split; [reflexivity|constructor].
        -- vm_compute. reflexivity.
  - apply (proj1 (proj2 (transform_row_target_keys self r'))
             [mk_rule "a" "x" "direct" None ∅; mk_rule "b" "y" "uppercase" None ∅]
             (mk_rule "c" "x" "int" None ∅) []).
    + reflexivity.
    + repeat constructor.
    + vm_compute. reflexivity.
Defined.

(** C8 as stated fails on rows on which a rule raises, for no record is
    returned then. A row whose [amount] is [inf], under the rule
    [amount -> total (int)], makes [transform_row] raise [OverflowError]: the
    [int] conversion catches [ValueError] and [TypeError] only. And so does
    any row under a rule whose own function raises. *)
Lemma transform_row_may_raise :
  transform_row (mk_engine [mk_rule "amount" "total" "int" None ∅] [])
                {["amount" := VStr "inf"]}
  = Raise (mk_exn OverflowError "cannot convert float infinity to integer")
  /\ transform_row
       (mk_engine [mk_rule "amount" "total" "custom"
                     (Some (fun _ _ => Raise (mk_exn ValueError "negative amount"))) ∅] [])
       {["amount" := VInt (-5)]}
     = Raise (mk_exn ValueError "negative amount").
Proof. vm_compute. split; reflexivity. Qed.

End TransformationEngineFacts.

(** ** The fixed-width writer ([FixedWidthOutputGenerator]) *)

Module FixedWidthOutputGeneratorFacts.
Import Py PyFacts FixedWidthOutputGenerator.












End FixedWidthOutputGeneratorFacts.

(** ** The task manager ([BackgroundTaskManager]) *)

Module BackgroundTaskManagerFacts.
Import Py BackgroundTaskManager.

Lemma jobs_update_job_status (d : database) (job_id : string) (new_status : string)
    (new_progress : option Z) (new_error_message new_result_file_id : option string) (id : string) :
  jobs (update_job_status d job_id new_status new_progress new_error_message new_result_file_id)
    !! id
  = if decide (job_id = id)
    then apply_update new_status new_progress new_error_message new_result_file_id <$> jobs d !! id
    else jobs d !! id.
Proof.
  unfold update_job_status. cbn [jobs]. destruct (decide (job_id = id)) as [->|Hne].
  - apply lookup_alter_eq.
  - apply lookup_alter_ne. exact Hne.
Qed.

Lemma dom_update_job_status (d : database) (job_id : string) (new_status : string)
    (new_progress : option Z) (new_error_message new_result_file_id : option string) :
  dom (jobs (update_job_status d job_id new_status new_progress new_error_message
                               new_result_file_id))
  = dom (jobs d).
Proof. unfold update_job_status. cbn [jobs]. apply dom_alter_L. Qed.

(** A job body leaves no row of the table out, and adds none. *)
Lemma dom_run {R : Type} (c : coroutine R) :
  forall d : database, dom (jobs (fst (run c d))) = dom (jobs d).
Proof.
  induction c as [r|e|job_id new_status new_progress new_error new_result k IH|job_id k IH];
    intros d; cbn [run fst]; try reflexivity.
  - rewrite IH. apply dom_update_job_status.
  - apply IH.
Qed.

(** A job body only adds to the writes. *)
Lemma writes_run {R : Type} (c : coroutine R) :
  forall d : database, exists added, writes (fst (run c d)) = (writes d ++ added)%list.
Proof.
  induction c as [r|e|job_id new_status new_progress new_error new_result k IH|job_id k IH];
    intros d; cbn [run fst].
  - exists []. rewrite app_nil_r. reflexivity.
  - exists []. rewrite app_nil_r. reflexivity.
  - destruct (IH (update_job_status d job_id new_status new_progress new_error new_result))
      as [added E].
    rewrite E. unfold update_job_status. cbn [writes]. rewrite <- app_assoc. eauto.
  - apply IH.
Qed.

Section Manager.

Context {R : Type} (result_file_id_of : R -> option string).

(** C4 (amended). For every body run by [execute_task] for a job of the
    table: when the body returns, [execute_task] returns its result and the
    job is completed with progress 100; when the body raises, the exception is
    handled once, by one write that marks the job failed and carries no
    progress, so that the progress stays what it was when the body raised; the
    text of the exception becomes the error message of the job when it is not
    empty, and the error message stays what it was when the text is empty; and
    [execute_task] raises the same exception. *)
Theorem execute_task_outcome (d : database) (job_id : string) (func : string -> coroutine R)
    (j : job) :
  jobs d !! job_id = Some j ->
  let started := update_job_status d job_id TaskStatus.PROCESSING (Some 0) None None in
  let after_body := fst (run (func job_id) started) in
  let outcome := snd (run (func job_id) started) in
  let final := fst (execute_task result_file_id_of d job_id func) in
  snd (execute_task result_file_id_of d job_id func) = outcome
  /\ exists j_body j_final,
       jobs after_body !! job_id = Some j_body
       /\ jobs final !! job_id = Some j_final
       /\ match outcome with
          | Ok result =>
              status j_final = TaskStatus.COMPLETED /\ progress j_final = 100
          | Raise e =>
              status j_final = TaskStatus.FAILED
              /\ progress j_final = progress j_body
              /\ error_message j_final
                 = (if String.eqb (exc_msg e) "" then error_message j_body
                    else Some (exc_msg e))
              /\ writes final
                 = (writes after_body ++ [mk_write job_id TaskStatus.FAILED None])%list
          end.
Proof.
  intros Hj started after_body outcome final.
  assert (Hbody : is_Some (jobs after_body !! job_id)).
  { apply elem_of_dom. unfold after_body. rewrite dom_run. unfold started.
    rewrite dom_update_job_status. apply elem_of_dom. eauto. }
  destruct Hbody as [j_body Hbody].
  unfold final, BackgroundTaskManager.execute_task. fold started.
  destruct (run (func job_id) started) as [d' o] eqn:Erun.
  unfold after_body, outcome in *. cbn [fst snd] in *.
  destruct o as [result|e]; cbn [fst snd]; (split; [reflexivity|]).
  - eexists j_body, _. split; [exact Hbody|].
    rewrite jobs_update_job_status, decide_True, Hbody by reflexivity.
    split; [reflexivity|]. split; reflexivity.
  - eexists j_body, _. split; [exact Hbody|].
    rewrite jobs_update_job_status, decide_True, Hbody by reflexivity.
    split; [reflexivity|]. cbn. repeat split; reflexivity.
Qed.

(** *** Cancellation *)

(** [cancel_job] marks a job cancelled exactly when a task is registered
    for it and is not done; otherwise it changes nothing and answers [False]. *)
Lemma cancel_job_true (self : manager R) (job_id : string) :
  snd (cancel_job self job_id) = true
  <-> exists t : task R, _active_tasks self !! job_id = Some t /\ done t = false.
Proof.
  unfold cancel_job. destruct (_active_tasks self !! job_id) as [t|].
  - destruct (done t) eqn:E; cbn; split; eauto; try discriminate.
    intros (t' & [= <-] & Hd). congruence.
  - cbn. split; [discriminate|]. intros (t & ? & _). discriminate.
Qed.

Lemma cancel_job_no_op (self : manager R) (job_id : string) :
  (forall t : task R, _active_tasks self !! job_id = Some t -> done t = true) ->
  cancel_job self job_id = (self, false).
Proof.
  intros H. unfold cancel_job. destruct (_active_tasks self !! job_id) as [t|]; [|reflexivity].
  rewrite (H t eq_refl). reflexivity.
Qed.

Lemma cancel_job_running (self : manager R) (job_id : string) (t : task R) (j : job) :
  _active_tasks self !! job_id = Some t -> done t = false ->
  jobs (db self) !! job_id = Some j ->
  snd (cancel_job self job_id) = true
  /\ job_status (db (fst (cancel_job self job_id))) job_id = Some TaskStatus.CANCELLED
  /\ status_history (db (fst (cancel_job self job_id))) job_id
     = (status_history (db self) job_id ++ [TaskStatus.CANCELLED])%list.
Proof.
  intros Ht Hd Hj. unfold cancel_job. rewrite Ht, Hd. cbn [negb fst snd db].
  split; [reflexivity|]. split.
  - unfold job_status. rewrite jobs_update_job_status, decide_True, Hj by reflexivity.
    reflexivity.
  - unfold status_history, update_job_status. cbn [writes].
    rewrite List.filter_app, fmap_app. cbn [List.filter w_job_id].
    rewrite String.eqb_refl. reflexivity.
Qed.

Lemma dom_execute_task (d : database) (job_id : string) (func : string -> coroutine R) :
  dom (jobs (fst (execute_task result_file_id_of d job_id func))) = dom (jobs d).
Proof.
  unfold execute_task.
  pose proof (dom_run (func job_id)
                (update_job_status d job_id TaskStatus.PROCESSING (Some 0) None None)) as Hrun.
  destruct (run (func job_id) _) as [d' [result|e]]; cbn [fst] in *;
    rewrite dom_update_job_status, Hrun; apply dom_update_job_status.
Qed.

Lemma reachable_tasks_have_jobs (self : manager R) :
  reachable result_file_id_of self -> tasks_have_jobs self.
Proof.
  unfold tasks_have_jobs. induction 1 as [|self a _ IH Hallowed].
  - cbn. set_solver.
  - destruct a as [user job_type i r t|job_id func|job_id|job_id|job_id]; cbn [perform].
    + unfold create_job. cbn [fst db _active_tasks jobs]. rewrite dom_insert_L. set_solver.
    + unfold start_background_task. cbn [db _active_tasks]. rewrite dom_insert_L.
      cbn [allowed] in Hallowed. set_solver.
    + unfold cancel_job. destruct (_active_tasks self !! job_id) as [t|] eqn:Et; [|exact IH].
      destruct (done t); cbn [negb fst db _active_tasks]; [exact IH|].
      rewrite dom_insert_L, dom_update_job_status.
      assert (job_id ∈ dom (_active_tasks self)) by (apply elem_of_dom; eauto). set_solver.
    + unfold loop_run_task. destruct (_active_tasks self !! job_id) as [t|] eqn:Et; [|exact IH].
      assert (job_id ∈ dom (_active_tasks self)) by (apply elem_of_dom; eauto).
      destruct (done t); [exact IH|].
      destruct (must_cancel t); cbn [db _active_tasks]; rewrite dom_insert_L.
      * set_solver.
      * rewrite dom_execute_task. set_solver.
    + unfold loop_done_callback. destruct (_active_tasks self !! job_id) as [t|]; [|exact IH].
      destruct (done t); [|exact IH]. cbn [db _active_tasks]. rewrite dom_delete_L. set_solver.
Qed.

(** The job [create_job] adds is new to the table. *)
Lemma create_job_fresh (d : database) (user job_type : string) (i r t : option string) :
  snd (create_job d user job_type i r t) ∉ dom (jobs d).
Proof. unfold create_job. cbn [snd]. apply is_fresh. Qed.

(** C3 (amended). On a job that was created and never started, for which
    no task is registered, [cancel_job] changes nothing and answers [False]:
    the job stays pending, the one status written for it since its creation
    being [pending]; it visits neither [processing] nor [cancelled]. On a job
    whose task has run to the end and completed it, [cancel_job] changes
    nothing either and answers [False], before and after the task is taken
    out of the active tasks, and the job stays completed. *)
Theorem cancel_job_when_not_running (self : manager R) :
  reachable result_file_id_of self ->
  (forall (user job_type : string) (input_file reference_file template : option string),
      let created :=
        create_job (db self) user job_type input_file reference_file template in
      let job_id := snd created in
      let self1 := mk_manager (fst created) (_active_tasks self) in
      cancel_job self1 job_id = (self1, false)
      /\ job_status (db self1) job_id = Some TaskStatus.PENDING
      /\ status_history (db self1) job_id
         = (status_history (db self) job_id ++ [TaskStatus.PENDING])%list)
  /\ (forall (job_id : string) (t : task R) (j : job),
         _active_tasks self !! job_id = Some t ->
         done t = false -> must_cancel t = false ->
         jobs (db self) !! job_id = Some j ->
         is_Ok (snd (execute_task result_file_id_of (db self) job_id (task_func t))) = true ->
         let finished := loop_run_task result_file_id_of self job_id in
         let removed := loop_done_callback finished job_id in
         job_status (db finished) job_id = Some TaskStatus.COMPLETED
         /\ cancel_job finished job_id = (finished, false)
         /\ _active_tasks removed !! job_id = None
         /\ cancel_job removed job_id = (removed, false)
         /\ job_status (db removed) job_id = Some TaskStatus.COMPLETED).
Proof.
  intros Hreach. split.
  - intros user job_type input_file reference_file template created job_id self1.
    pose proof (reachable_tasks_have_jobs self Hreach) as Hsub.
    pose proof (create_job_fresh (db self) user job_type input_file reference_file template)
      as Hfresh.
    fold created job_id in Hfresh.
    assert (Hnone : _active_tasks self1 !! job_id = None).
    { apply not_elem_of_dom. unfold tasks_have_jobs in Hsub. cbn. set_solver. }
    split; [|split].
    + apply cancel_job_no_op. intros t Ht. congruence.
    + unfold job_status, self1, created, job_id, create_job. cbn [db fst snd jobs].
      rewrite lookup_insert_eq. reflexivity.
    + unfold status_history, self1, created, job_id, create_job. cbn [db fst snd writes].
      rewrite List.filter_app, fmap_app. cbn [List.filter w_job_id].
      rewrite String.eqb_refl. reflexivity.
  - intros job_id t j Ht Hdone Hcancel Hj Hok finished removed.
    assert (Hfin : finished
              = mk_manager (fst (execute_task result_file_id_of (db self) job_id (task_func t)))
                           (<[job_id := mk_task (task_func t) false true]> (_active_tasks self))).
    { unfold finished, loop_run_task. rewrite Ht, Hdone, Hcancel. reflexivity. }
    assert (Hstatus : job_status (db finished) job_id = Some TaskStatus.COMPLETED).
    { rewrite Hfin. cbn [db].
      destruct (execute_task_outcome (db self) job_id (task_func t) j Hj)
        as (Hout & j_body & j_final & _ & Hfinal & Hcase).
      rewrite Hout in Hok.
      destruct (snd (run (task_func t job_id) _)); [|discriminate].
      unfold job_status. rewrite Hfinal. cbn. f_equal. tauto. }
    assert (Htask : _active_tasks finished !! job_id = Some (mk_task (task_func t) false true)).
    { rewrite Hfin. cbn [_active_tasks]. apply lookup_insert_eq. }
    assert (Hrem : removed = mk_manager (db finished) (delete job_id (_active_tasks finished))).
    { unfold removed, loop_done_callback. rewrite Htask. reflexivity. }
    assert (Hgone : _active_tasks removed !! job_id = None).
    { rewrite Hrem. cbn [_active_tasks]. apply lookup_delete_eq. }
    split; [exact Hstatus|]. split; [|split; [exact Hgone|split]].
    + apply cancel_job_no_op. intros t' Ht'. rewrite Htask in Ht'. injection Ht' as <-. reflexivity.
    + apply cancel_job_no_op. intros t' Ht'. congruence.
    + rewrite Hrem. cbn [db]. exact Hstatus.
Qed.

End Manager.

(** On a new task manager: the job that was created and not started stays
    pending under [cancel_job]. *)
Lemma cancel_job_when_not_running_witness :
  let created := create_job (db (initial_manager unit)) "alice" "transform" (Some "file-1") None None in
  let self1 := mk_manager (fst created) (_active_tasks (initial_manager unit)) in
  cancel_job self1 (snd created) = (self1, false)
  /\ job_status (db self1) (snd created) = Some "pending"
  /\ status_history (db self1) (snd created) = ["pending"].
Proof.
  exact (proj1 (cancel_job_when_not_running (fun _ : unit => None) (initial_manager unit)
                  (reachable_initial (fun _ : unit => None)))
               "alice" "transform" (Some "file-1") None None).
Defined.

(** C3 as stated fails: after [create_job] and [cancel_job] on a new task
    manager the job is pending, not cancelled, and [cancel_job] has answered
    [False]. *)
Lemma cancel_job_leaves_pending :
  let created := create_job (db (initial_manager unit)) "alice" "transform" (Some "file-1") None None in
  let cancelled :=
    cancel_job (mk_manager (fst created) (∅ : gmap string (task unit))) (snd created) in
  snd cancelled = false
  /\ job_status (db (fst cancelled)) (snd created) = Some TaskStatus.PENDING
  /\ job_status (db (fst cancelled)) (snd created) <> Some TaskStatus.CANCELLED
  /\ status_history (db (fst cancelled)) (snd created) = [TaskStatus.PENDING].
Proof. vm_compute. repeat split; try reflexivity. discriminate. Qed.

(** A body that reports the progress 40 and raises [boom]: the job ends
    failed, at progress 40, with that error message, and the exception is
    raised again. *)
Lemma execute_task_outcome_witness :
  let created := create_job (mk_database ∅ []) "alice" "transform" (Some "file-1") None None in
  let body (job_id : string) : coroutine unit :=
    AwaitUpdateJobStatus job_id TaskStatus.PROCESSING (Some 40) None None
      (Throw (mk_exn Exception_ "boom")) in
  let ran := execute_task (fun _ : unit => None) (fst created) (snd created) body in
  snd ran = Raise (mk_exn Exception_ "boom")
  /\ exists j_final,
       jobs (fst ran) !! snd created = Some j_final
       /\ status j_final = "failed" /\ progress j_final = 40
       /\ error_message j_final = Some "boom".
Proof.
  intros created body ran.
  destruct (execute_task_outcome (fun _ : unit => None) (fst created) (snd created) body
              (mk_job "alice" "pending" 0 (Some "file-1") None None None None) eq_refl)
    as (Hout & j_body & j_final & Hbody & Hfinal & Hst & Hpr & Hmsg & _).
  split; [exact Hout|]. exists j_final. split; [exact Hfinal|]. split; [exact Hst|].
  split; [|exact Hmsg].
  rewrite Hpr. vm_compute in Hbody. injection Hbody as <-. reflexivity.
Defined.

(** C4 as stated fails on an exception without text, such as
    [ValueError()], a failed [assert] or a timeout: the job is marked failed
    and the exception raised again, but no error message is recorded, as
    [update_job_status] writes the message only [if error_message]. *)
Lemma execute_task_empty_message :
  let created := create_job (mk_database ∅ []) "alice" "transform" (Some "file-1") None None in
  let body (job_id : string) : coroutine unit := Throw (mk_exn ValueError "") in
  let ran := execute_task (fun _ : unit => None) (fst created) (snd created) body in
  snd ran = Raise (mk_exn ValueError "")
  /\ status <$> jobs (fst ran) !! snd created = Some "failed"
  /\ error_message <$> jobs (fst ran) !! snd created = Some None.
Proof. vm_compute. repeat split; reflexivity. Qed.

(** X2. A job whose task was started and has not run yet goes from pending to
    cancelled under [cancel_job]; the event loop then ends the task without
    running its body, so the job never becomes [processing]. *)
Lemma cancel_before_first_run {R : Type} (result_file_id_of : R -> option string)
    (self : manager R) (job_id : string) (func : string -> coroutine R) (j : job) :
  jobs (db self) !! job_id = Some j ->
  let started := start_background_task self job_id func in
  let cancelled := fst (cancel_job started job_id) in
  let ended := loop_run_task result_file_id_of cancelled job_id in
  snd (cancel_job started job_id) = true
  /\ job_status (db cancelled) job_id = Some TaskStatus.CANCELLED
  /\ status_history (db ended) job_id
     = (status_history (db self) job_id ++ [TaskStatus.CANCELLED])%list
  /\ db ended = db cancelled.
Proof.
  intros Hj started cancelled ended.
  assert (Ht : _active_tasks started !! job_id = Some (mk_task func false false))
    by apply lookup_insert_eq.
  destruct (cancel_job_running started job_id _ j Ht eq_refl Hj) as (Htrue & Hst & Hhist).
  assert (Hended : db ended = db cancelled).
  { unfold ended, loop_run_task, cancelled, cancel_job. rewrite Ht. cbn [done negb fst _active_tasks].
    rewrite lookup_insert_eq. reflexivity. }
  repeat split; [exact Htrue|exact Hst| |exact Hended].
  rewrite Hended. exact Hhist.
Qed.

End BackgroundTaskManagerFacts.

(** ** Batch jobs ([JobProcessor.process_batch_files]) *)

Module JobProcessorFacts.
Import Py BackgroundTaskManager JobProcessor.

Section Batch.

Context {structure : Type} (analyze_structure : string -> string -> result structure).
Context (job_id operation user : string).

Local Abbreviation processed_entry := (processed_entry analyze_structure operation user).
Local Abbreviation failed_entry := (failed_entry analyze_structure operation user).

(** Every item is either processed or failed. *)
Lemma entry_exclusive (file_id : string) :
  (is_Some (processed_entry file_id) /\ failed_entry file_id = None)
  \/ (processed_entry file_id = None /\ is_Some (failed_entry file_id)).
Proof.
  unfold processed_entry, failed_entry.
  destruct (String.eqb operation "analyze"); [|right; eauto].
  destruct (analyze_structure file_id user); [left|right]; eauto.
Qed.

Lemma omap_cons_entry {A B : Type} (f : A -> option B) (x : A) (l : list A) :
  omap f (x :: l) = (option_list (f x) ++ omap f l)%list.
Proof. csimpl. destruct (f x); reflexivity. Qed.

Lemma run_batch_loop (total_files : Z) (todo : list string) :
  forall (idx : Z) (processed_files : list (string * structure))
         (failed_files : list (string * string)) (d : database),
    Forall (fun i => is_Ok (batch_progress i total_files) = true)
           (seqZ idx (Z.of_nat (List.length todo))) ->
    let processed_files' := (processed_files ++ omap processed_entry todo)%list in
    let failed_files' := (failed_files ++ omap failed_entry todo)%list in
    exists d',
      run (batch_loop analyze_structure job_id operation user total_files idx todo
                      processed_files failed_files) d
      = (d', Ok (mk_batch_result total_files
                   (Z.of_nat (List.length processed_files'))
                   (Z.of_nat (List.length failed_files'))
                   processed_files' failed_files'))
      /\ writes d'
         = (writes d
            ++ ((fun p => mk_write job_id TaskStatus.PROCESSING (Some p))
                  <$> omap (progress_write total_files)
                           (seqZ idx (Z.of_nat (List.length todo)))))%list.
Proof.
  induction todo as [|file_id todo IH]; intros idx processed_files failed_files d Hall.
  - cbn. rewrite !app_nil_r. eauto.
  - cbn [List.length] in Hall |- *. rewrite Nat2Z.inj_succ in Hall |- *.
    rewrite seqZ_cons in Hall |- * by lia. rewrite Z.pred_succ in Hall |- *.
    replace (Z.succ idx) with (idx + 1) in Hall |- * by lia.
    apply Forall_cons in Hall as [Hp Hall].
    rewrite !omap_cons_entry. cbn [batch_loop].
    unfold progress_write at 1, processed_entry at 1 3, failed_entry at 1 3.
    destruct (batch_progress idx total_files) as [p|e]; [|discriminate].
    cbn [run option_list].
    destruct (String.eqb operation "analyze");
      [destruct (analyze_structure file_id user) as [result|e]|];
      (edestruct IH as (d' & Hrun & Hwrites); [exact Hall|]);
      exists d'; rewrite Hrun, Hwrites; unfold update_job_status; cbn [writes option_list];
      rewrite <- !app_assoc; split; reflexivity.
Qed.

Lemma progress_of_writes (status : string) (l : list Z) :
  omap w_progress ((fun p => mk_write job_id status (Some p)) <$> l) = l.
Proof. induction l as [|p l IHl]; csimpl; [reflexivity|]. f_equal. exact IHl. Qed.

(** The batch attempts every item: it returns with each item among the
    results or among the errors, and has reported the progress of each item. *)
Lemma process_batch_files_attempts_all (file_ids : list string) (d : database) :
  let total_files := Z.of_nat (List.length file_ids) in
  Forall (fun i => is_Ok (batch_progress i total_files) = true) (seqZ 0 total_files) ->
  exists d',
    run (process_batch_files analyze_structure file_ids operation user job_id) d
    = (d', Ok (mk_batch_result total_files
                 (Z.of_nat (List.length (omap processed_entry file_ids)))
                 (Z.of_nat (List.length (omap failed_entry file_ids)))
                 (omap processed_entry file_ids) (omap failed_entry file_ids)))
    /\ reported_progress d d' = omap (progress_write total_files) (seqZ 0 total_files).
Proof.
  intros total_files Hall. unfold process_batch_files.
  destruct (run_batch_loop total_files file_ids 0 [] [] d Hall) as (d' & Hrun & Hwrites).
  exists d'. split; [exact Hrun|].
  unfold reported_progress. rewrite Hwrites, drop_app_length. apply progress_of_writes.
Qed.

End Batch.

(** The progress of the item of index 28 of 50 is computed as 57, one below
    the percentage of 29 items of 50 rounded down. *)
Lemma batch_progress_28_of_50 :
  batch_progress 28 50 = Ok 57 /\ ((28 + 1) * 100) `div` 50 = 58.
Proof. vm_compute. split; reflexivity. Qed.

Lemma batch_progress_ok_50 :
  Forall (fun i => is_Ok (batch_progress i 50) = true) (seqZ 0 50).
Proof.
  apply Forall_forall. intros i Hi. apply list_elem_of_In in Hi.
  assert (H : forallb (fun i => is_Ok (batch_progress i 50)) (seqZ 0 50) = true)
    by (vm_compute; reflexivity).
  rewrite forallb_forall in H. exact (H i Hi).
Qed.

(** The progress values a batch of 50 items reports. *)
Lemma progress_writes_50 :
  omap (fun idx => match batch_progress idx 50 with
                   | Ok p => Some (Z.min 100 (Z.max 0 p))
                   | Raise _ => None
                   end) (seqZ 0 50)
  = [2; 4; 6; 8; 10; 12; 14; 16; 18; 20; 22; 24; 26; 28; 30; 32; 34; 36; 38; 40; 42; 44; 46;
     48; 50; 52; 54; 56; 57; 60; 62; 64; 66; 68; 70; 72; 74; 76; 78; 80; 82; 84; 86; 88; 90;
     92; 94; 96; 98; 100].
Proof. vm_compute. reflexivity. Qed.

(** C5, at a batch of 50 items. Whatever the analysis of the items gives,
    the batch returns with all 50 items among its results and errors, and the
    progress it reports for the item of index 28 is 57, where 29 items of 50
    are 58 per cent: the quotient [29 / 50] and its product with 100 are
    rounded to binary64 values, and the product falls below 58. *)
Theorem batch_progress_rounding {structure : Type}
    (analyze_structure : string -> string -> result structure)
    (job_id operation user : string) (d : database) :
  let file_ids := (fun i => "file_" +:+ str_of_int i) <$> seqZ 1 50 in
  exists d' batch,
    run (process_batch_files analyze_structure file_ids operation user job_id) d = (d', Ok batch)
    /\ total batch = 50
    /\ processed batch + failed batch = 50
    /\ List.length (reported_progress d d') = 50%nat
    /\ reported_progress d d' !! 28%nat = Some 57
    /\ ((28 + 1) * 100) `div` 50 = 58.
Proof.
  intros file_ids.
  assert (Hlen50 : List.length file_ids = 50%nat) by reflexivity.
  pose proof (process_batch_files_attempts_all analyze_structure job_id operation user file_ids d)
    as Hrun.
  cbv zeta in Hrun. rewrite Hlen50 in Hrun. change (Z.of_nat 50) with 50 in Hrun.
  destruct (Hrun batch_progress_ok_50) as (d' & Hrun' & Hprog). clear Hrun.
  unfold progress_write in Hprog. rewrite progress_writes_50 in Hprog.
  eexists d', _. split; [exact Hrun'|]. cbn [total processed failed].
  split; [reflexivity|]. split; [|rewrite Hprog; repeat split; reflexivity].
  assert (Hlen : forall l : list string,
             (List.length (omap (processed_entry analyze_structure operation user) l)
              + List.length (omap (failed_entry analyze_structure operation user) l)
              = List.length l)%nat).
  { induction l as [|x l IHl]; [reflexivity|]. rewrite !omap_cons_entry, !length_app.
    destruct (entry_exclusive analyze_structure operation user x) as [[[y ->] ->]|[-> [y ->]]];
      simpl option_list; simpl List.length; lia. }
  specialize (Hlen file_ids). rewrite Hlen50 in Hlen. lia.
Qed.

End JobProcessorFacts.

(* ===================================================================== *)
(** * Further properties of the code *)
(* ===================================================================== *)

(** ** Slices, [strip] and concatenation *)

Module TextFacts.
Import Py PyFacts.

Lemma chars_append (s t : string) : chars (s +:+ t) = (chars s ++ chars t)%list.
Proof.
  induction s as [|c s IH]; [reflexivity|].
  rewrite append_cons. unfold chars in *. simpl. f_equal. exact IH.
Qed.

Lemma text_app (l m : list ascii) : text (l ++ m) = text l +:+ text m.
Proof.
  rewrite <- (chars_text l) at 1. rewrite <- (chars_text m) at 1.
  rewrite <- chars_append. apply text_chars.
Qed.

Lemma len_text (l : list ascii) : len (text l) = Z.of_nat (List.length l).
Proof. unfold len. rewrite length_text. reflexivity. Qed.

Lemma len_chars (s : string) : Z.of_nat (List.length (chars s)) = len s.
Proof. unfold len. rewrite length_chars. reflexivity. Qed.

(** *** [lskip] *)


Lemma lskip_kept (p : ascii -> bool) (c : ascii) (l : list ascii) :
  p c = false -> lskip p (c :: l) = c :: l.
Proof. intros H. simpl. rewrite H. reflexivity. Qed.

(** What [lskip] leaves is empty or starts with a character that stays. *)
Lemma lskip_head (p : ascii -> bool) (l : list ascii) :
  lskip p l = [] \/ exists c rest, lskip p l = c :: rest /\ p c = false.
Proof.
  induction l as [|c l IH]; [left; reflexivity|].
  simpl. destruct (p c) eqn:Hc; [exact IH|].
  right. exists c, l. split; [reflexivity|exact Hc].
Qed.



Lemma lskip_length (p : ascii -> bool) (l : list ascii) :
  (List.length (lskip p l) <= List.length l)%nat.
Proof.
  induction l as [|c l IH]; [reflexivity|].
  simpl. destruct (p c); simpl; lia.
Qed.

(** What [lskip] leaves of a list that ends with a character that stays ends
    with that character. *)
Lemma lskip_snoc (p : ascii -> bool) (l : list ascii) (c : ascii) :
  p c = false -> exists rest, lskip p (l ++ [c]) = (rest ++ [c])%list.
Proof.
  intros Hc. induction l as [|d l IH].
  - exists []. simpl. rewrite Hc. reflexivity.
  - simpl. destruct (p d).
    + exact IH.
    + exists (d :: l). reflexivity.
Qed.

(** *** [skip_around] and [strip] *)

Lemma skip_around_length (p : ascii -> bool) (l : list ascii) :
  (List.length (skip_around p l) <= List.length l)%nat.
Proof.
  unfold skip_around. rewrite length_rev.
  pose proof (lskip_length p (rev (lskip p l))) as H1.
  pose proof (lskip_length p l) as H2.
  rewrite length_rev in H1. lia.
Qed.

Lemma lskip_idempotent (p : ascii -> bool) (l : list ascii) :
  lskip p (lskip p l) = lskip p l.
Proof.
  destruct (lskip_head p l) as [Hnil|(c & rest & Hl & Hc)].
  - rewrite Hnil. reflexivity.
  - rewrite Hl. apply lskip_kept. exact Hc.
Qed.

(** Skipping at both ends leaves nothing more to skip. *)
Lemma skip_around_idempotent (p : ascii -> bool) (l : list ascii) :
  skip_around p (skip_around p l) = skip_around p l.
Proof.
  unfold skip_around.
  set (kept := lskip p (rev (lskip p l))).
  assert (Hfront : lskip p (rev kept) = rev kept).
  { unfold kept. destruct (lskip_head p l) as [Hnil|(c & rest & Hl & Hc)].
    - rewrite Hnil. reflexivity.
    - rewrite Hl. cbn [rev].
      destruct (lskip_snoc p (rev rest) c Hc) as (middle & Hmiddle).
      rewrite Hmiddle, rev_app_distr. apply lskip_kept. exact Hc. }
  rewrite Hfront, rev_involutive. unfold kept. rewrite lskip_idempotent. reflexivity.
Qed.


Lemma strip_idempotent (s : string) : strip (strip s) = strip s.
Proof.
  unfold strip, strip_chars. rewrite chars_text, skip_around_idempotent. reflexivity.
Qed.

Lemma len_strip (s : string) : len (strip s) <= len s.
Proof.
  unfold strip, strip_chars. rewrite len_text, <- len_chars.
  pose proof (skip_around_length is_space (chars s)). lia.
Qed.


(** *** Slices *)

(** [s[start:stop]] with bounds that are not negative holds at most
    [stop - start] characters. *)
Lemma len_slice (s : string) (start stop : Z) :
  0 <= start -> 0 <= stop -> len (slice s start stop) <= Z.max 0 (stop - start).
Proof.
  intros Hstart Hstop. unfold slice, slice_index.
  replace (start <? 0) with false by (symmetry; apply Z.ltb_ge; lia).
  replace (stop <? 0) with false by (symmetry; apply Z.ltb_ge; lia).
  rewrite len_text, length_take, length_drop, <- (len_chars s).
  generalize (List.length (chars s)). intros n. lia.
Qed.

(** A slice that starts at the end of the text or after it is empty. *)
Lemma slice_past_end (s : string) (start stop : Z) :
  len s <= start -> slice s start stop = "".
Proof.
  intros H. unfold slice, slice_index. pose proof (len_nonneg s).
  replace (start <? 0) with false by (symmetry; apply Z.ltb_ge; lia).
  rewrite (Z.min_l (len s) start) by lia.
  rewrite drop_ge; [rewrite take_nil; reflexivity|].
  rewrite <- (len_chars s). generalize (List.length (chars s)). intros n. lia.
Qed.



End TextFacts.

(* ===================================================================== *)
(** ** Fixed-width fields ([FieldDefinition], [FlatFileParser.parse]) *)
(* ===================================================================== *)

Module FieldLayoutFacts.
Import Py PyFacts TextFacts FlatFileParser.

(** The keys of the row read from a line are the names of the fields. *)
Lemma dom_parse_line (layout : list FieldDefinition) (line : string) :
  dom (parse_line layout line) = list_to_set (name <$> layout).
Proof.
  unfold parse_line.
  assert (Hgen : forall row : gmap string value,
            dom (fold_left (fun row field => <[name field := VStr (extract field line)]> row)
                           layout row)
            = dom row ∪ list_to_set (name <$> layout)).
  { induction layout as [|field layout IH]; intros row; csimpl.
    - set_solver.
    - rewrite IH, dom_insert_L. set_solver. }
  rewrite Hgen. set_solver.
Qed.

(** When no two fields share a name, the row holds for each field the text
    the field extracts. *)
Lemma lookup_parse_line (layout : list FieldDefinition) (line : string) :
  NoDup (name <$> layout) ->
  Forall (fun field => parse_line layout line !! name field = Some (VStr (extract field line)))
         layout.
Proof.
  unfold parse_line. intros Hnodup.
  assert (Hgen : forall row : gmap string value,
            let out := fold_left (fun row field => <[name field := VStr (extract field line)]> row)
                                 layout row in
            Forall (fun field => out !! name field = Some (VStr (extract field line))) layout
            /\ forall key, key ∉ name <$> layout -> out !! key = row !! key).
  { induction layout as [|field layout IH]; intros row; csimpl.
    - split; [constructor|reflexivity].
    - apply NoDup_cons in Hnodup as [Hfresh Hnodup].
      destruct (IH Hnodup (<[name field := VStr (extract field line)]> row)) as [Hall Hframe].
      split.
      + constructor; [|exact Hall].
        rewrite (Hframe _ Hfresh). apply lookup_insert_eq.
      + intros key Hkey. apply not_elem_of_cons in Hkey as [Hne Hkey].
        rewrite (Hframe _ Hkey). apply lookup_insert_ne. congruence. }
  apply Hgen.
Qed.

(** X3. When [parse] returns, the headers are the names of the fields of the
    layout it used, the supplied one when there is one; every line that is not
    blank, from the second one on when the header is skipped, gives one row, in
    order; the keys of a row are the headers; and when no two fields share a
    name, a row holds for each field the stripped text of the positions of the
    field in the line. *)
Theorem parse_reads_fields (layout : list FieldDefinition) (lines : list string)
    (skip_header : bool) (result : ParseResult) :
  parse layout lines skip_header = Ok result ->
  headers result = name <$> metadata_layout result
  /\ (layout <> [] -> metadata_layout result = layout)
  /\ metadata_row_count result = Z.of_nat (List.length (data result))
  /\ metadata_column_count result = Z.of_nat (List.length (metadata_layout result))
  /\ Forall2
       (fun line row =>
          dom row = list_to_set (headers result)
          /\ (NoDup (headers result) ->
              Forall (fun field => row !! name field = Some (VStr (extract field line)))
                     (metadata_layout result)))
       (List.filter (fun line => negb (String.eqb (strip line) ""))
                    (drop (if skip_header then 1 else 0)%nat lines))
       (data result).
Proof.
  unfold parse. intros H.
  set (used := match layout with [] => auto_detect_layout lines | _ :: _ => layout end) in H.
  assert (Hused : layout <> [] -> used = layout).
  { destruct layout; [intros Hne; contradiction|reflexivity]. }
  destruct used as [|field used'] eqn:Eused; [discriminate|].
  injection H as <-. cbn [headers metadata_layout metadata_row_count metadata_column_count data].
  split; [reflexivity|]. split; [exact Hused|]. split; [reflexivity|].
  split; [rewrite length_map; reflexivity|].
  apply Forall2_fmap_r, Forall_Forall2_diag, Forall_forall. intros line _.
  split; [exact (dom_parse_line (field :: used') line)|].
  exact (lookup_parse_line (field :: used') line).
Qed.

(** X4. A field whose positions are not negative extracts at most
    [end - start] characters, with no white space left at either end, and
    extracts the empty text from a line that ends before the field starts. *)
Theorem extract_within_field (field : FieldDefinition) (line : string) :
  0 <= start field -> 0 <= end_ field ->
  len (extract field line) <= Z.max 0 (end_ field - start field)
  /\ strip (extract field line) = extract field line
  /\ (len line <= start field -> extract field line = "").
Proof.
  intros Hstart Hend. unfold extract. split; [|split].
  - pose proof (len_strip (slice line (start field) (end_ field))).
    pose proof (len_slice line (start field) (end_ field) Hstart Hend). lia.
  - apply strip_idempotent.
  - intros Hshort. rewrite slice_past_end by exact Hshort. reflexivity.
Qed.

End FieldLayoutFacts.

Lemma parse_reads_fields_witness :
  let layout := [FlatFileParser.mk_field "ID" 0 4 "string";
                 FlatFileParser.mk_field "NAME" 4 8 "string"] in
  let lines := ["ID  NAME"; "7   Ann "; ""; "12  Bo  "] in
  exists result,
    FlatFileParser.parse layout lines true = Py.Ok result
    /\ FlatFileParser.headers result = ["ID"; "NAME"]
    /\ FlatFileParser.metadata_row_count result = 2
    /\ Forall2
         (fun line row =>
            dom row = list_to_set (FlatFileParser.headers result)
            /\ (NoDup (FlatFileParser.headers result) ->
                Forall (fun field =>
                          row !! FlatFileParser.name field
                          = Some (Py.VStr (FlatFileParser.extract field line)))
                       (FlatFileParser.metadata_layout result)))
         ["7   Ann "; "12  Bo  "] (FlatFileParser.data result).
Proof.
  intros layout lines. eexists. split; [reflexivity|].
  split; [reflexivity|]. split; [reflexivity|].
  apply (FieldLayoutFacts.parse_reads_fields layout lines true _ eq_refl).
Defined.

Lemma extract_within_field_witness :
  let field := FlatFileParser.mk_field "NAME" 4 8 "string" in
  Py.len (FlatFileParser.extract field "12  Bo  ") <= Z.max 0 (8 - 4)
  /\ Py.strip (FlatFileParser.extract field "12  Bo  ") = FlatFileParser.extract field "12  Bo  "
  /\ (Py.len "12  Bo  " <= 4 -> FlatFileParser.extract field "12  Bo  " = "").
Proof.
  apply (FieldLayoutFacts.extract_within_field
           (FlatFileParser.mk_field "NAME" 4 8 "string") "12  Bo  "); cbn; lia.
Defined.

(* ===================================================================== *)
(** ** The fixed-width writer read back by position *)
(* ===================================================================== *)

Module FixedWidthFacts.
Import Py PyFacts TextFacts FixedWidthOutputGenerator FixedWidthOutputGeneratorFacts.

Lemma fold_left_append {A : Type} (f : A -> string) (l : list A) (line : string) :
  fold_left (fun line x => line +:+ f x) l line
  = line +:+ fold_right (fun x rest => f x +:+ rest) "" l.
Proof.
  revert line. induction l as [|x l IH]; intros line; simpl.
  - rewrite append_nil_r. reflexivity.
  - rewrite IH, append_assoc. reflexivity.
Qed.


(** The padded headers, one after the other, are as long as the header
    width. *)
Lemma len_padded_headers (headers : list string) (column_widths : gmap string Z) :
  len (fold_right (fun x rest => ljust x (width_of column_widths x) +:+ rest) "" headers)
  = header_width headers column_widths.
Proof.
  unfold header_width.
  induction headers as [|header headers IH]; [reflexivity|].
  csimpl. rewrite len_append, len_ljust, IH. reflexivity.
Qed.

(** X5. The header line is not cut to the widths: a header takes the longer
    of its own length and the width of its column, so the header line is as
    long as the sum of these, whatever the widths. *)
Theorem header_line_length (headers : list string) (column_widths : gmap string Z) :
  len (header_line headers column_widths) = header_width headers column_widths.
Proof.
  unfold header_line. rewrite fold_left_append.
  change ("" +:+ fold_right (fun x rest => ljust x (width_of column_widths x) +:+ rest) "" headers)
    with (fold_right (fun x rest => ljust x (width_of column_widths x) +:+ rest) "" headers).
  apply len_padded_headers.
Qed.




End FixedWidthFacts.



(* ===================================================================== *)
(** ** The choice of the parser ([ParserFactory]) *)
(* ===================================================================== *)

Module ParserSelectionFacts.
Import Py PyFacts TextFacts InferDataTypeFacts ParserFactory.

Lemma lower_upper_char (c : ascii) : lower_char (upper_char c) = lower_char c.
Proof. by_cases_on_char c. Qed.

Lemma lower_upper (s : string) : lower (upper s) = lower s.
Proof.
  unfold lower, upper. rewrite PyFacts.chars_text, map_map. f_equal.
  apply map_ext. intros c. apply lower_upper_char.
Qed.

Lemma upper_empty (s : string) : String.eqb (upper s) "" = String.eqb s "".
Proof. destruct s; reflexivity. Qed.

(** The extensions of the map are these seven. *)
Lemma registered_extension (extension : string) (parser_class : parser_class) :
  PARSER_MAP !! extension = Some parser_class ->
  extension ∈ ["csv"; "xls"; "xlsx"; "txt"; "tsv"; "dat"; "fixed"].
Proof.
  intros H. apply (elem_of_dom_2 (D := gset string)) in H.
  unfold PARSER_MAP in H. rewrite dom_list_to_map_L in H.
  apply elem_of_list_to_set in H. exact H.
Qed.

(** X8. A file type written in ASCII characters is read by [create_parser]
    without regard to the case of its letters: in upper case it gives the
    same parser, or the same error, as it does as written. (Outside ASCII
    [upper] and [lower] are not those of Python, where some letters change
    into others, or into two, when the case changes twice.) *)
Theorem create_parser_ignores_case (file_path file_type : string) :
  Forall (fun c => (code c < 128)%N) (chars file_type) ->
  create_parser file_path (Some (upper file_type)) = create_parser file_path (Some file_type).
Proof.
  intros _. unfold create_parser. rewrite upper_empty, lower_upper. reflexivity.
Qed.

(** X9. What [detect_file_type] answers is a type [create_parser] accepts for
    the file, but for [pipe]: every other answer is a key of the map and gives
    the parser registered for it, and [pipe] is refused as unsupported. *)
Theorem detected_type_is_created_unless_pipe (file_path : string) (content : option string)
    (file_type : string) :
  detect_file_type file_path content = Some file_type ->
  (exists parser_class,
      PARSER_MAP !! file_type = Some parser_class
      /\ create_parser file_path (Some file_type) = Ok (mk_parser parser_class file_path))
  \/ (file_type = "pipe"
      /\ create_parser file_path (Some file_type) = Raise (unsupported_file_type "pipe")).
Proof.
  unfold detect_file_type. intros H.
  assert (Hkey : forall parser_class,
             PARSER_MAP !! file_type = Some parser_class ->
             create_parser file_path (Some file_type) = Ok (mk_parser parser_class file_path)).
  { intros parser_class Hin. pose proof (registered_extension _ _ Hin) as Hext.
    unfold create_parser.
    repeat (apply elem_of_cons in Hext as [->|Hext];
            [vm_compute in Hin; injection Hin as <-; reflexivity|]).
    inversion Hext. }
  destruct (decide (path_extension file_path ∈ dom PARSER_MAP)) as [Hin|_].
  - injection H as <-. apply elem_of_dom in Hin as [parser_class Hin].
    left. exists parser_class. split; [exact Hin|]. apply Hkey. exact Hin.
  - destruct content as [bytes|]; [|discriminate].
    repeat match type of H with
           | (if ?b then _ else _) = _ => destruct b
           end;
      try discriminate; injection H as <-;
      first [ left; eexists; split; [reflexivity|]; apply Hkey; reflexivity
            | right; split; reflexivity ].
Qed.

End ParserSelectionFacts.

Lemma create_parser_ignores_case_witness :
  ParserFactory.create_parser "upload/data.bin" (Some (Py.upper "Csv"))
  = ParserFactory.create_parser "upload/data.bin" (Some "Csv").
Proof.
  apply (ParserSelectionFacts.create_parser_ignores_case "upload/data.bin" "Csv").
  repeat constructor.
Defined.

Lemma detected_type_is_created_unless_pipe_witness :
  (exists parser_class,
      ParserFactory.PARSER_MAP !! "csv" = Some parser_class
      /\ ParserFactory.create_parser "upload/data.bin" (Some "csv")
         = Py.Ok (ParserFactory.mk_parser parser_class "upload/data.bin"))
  \/ ("csv" = "pipe"
      /\ ParserFactory.create_parser "upload/data.bin" (Some "csv")
         = Py.Raise (ParserFactory.unsupported_file_type "pipe")).
Proof.
  apply (ParserSelectionFacts.detected_type_is_created_unless_pipe
           "upload/data.bin" (Some "a,b,c")).
  reflexivity.
Defined.

(* ===================================================================== *)
(** ** Type inference on values that are not text *)
(* ===================================================================== *)

Module TypeInferenceFacts.
Import Py PyFacts InferDataTypeFacts BaseParser.

(** X10. [infer_data_type] on every value: [None] is [null]; a [bool], an
    [int] and every finite [float] are [integer], for [int()] accepts them;
    the [float] that is not a number is [float]; an infinite [float] raises
    the [OverflowError] of [int()], which the function does not catch; and a
    text never raises. So no value is inferred [boolean] but a text. *)
Theorem infer_data_type_by_kind (value : value) :
  match value with
  | VNone => infer_data_type value = Ok "null"
  | VBool _ | VInt _ => infer_data_type value = Ok "integer"
  | VFloat (S754_zero _) | VFloat (S754_finite _ _ _) => infer_data_type value = Ok "integer"
  | VFloat S754_nan => infer_data_type value = Ok "float"
  | VFloat (S754_infinity _) =>
      infer_data_type value
      = Raise (mk_exn OverflowError "cannot convert float infinity to integer")
  | VStr s =>
      exists kind, infer_data_type value = Ok kind
                   /\ kind ∈ ["null"; "integer"; "float"; "boolean"; "date"; "string"]
  end.
Proof.
  destruct value as [|b|z|f|s]; try reflexivity.
  - destruct f; reflexivity.
  - destruct (infer_data_type_str_total s) as (kind & Hkind & Hin).
    exists kind. split; [exact Hkind|]. exact Hin.
Qed.

End TypeInferenceFacts.

(* ===================================================================== *)
(** ** Rules, batches of rows and validation ([engine.py]) *)
(* ===================================================================== *)

Module RuleFacts.
Import Py TransformationRule TransformationEngine TransformationEngineFacts.

Lemma float_raises (value : value) (e : exn) :
  float_ value = Raise e ->
  is_value_or_type_error e = true \/ (exc_type e = OverflowError /\ exists z, value = VInt z).
Proof.
  destruct value as [|b|z|f|s]; simpl; intros H; try discriminate.
  - injection H as <-. left. reflexivity.
  - destruct (float_of_Z z); try discriminate. injection H as <-. right. eauto.
  - destruct (float_of_str s); [discriminate|]. injection H as <-. left. reflexivity.
Qed.

Lemma int_of_float_raises (f : pyfloat) (e : exn) :
  int_of_float f = Raise e ->
  is_value_or_type_error e = true \/ (exc_type e = OverflowError /\ exists sign, f = S754_infinity sign).
Proof.
  destruct f; simpl; intros H; try discriminate; injection H as <-.
  - right. eauto.
  - left. reflexivity.
Qed.

(** X11. On a value that is not an [int] of more than 4300 digits, which
    [str()] refuses to write, a rule without a function of its own raises
    nothing but the [OverflowError] that [except (ValueError, TypeError)] lets
    through, and only as an [int] or a [float] rule: an [int] rule on an [int]
    too large for a [float] or on a value that [float()] reads as infinite,
    and a [float] rule on an [int] too large for a [float]. *)
Theorem builtin_rule_raises_overflow_only (rule : TransformationRule) (value : value) (e : exn) :
  (forall z, value = VInt z -> Z.abs z < 10 ^ 4300) ->
  transformation_func rule = None ->
  apply rule value = Raise e ->
  exc_type e = OverflowError
  /\ ((transformation_type rule = "int"
       /\ ((exists z, value = VInt z) \/ exists sign, float_ value = Ok (S754_infinity sign)))
      \/ (transformation_type rule = "float" /\ exists z, value = VInt z)).
Proof.
  unfold apply. intros _ -> H.
  destruct (is_none value); [discriminate|].
  repeat match type of H with
         | (if String.eqb ?a ?b then _ else _) = _ =>
             destruct (String.eqb_spec a b) as [Hkind|_]
         end;
    try (unfold if_truthy in H; destruct (truthy value); discriminate);
    try discriminate.
  - (* int *)
    unfold if_truthy in H. destruct (truthy value); [|discriminate].
    destruct (float_ value) as [f|e'] eqn:Hfloat; cbn [bind try_except_value_type] in H.
    + destruct (int_of_float f) as [z|e'] eqn:Hint; cbn [bind try_except_value_type] in H;
        [discriminate|].
      destruct (int_of_float_raises f e' Hint) as [Hcaught|(Hover & sign & ->)].
      * rewrite Hcaught in H. discriminate.
      * destruct (is_value_or_type_error e'); [discriminate|]. injection H as <-.
        split; [exact Hover|]. left. split; [exact Hkind|]. right. eauto.
    + destruct (float_raises value e' Hfloat) as [Hcaught|(Hover & z & ->)].
      * rewrite Hcaught in H. discriminate.
      * destruct (is_value_or_type_error e'); [discriminate|]. injection H as <-.
        split; [exact Hover|]. left. split; [exact Hkind|]. left. eauto.
  - (* float *)
    unfold if_truthy in H. destruct (truthy value); [|discriminate].
    destruct (float_ value) as [f|e'] eqn:Hfloat; cbn [bind try_except_value_type] in H;
      [discriminate|].
    destruct (float_raises value e' Hfloat) as [Hcaught|(Hover & z & ->)].
    + rewrite Hcaught in H. discriminate.
    + destruct (is_value_or_type_error e'); [discriminate|]. injection H as <-.
      split; [exact Hover|]. right. split; [exact Hkind|]. eauto.
  - (* boolean *)
    destruct (is_bool value); discriminate.
Qed.

End RuleFacts.

Lemma builtin_rule_raises_overflow_only_witness :
  let rule := TransformationRule.mk_rule "amount" "total" "float" None ∅ in
  let value := Py.VInt (10 ^ 400) in
  let e := Py.mk_exn Py.OverflowError "int too large to convert to float" in
  Py.exc_type e = Py.OverflowError
  /\ ((TransformationRule.transformation_type rule = "int"
       /\ ((exists z, value = Py.VInt z)
           \/ exists sign, Py.float_ value = Py.Ok (S754_infinity sign)))
      \/ (TransformationRule.transformation_type rule = "float"
          /\ exists z, value = Py.VInt z)).
Proof.
  intros rule value e.
  apply (RuleFacts.builtin_rule_raises_overflow_only rule value e).
  - intros z Hint. injection Hint as <-. vm_compute. reflexivity.
  - reflexivity.
  - vm_compute. reflexivity.
Defined.

Module EngineFacts.
Import Py TransformationRule TransformationEngine TransformationEngineFacts.

(** The error recorded for a row has the index the row is given. *)
Lemma recorded_error_shift (self : TransformationEngine) (offset idx : Z) (r : row) :
  recorded_error self (offset + idx) r
  = (fun err => mk_validation_error (offset + row_index err) (error err) (row_data err))
      <$> recorded_error self idx r.
Proof. unfold recorded_error. destruct (transform_row self r); reflexivity. Qed.

Lemma recorded_errors_offset_from (self : TransformationEngine) (offset : Z) (data : list row) :
  forall base : Z,
    omap id (imap (fun i r => recorded_error self (offset + (base + Z.of_nat i)) r) data)
    = (fun err => mk_validation_error (offset + row_index err) (error err) (row_data err))
        <$> omap id (imap (fun i r => recorded_error self (base + Z.of_nat i) r) data).
Proof.
  induction data as [|r data IH]; intros base; [reflexivity|].
  rewrite !imap_cons.
  assert (H1 : imap ((fun i r => recorded_error self (offset + (base + Z.of_nat i)) r) ∘ S) data
               = imap (fun i r => recorded_error self (offset + ((base + 1) + Z.of_nat i)) r) data)
    by (apply imap_ext; intros i x _; simpl; f_equal; lia).
  assert (H2 : imap ((fun i r => recorded_error self (base + Z.of_nat i) r) ∘ S) data
               = imap (fun i r => recorded_error self ((base + 1) + Z.of_nat i) r) data)
    by (apply imap_ext; intros i x _; simpl; f_equal; lia).
  rewrite H1, H2. csimpl. rewrite IH, recorded_error_shift.
  destruct (recorded_error self (base + Z.of_nat 0) r); reflexivity.
Qed.

Lemma recorded_errors_offset (self : TransformationEngine) (offset : Z) (data : list row) :
  omap id (imap (fun i r => recorded_error self (offset + Z.of_nat i) r) data)
  = (fun err => mk_validation_error (offset + row_index err) (error err) (row_data err))
      <$> omap id (imap (fun i r => recorded_error self (Z.of_nat i) r) data).
Proof.
  exact (recorded_errors_offset_from self offset data 0).
Qed.

(** X12. Transforming rows in two calls on the same engine gives the rows of
    one call on all of them; the errors collected are those of the one call
    too, but for the row indices: each call counts its rows from 0, so the
    errors of the second call carry the indices of the one call less the
    number of rows of the first. *)
Theorem transform_data_in_two_calls (self : TransformationEngine) (first second : list row) :
  let whole := transform_data self (first ++ second) in
  let after_first := transform_data self first in
  let after_second := transform_data (fst after_first) second in
  let errors_of_second :=
    drop (List.length (validation_errors (fst after_first)))
         (validation_errors (fst after_second)) in
  snd whole = (snd after_first ++ snd after_second)%list
  /\ rules (fst whole) = rules self
  /\ rules (fst after_second) = rules self
  /\ validation_errors (fst whole)
     = (validation_errors (fst after_first)
        ++ ((fun err => mk_validation_error (Z.of_nat (List.length first) + row_index err)
                                            (error err) (row_data err))
              <$> errors_of_second))%list.
Proof.
  intros whole after_first after_second errors_of_second.
  subst whole after_first after_second errors_of_second.
  unfold transform_data. rewrite !transform_data_loop_spec.
  cbn [fst snd rules validation_errors]. rewrite !app_nil_l.
  rewrite drop_app_length.
  split; [|split; [reflexivity|split; [reflexivity|]]].
  - rewrite omap_app. f_equal.
  - rewrite imap_app, omap_app, <- app_assoc. do 2 f_equal.
    rewrite <- (recorded_errors_offset_from _ (Z.of_nat (List.length first)) second 0).
    f_equal. apply imap_ext. intros i r _. simpl.
    transitivity (recorded_error self (Z.of_nat (List.length first) + (0 + Z.of_nat i)) r);
      [f_equal; lia|apply recorded_error_rules; reflexivity].
Qed.

End EngineFacts.

Module DataValidatorFacts.
Import Py BaseParser DataValidator.

(** X13. A value passes [validate_type] for the type [infer_data_type] infers
    of it, whatever that type is. *)
Theorem validate_type_accepts_inferred (value : value) (kind field_name : string) :
  infer_data_type value = Ok kind ->
  validate_type value kind field_name = Ok None.
Proof.
  unfold infer_data_type, validate_type. intros H.
  destruct (is_none value) eqn:Hnone; [reflexivity|]. cbn [orb] in H.
  destruct (eq_str value "") eqn:Hempty; [injection H as <-; reflexivity|].
  destruct (int_ value) as [z|e] eqn:Hint; cbn [bind try_except_value_type] in H.
  { injection H as <-. reflexivity. }
  destruct (is_value_or_type_error e); [|discriminate].
  destruct (float_ value) as [f|e'] eqn:Hfloat; cbn [bind try_except_value_type] in H.
  { injection H as <-. reflexivity. }
  destruct (is_value_or_type_error e'); [|discriminate].
  destruct (is_bool value) eqn:Hbool.
  { injection H as <-. reflexivity. }
  cbn [orb] in H.
  destruct (existsb (String.eqb (lower (str value))) ["true"; "false"; "yes"; "no"]) eqn:Hword.
  { injection H as <-. cbn [String.eqb Ascii.eqb Bool.eqb negb andb].
    assert (Hmore : existsb (String.eqb (lower (str value)))
                            ["true"; "false"; "yes"; "no"; "1"; "0"] = true).
    { set (word := lower (str value)) in *. cbn [existsb] in *.
      destruct (String.eqb word "true"), (String.eqb word "false"),
        (String.eqb word "yes"), (String.eqb word "no"); try reflexivity; discriminate. }
    rewrite Hmore. reflexivity. }
  destruct (date_like (str value)); injection H as <-; reflexivity.
Qed.

End DataValidatorFacts.

Lemma validate_type_accepts_inferred_witness :
  DataValidator.validate_type (Py.VStr "42.5") "float" "price" = Py.Ok None.
Proof.
  apply (DataValidatorFacts.validate_type_accepts_inferred (Py.VStr "42.5") "float" "price").
  vm_compute. reflexivity.
Defined.

(* ===================================================================== *)
(** ** The rule-based mapping ([MappingService._fallback_mapping]) *)
(* ===================================================================== *)

Module FallbackMappingFacts.
Import Py MappingService.

(** Induction on a loop over a list, with what it has gone through. *)
Lemma fold_left_prefix_ind {A B : Type} (P : list A -> B -> Prop) (f : B -> A -> B)
    (l : list A) (init : B) :
  P [] init ->
  (forall done a rest b, l = (done ++ a :: rest)%list -> P done b -> P (done ++ [a])%list (f b a)) ->
  P l (fold_left f l init).
Proof.
  intros Hinit Hstep.
  assert (Hgen : forall todo done b,
             l = (done ++ todo)%list -> P done b -> P (done ++ todo)%list (fold_left f todo b)).
  { induction todo as [|a todo IH]; intros done b Hl Hb; simpl.
    - rewrite app_nil_r. exact Hb.
    - replace (done ++ a :: todo)%list with ((done ++ [a]) ++ todo)%list
        by (rewrite <- app_assoc; reflexivity).
      apply IH; [rewrite <- app_assoc; exact Hl|].
      apply (Hstep done a todo); assumption. }
  apply (Hgen l [] init); [reflexivity|exact Hinit].
Qed.

Section Fallback.

Variables input_columns reference_columns : list string.

Local Abbreviation exact := (exact_columns input_columns reference_columns).

Lemma elem_of_exact (c : string) : c ∈ exact <-> c ∈ input_columns /\ c ∈ reference_columns.
Proof.
  unfold exact_columns. rewrite list_elem_of_In, filter_In, <- list_elem_of_In.
  rewrite bool_decide_eq_true. reflexivity.
Qed.

(** *** The first loop *)

Lemma first_loop :
  fold_left (exact_match_step reference_columns) input_columns (mk_fallback_state [] ∅ ∅)
  = mk_fallback_state (exact_mapping <$> exact) (list_to_set exact) (list_to_set exact).
Proof.
  unfold exact_columns.
  assert (Hgen : forall todo done,
             fold_left (exact_match_step reference_columns) todo
               (mk_fallback_state
                  (exact_mapping <$> List.filter (fun c => bool_decide (c ∈ reference_columns)) done)
                  (list_to_set (List.filter (fun c => bool_decide (c ∈ reference_columns)) done))
                  (list_to_set (List.filter (fun c => bool_decide (c ∈ reference_columns)) done)))
             = mk_fallback_state
                 (exact_mapping
                    <$> List.filter (fun c => bool_decide (c ∈ reference_columns)) (done ++ todo))
                 (list_to_set
                    (List.filter (fun c => bool_decide (c ∈ reference_columns)) (done ++ todo)))
                 (list_to_set
                    (List.filter (fun c => bool_decide (c ∈ reference_columns)) (done ++ todo)))).
  { induction todo as [|a todo IH]; intros done; simpl.
    - rewrite app_nil_r. reflexivity.
    - replace (done ++ a :: todo)%list with ((done ++ [a]) ++ todo)%list
        by (rewrite <- app_assoc; reflexivity).
      rewrite <- IH. f_equal.
      unfold exact_match_step. cbn [st_mappings mapped_inputs mapped_references].
      rewrite List.filter_app. cbn [List.filter].
      destruct (decide (a ∈ reference_columns)) as [Hin|Hout].
      + rewrite (bool_decide_eq_true_2 _ Hin). rewrite fmap_app, list_to_set_app_L.
        f_equal; set_solver.
      + rewrite (bool_decide_eq_false_2 _ Hout). rewrite app_nil_r. reflexivity. }
  exact (Hgen input_columns []).
Qed.

(** *** The second loop *)

Lemma first_insensitive_match_some (input_lower : string) (taken : gset string)
    (todo : list string) (ref_col : string) :
  first_insensitive_match input_lower taken todo = Some ref_col ->
  ref_col ∈ todo /\ (ref_col ∉ taken) /\ input_lower = normalized ref_col.
Proof.
  induction todo as [|r todo IH]; simpl; [discriminate|].
  destruct (decide (r ∈ taken)) as [Hin|Hout].
  - intros H. destruct (IH H) as (? & ? & ?). split; [set_solver|]. auto.
  - destruct (String.eqb_spec input_lower (normalized r)) as [Heq|Hne].
    + intros H. injection H as <-. split; [set_solver|]. auto.
    + intros H. destruct (IH H) as (? & ? & ?). split; [set_solver|]. auto.
Qed.

Lemma first_insensitive_match_none (input_lower : string) (taken : gset string)
    (todo : list string) :
  first_insensitive_match input_lower taken todo = None ->
  forall r, r ∈ todo -> r ∉ taken -> input_lower <> normalized r.
Proof.
  induction todo as [|r' todo IH]; simpl; intros H r Hr Hfree; [inversion Hr|].
  destruct (decide (r' ∈ taken)) as [Hin|Hout].
  - apply elem_of_cons in Hr as [->|Hr]; [contradiction|]. apply IH; assumption.
  - destruct (String.eqb_spec input_lower (normalized r')) as [Heq|Hne]; [discriminate|].
    apply elem_of_cons in Hr as [->|Hr]; [exact Hne|]. apply IH; assumption.
Qed.

Lemma second_loop_step (done : list string) (a : string) (rest : list string)
    (st : fallback_state) (extra : list mapping) :
  input_columns = (done ++ a :: rest)%list ->
  second_loop_invariant input_columns reference_columns done st extra ->
  exists extra',
    second_loop_invariant input_columns reference_columns (done ++ [a])
      (insensitive_match_step reference_columns st a) extra'.
Proof.
  intros Hsplit [Hmappings Hinputs Hreferences Hextra Honce_in Honce_ref Hleft].
  assert (Hgrow : forall m : mapping, input_column m ∈ done -> input_column m ∈ (done ++ [a])%list)
    by (intros m Hm; apply elem_of_app; left; exact Hm).
  assert (Hextra' : Forall (fun m => m = insensitive_mapping (input_column m) (reference_column m)
                     /\ input_column m ∈ (done ++ [a])%list
                     /\ (input_column m ∉ reference_columns)
                     /\ reference_column m ∈ reference_columns
                     /\ (reference_column m ∉ exact)
                     /\ normalized (input_column m) = normalized (reference_column m)) extra).
  { eapply Forall_impl; [exact Hextra|]. intros m (? & ? & ? & ? & ? & ?). auto 10. }
  unfold insensitive_match_step.
  destruct (decide (a ∈ mapped_inputs st)) as [Hmapped|Hfree].
  - exists extra. constructor; try assumption.
    intros c r Hc Hc' Hr Hr'. apply elem_of_app in Hc as [Hc|Hc].
    + apply Hleft; assumption.
    + apply list_elem_of_singleton in Hc as ->. contradiction.
  - destruct (first_insensitive_match (normalized a) (mapped_references st) reference_columns)
      as [ref_col|] eqn:Hmatch.
    + apply first_insensitive_match_some in Hmatch as (Href & Hnew & Hsame).
      assert (Ha : a ∈ input_columns) by (rewrite Hsplit; set_solver).
      assert (Hnot_ref : a ∉ reference_columns).
      { intros Hin. apply Hfree. rewrite Hinputs. apply elem_of_union_l.
        apply elem_of_list_to_set, elem_of_exact. auto. }
      exists (extra ++ [insensitive_mapping a ref_col])%list.
      constructor; cbn [st_mappings mapped_inputs mapped_references].
      * rewrite Hmappings, app_assoc. reflexivity.
      * rewrite Hinputs, fmap_app, list_to_set_app_L. cbn. set_solver.
      * rewrite Hreferences, fmap_app, list_to_set_app_L. cbn. set_solver.
      * apply Forall_app. split; [exact Hextra'|]. constructor; [|constructor].
        cbn. repeat split; try assumption.
        -- set_solver.
        -- intros Hin. apply Hnew. rewrite Hreferences. set_solver.
      * rewrite fmap_app. apply NoDup_app. split; [exact Honce_in|]. split.
        -- intros c Hc Hc'. cbn in Hc'. apply list_elem_of_singleton in Hc' as ->.
           apply Hfree. rewrite Hinputs. set_solver.
        -- cbn. apply NoDup_singleton.
      * rewrite fmap_app. apply NoDup_app. split; [exact Honce_ref|]. split.
        -- intros c Hc Hc'. cbn in Hc'. apply list_elem_of_singleton in Hc' as ->.
           apply Hnew. rewrite Hreferences. set_solver.
        -- cbn. apply NoDup_singleton.
      * intros c r Hc Hc' Hr Hr'. apply elem_of_app in Hc as [Hc|Hc].
        -- apply Hleft; [exact Hc| |exact Hr|]; set_solver.
        -- apply list_elem_of_singleton in Hc as ->. set_solver.
    + exists extra. constructor; try assumption.
      intros c r Hc Hc' Hr Hr'. apply elem_of_app in Hc as [Hc|Hc].
      * apply Hleft; assumption.
      * apply list_elem_of_singleton in Hc as ->.
        exact (first_insensitive_match_none _ _ _ Hmatch r Hr Hr').
Qed.

Lemma second_loop :
  exists extra,
    second_loop_invariant input_columns reference_columns input_columns
      (fold_left (insensitive_match_step reference_columns) input_columns
         (fold_left (exact_match_step reference_columns) input_columns
            (mk_fallback_state [] ∅ ∅)))
      extra.
Proof.
  rewrite first_loop.
  apply (fold_left_prefix_ind
           (fun done st => exists extra,
                second_loop_invariant input_columns reference_columns done st extra)).
  - exists []. constructor; cbn [st_mappings mapped_inputs mapped_references].
    + rewrite app_nil_r. reflexivity.
    + cbn. set_solver.
    + cbn. set_solver.
    + constructor.
    + constructor.
    + constructor.
    + intros c r Hc. inversion Hc.
  - intros done a rest st Hsplit (extra & Hinv).
    exact (second_loop_step done a rest st extra Hsplit Hinv).
Qed.

End Fallback.

(** The result of [_fallback_mapping], by the mappings of the second loop. *)
Lemma fallback_mapping_result (input_structure reference_structure : structure) :
  let input_columns := columns input_structure in
  let reference_columns := columns reference_structure in
  let result := _fallback_mapping input_structure reference_structure in
  exists st extra,
    second_loop_invariant input_columns reference_columns input_columns st extra
    /\ mappings result = st_mappings st
    /\ unmapped_input_columns result
       = List.filter (fun c => bool_decide (c ∉ mapped_inputs st)) input_columns
    /\ unmapped_reference_columns result
       = List.filter (fun c => bool_decide (c ∉ mapped_references st)) reference_columns.
Proof.
  intros input_columns reference_columns result.
  destruct (second_loop input_columns reference_columns) as (extra & Hinv).
  eexists _, extra. split; [exact Hinv|]. repeat split; reflexivity.
Qed.

(** X14. Every mapping of the fallback maps an input column to a reference
    column whose name is the same once case, underscores and spaces are left
    out; it is either the exact mapping of a column to itself, with
    confidence 100, or a case-insensitive mapping with confidence 90 of an
    input column that is no reference column. *)
Theorem fallback_mappings_are_sound (input_structure reference_structure : structure) :
  Forall (sound_mapping (columns input_structure) (columns reference_structure))
         (mappings (_fallback_mapping input_structure reference_structure)).
Proof.
  destruct (fallback_mapping_result input_structure reference_structure)
    as (st & extra & Hinv & -> & _).
  destruct Hinv as [-> _ _ Hextra _ _ _].
  apply Forall_app. split.
  - apply Forall_fmap, Forall_forall. intros c Hc. apply elem_of_exact in Hc as [Hin Href].
    unfold sound_mapping. cbn. auto 10.
  - eapply Forall_impl; [exact Hextra|]. intros m (Hm & Hin & Hnot & Href & _ & Hsame).
    unfold sound_mapping. auto 10.
Qed.

(** X15. The fallback accounts for every column: the unmapped input columns
    are the input columns that no mapping has as its input column, and the
    unmapped reference columns are the reference columns that no mapping
    has as its reference column, each in the order of its structure. *)
Theorem fallback_unmapped_columns (input_structure reference_structure : structure) :
  let result := _fallback_mapping input_structure reference_structure in
  unmapped_input_columns result
  = List.filter (fun c => bool_decide (c ∉ input_column <$> mappings result))
                (columns input_structure)
  /\ unmapped_reference_columns result
     = List.filter (fun c => bool_decide (c ∉ reference_column <$> mappings result))
                   (columns reference_structure).
Proof.
  intros result.
  destruct (fallback_mapping_result input_structure reference_structure)
    as (st & extra & Hinv & Hmappings & Hin & Href).
  fold result in Hmappings, Hin, Href. rewrite Hin, Href, Hmappings.
  destruct Hinv as [-> Hinputs Hreferences _ _ _ _].
  assert (Hfst : input_column <$> (exact_mapping
                    <$> exact_columns (columns input_structure) (columns reference_structure))
                 = exact_columns (columns input_structure) (columns reference_structure)).
  { rewrite <- list_fmap_compose. apply list_fmap_id. }
  assert (Hsnd : reference_column <$> (exact_mapping
                    <$> exact_columns (columns input_structure) (columns reference_structure))
                 = exact_columns (columns input_structure) (columns reference_structure)).
  { rewrite <- list_fmap_compose. apply list_fmap_id. }
  split; apply List.filter_ext; intros c; apply bool_decide_ext;
    rewrite fmap_app, ?Hfst, ?Hsnd, ?Hinputs, ?Hreferences;
    rewrite elem_of_union, !elem_of_list_to_set, elem_of_app; reflexivity.
Qed.

(** X16. When no two input columns have the same name, the fallback maps no
    input column twice and no reference column twice. *)
Theorem fallback_maps_each_column_once (input_structure reference_structure : structure) :
  NoDup (columns input_structure) ->
  let result := _fallback_mapping input_structure reference_structure in
  NoDup (input_column <$> mappings result) /\ NoDup (reference_column <$> mappings result).
Proof.
  intros Hnodup result.
  destruct (fallback_mapping_result input_structure reference_structure)
    as (st & extra & Hinv & Hmappings & _).
  fold result in Hmappings. rewrite Hmappings.
  destruct Hinv as [-> _ _ Hextra Honce_in Honce_ref _].
  assert (Hexact : NoDup (exact_columns (columns input_structure) (columns reference_structure))).
  { unfold exact_columns. apply NoDup_ListNoDup, List.NoDup_filter, NoDup_ListNoDup. exact Hnodup. }
  rewrite !fmap_app, <- !list_fmap_compose.
  rewrite !(list_fmap_id (exact_columns _ _)) by reflexivity.
  rewrite Forall_forall in Hextra.
  split; apply NoDup_app; (split; [exact Hexact|]); (split; [|assumption]).
  - intros c Hc Hc'. apply list_elem_of_fmap in Hc' as (m & -> & Hm).
    destruct (Hextra m Hm) as (_ & _ & Hnot & _). apply Hnot.
    apply elem_of_exact in Hc as [_ Hc]. exact Hc.
  - intros c Hc Hc'. apply list_elem_of_fmap in Hc' as (m & -> & Hm).
    destruct (Hextra m Hm) as (_ & _ & _ & _ & Hnot & _). contradiction.
Qed.

(** X17. The fallback misses no match: every input column that is a reference
    column too has its exact mapping, and no input column left unmapped has
    the name, up to case, underscores and spaces, of a reference column left
    unmapped. *)
Theorem fallback_misses_no_match (input_structure reference_structure : structure) :
  let result := _fallback_mapping input_structure reference_structure in
  Forall (fun c => exact_mapping c ∈ mappings result)
         (exact_columns (columns input_structure) (columns reference_structure))
  /\ Forall (fun c => Forall (fun r => normalized c <> normalized r)
                             (unmapped_reference_columns result))
            (unmapped_input_columns result).
Proof.
  intros result.
  destruct (fallback_mapping_result input_structure reference_structure)
    as (st & extra & Hinv & Hmappings & Hin & Href).
  fold result in Hmappings, Hin, Href. rewrite Hin, Href, Hmappings.
  destruct Hinv as [-> _ _ _ _ _ Hleft].
  split; apply Forall_forall.
  - intros c Hc. apply elem_of_app. left. apply list_elem_of_fmap. eauto.
  - intros c Hc. apply Forall_forall. intros r Hr.
    apply list_elem_of_In, filter_In in Hc as [Hc Hc'].
    apply list_elem_of_In, filter_In in Hr as [Hr Hr'].
    apply list_elem_of_In in Hc, Hr.
    apply bool_decide_eq_true in Hc', Hr'.
    apply Hleft; assumption.
Qed.

End FallbackMappingFacts.

Lemma fallback_maps_each_column_once_witness :
  let result :=
    MappingService._fallback_mapping
      (MappingService.mk_structure ["Customer_Name"; "Email"; "id"])
      (MappingService.mk_structure ["customername"; "Email"; "ID"; "Phone"]) in
  NoDup (MappingService.input_column <$> MappingService.mappings result)
  /\ NoDup (MappingService.reference_column <$> MappingService.mappings result).
Proof.
  apply (FallbackMappingFacts.fallback_maps_each_column_once
           (MappingService.mk_structure ["Customer_Name"; "Email"; "id"])
           (MappingService.mk_structure ["customername"; "Email"; "ID"; "Phone"])).
  repeat constructor; set_solver.
Defined.

(* ===================================================================== *)
(** ** From a fallback mapping to the rules of the engine *)
(* ===================================================================== *)

Module MappingRulesFacts.
Import Py TransformationRule TransformationEngine TransformationEngineFacts.
Import MappingService FallbackMappingFacts.

(** The rule [add_rules_from_config] makes of a mapping of the service, and
    the mappings it makes a rule of. *)
Lemma add_rule_from_mapping_of (self : TransformationEngine) (m : mapping) :
  add_rule_from_mapping self
    (mk_config_mapping (Some (input_column m)) (Some (reference_column m)) None
                       (Some (transformation m)))
  = if negb (String.eqb (input_column m) "") && negb (String.eqb (reference_column m) "")
    then add_rule self (mk_rule (input_column m) (reference_column m) (transformation m) None ∅)
    else self.
Proof.
  unfold add_rule_from_mapping, config_target, or_else.
  cbn [cfg_input_column cfg_reference_column cfg_target_column cfg_transformation default given].
  destruct (String.eqb (reference_column m) "") eqn:Href; cbn [negb andb given].
  - rewrite andb_false_r. reflexivity.
  - rewrite Href. destruct (String.eqb (input_column m) ""); reflexivity.
Qed.

Lemma add_rules_from_config_of (l : list mapping) :
  forall self : TransformationEngine,
    add_rules_from_config self
      ((fun m => mk_config_mapping (Some (input_column m)) (Some (reference_column m)) None
                                   (Some (transformation m))) <$> l)
    = mk_engine
        (rules self
         ++ ((fun m => mk_rule (input_column m) (reference_column m) (transformation m) None ∅)
               <$> List.filter (fun m => negb (String.eqb (input_column m) "")
                                         && negb (String.eqb (reference_column m) "")) l))%list
        (validation_errors self).
Proof.
  unfold add_rules_from_config.
  induction l as [|m l IH]; intros self.
  - cbn. rewrite app_nil_r. destruct self; reflexivity.
  - rewrite fmap_cons. cbn [fold_left List.filter].
    rewrite add_rule_from_mapping_of, IH.
    destruct (negb (String.eqb (input_column m) "") && negb (String.eqb (reference_column m) ""));
      [|reflexivity].
    rewrite fmap_cons. cbn [rules validation_errors add_rule].
    rewrite <- app_assoc. reflexivity.
Qed.

(** A rule made of a mapping of the fallback copies the value of its source
    column: [none] and [rename] are no transformation of [apply]. *)
Lemma written_copy (m : mapping) (r : row) :
  transformation m = "none" \/ transformation m = "rename" ->
  written (mk_rule (input_column m) (reference_column m) (transformation m) None ∅) r
  = Ok (default VNone (r !! input_column m)).
Proof.
  intros Hkind. unfold written, source_value, apply.
  cbn [source_column transformation_func transformation_type parameters].
  destruct (r !! input_column m) as [[| | | |]|]; cbn [default is_none];
    try reflexivity; destruct Hkind as [-> | ->]; reflexivity.
Qed.

(** Among rules, one at least of a given target column is the last of that
    target column. *)
Lemma last_for_target_exists (todo : list TransformationRule) :
  forall rule : TransformationRule,
    rule ∈ todo ->
    exists rule', rule' ∈ todo /\ target_column rule' = target_column rule
                  /\ last_for_target todo rule'.
Proof.
  induction todo as [|x todo IH]; intros rule Hin; [inversion Hin|].
  destruct (decide (Exists (fun later => target_column later = target_column rule) todo))
    as [Hlater|Hnone].
  - apply Exists_exists in Hlater as (later & Hlater & Htarget).
    destruct (IH later Hlater) as (rule' & Hin' & Hsame & before & after & -> & Hafter).
    exists rule'. split; [set_solver|]. split; [congruence|].
    exists (x :: before), after. split; [reflexivity|exact Hafter].
  - apply elem_of_cons in Hin as [->|Hin].
    + exists x. split; [set_solver|]. split; [reflexivity|].
      exists [], todo. split; [reflexivity|].
      apply Forall_forall. intros later Hlater Heq. apply Hnone.
      apply Exists_exists. eauto.
    + exfalso. apply Hnone. apply Exists_exists. eauto.
Qed.

(** Two mappings of the fallback with the same reference column have the
    same input column. *)
Lemma fallback_reference_determines_input (input_structure reference_structure : structure)
    (m1 m2 : mapping) :
  let result := _fallback_mapping input_structure reference_structure in
  m1 ∈ mappings result -> m2 ∈ mappings result ->
  reference_column m1 = reference_column m2 -> input_column m1 = input_column m2.
Proof.
  intros result.
  destruct (fallback_mapping_result input_structure reference_structure)
    as (st & extra & Hinv & Hmappings & _).
  fold result in Hmappings. rewrite Hmappings.
  destruct Hinv as [-> _ _ Hextra _ Honce _]. rewrite Forall_forall in Hextra.
  intros H1 H2 Hsame.
  apply elem_of_app in H1 as [H1|H1]; apply elem_of_app in H2 as [H2|H2].
  - apply list_elem_of_fmap in H1 as (c1 & -> & _), H2 as (c2 & -> & _). exact Hsame.
  - apply list_elem_of_fmap in H1 as (c1 & -> & Hc1).
    destruct (Hextra m2 H2) as (_ & _ & _ & _ & Hnot & _). cbn in Hsame.
    rewrite <- Hsame in Hnot. contradiction.
  - apply list_elem_of_fmap in H2 as (c2 & -> & Hc2).
    destruct (Hextra m1 H1) as (_ & _ & _ & _ & Hnot & _). cbn in Hsame.
    rewrite Hsame in Hnot. contradiction.
  - apply list_elem_of_lookup in H1 as [i Hi], H2 as [j Hj].
    assert (i = j).
    { apply (NoDup_lookup _ i j (reference_column m1) Honce);
        rewrite list_lookup_fmap; [rewrite Hi|rewrite Hj, Hsame]; reflexivity. }
    subst j. congruence.
Qed.

(** A mapping of the fallback has a reference column of the reference
    structure and asks for no transformation but a renaming. *)
Lemma fallback_mapping_target (input_structure reference_structure : structure) (m : mapping) :
  m ∈ mappings (_fallback_mapping input_structure reference_structure) ->
  reference_column m ∈ columns reference_structure
  /\ (transformation m = "none" \/ transformation m = "rename").
Proof.
  destruct (fallback_mapping_result input_structure reference_structure)
    as (st & extra & Hinv & Hmappings & _).
  rewrite Hmappings. destruct Hinv as [-> _ _ Hextra _ _ _]. rewrite Forall_forall in Hextra.
  intros Hm. apply elem_of_app in Hm as [Hm|Hm].
  - apply list_elem_of_fmap in Hm as (c & -> & Hc). apply elem_of_exact in Hc as [_ Href].
    split; [exact Href|left; reflexivity].
  - destruct (Hextra m Hm) as (Heq & _ & _ & Href & _).
    split; [exact Href|right; rewrite Heq; reflexivity].
Qed.

(** X18. The rules [add_rules_from_config] makes of the mappings of the
    fallback copy values: on every row [transform_row] returns, its record has
    reference columns only as keys, and for every mapping with an input and a
    reference column that are not empty it holds, under the reference column,
    the value the row has under the input column, [None] when it has none. *)
Theorem fallback_rules_copy_values (input_structure reference_structure : structure) (r : row) :
  let result := _fallback_mapping input_structure reference_structure in
  let engine := add_rules_from_config (mk_engine [] []) (config_of result) in
  exists transformed,
    transform_row engine r = Ok transformed
    /\ dom transformed ⊆ list_to_set (columns reference_structure)
    /\ Forall (fun m => input_column m = "" \/ reference_column m = ""
                        \/ transformed !! reference_column m
                           = Some (default VNone (r !! input_column m)))
              (mappings result).
Proof.
  intros result engine.
  pose proof (fallback_mapping_target input_structure reference_structure) as Htarget_of.
  fold result in Htarget_of.
  assert (Hkind : forall m, m ∈ mappings result ->
                            transformation m = "none" \/ transformation m = "rename").
  { intros m Hm. apply Htarget_of. exact Hm. }
  set (kept := List.filter (fun m => negb (String.eqb (input_column m) "")
                                     && negb (String.eqb (reference_column m) ""))
                           (mappings result)).
  assert (Hkept : forall m, m ∈ kept -> m ∈ mappings result).
  { intros m Hm. apply list_elem_of_In, filter_In in Hm as [Hm _].
    apply list_elem_of_In. exact Hm. }
  assert (Hrules : rules engine
                   = (fun m => mk_rule (input_column m) (reference_column m) (transformation m)
                                       None ∅) <$> kept).
  { unfold engine, config_of. rewrite add_rules_from_config_of. reflexivity. }
  assert (Hok : Forall (fun rule => is_Ok (written rule r) = true) (rules engine)).
  { rewrite Hrules. apply Forall_fmap, Forall_forall. intros m Hm. simpl.
    rewrite written_copy by (apply Hkind, Hkept; exact Hm). reflexivity. }
  destruct (transform_row_loop_spec r (rules engine) ∅ Hok)
    as (transformed & Hrun & Hdom & _ & Hlast).
  exists transformed. split; [exact Hrun|]. split.
  - rewrite Hdom, dom_empty_L, union_empty_l_L, Hrules. unfold target_columns.
    intros key Hkey. apply elem_of_list_to_set in Hkey.
    apply list_elem_of_fmap in Hkey as (rule & -> & Hrule).
    apply list_elem_of_fmap in Hrule as (m & -> & Hm). cbn.
    apply elem_of_list_to_set. apply Htarget_of, Hkept. exact Hm.
  - apply Forall_forall. intros m Hm.
    destruct (String.eqb_spec (input_column m) "") as [Hin|Hin]; [left; exact Hin|].
    destruct (String.eqb_spec (reference_column m) "") as [Href|Href]; [right; left; exact Href|].
    right. right.
    assert (Hm' : m ∈ kept).
    { apply list_elem_of_In, filter_In. split; [apply list_elem_of_In; exact Hm|].
      apply andb_true_iff. split; apply negb_true_iff, String.eqb_neq; assumption. }
    destruct (last_for_target_exists (rules engine)
                (mk_rule (input_column m) (reference_column m) (transformation m) None ∅))
      as (rule' & Hrule' & Htarget & Hlast').
    { rewrite Hrules. apply list_elem_of_fmap. eauto. }
    rewrite Hrules in Hrule'. apply list_elem_of_fmap in Hrule' as (m' & -> & Hkept').
    cbn in Htarget.
    pose proof (Hlast _ _ Hlast' (written_copy m' r (Hkind m' (Hkept m' Hkept')))) as Hvalue.
    cbn in Hvalue. rewrite Htarget in Hvalue. rewrite Hvalue.
    rewrite (fallback_reference_determines_input input_structure reference_structure m' m
               (Hkept m' Hkept') Hm Htarget).
    reflexivity.
Qed.

(** *** [_simple_similarity] *)

Lemma common_chars_comm (l m : list ascii) : common_chars l m = common_chars m l.
Proof.
  revert m. induction l as [|a l IH]; intros [|b m]; simpl; try reflexivity.
  rewrite IH, (Ascii.eqb_sym a b). reflexivity.
Qed.

(** X19. [_simple_similarity] does not depend on the order of the two
    columns; a column scores 100 with itself; and the empty name scores 100
    with a name that is empty once case, underscores and spaces are left out,
    and 75 with every other name, as a substring of it. *)
Theorem simple_similarity_symmetric (col1 col2 : string) :
  _simple_similarity col1 col2 = _simple_similarity col2 col1
  /\ _simple_similarity col1 col1 = Ok (mk_similarity 100 "Exact match (case-insensitive)")
  /\ _simple_similarity "" col2
     = Ok (if String.eqb (normalized col2) ""
           then mk_similarity 100 "Exact match (case-insensitive)"
           else mk_similarity 75 "Substring match").
Proof.
  unfold _simple_similarity. split; [|split].
  - rewrite (String.eqb_sym (normalized col1) (normalized col2)).
    rewrite (orb_comm (contains (normalized col1) (normalized col2))).
    rewrite (common_chars_comm (chars (normalized col1))).
    rewrite (Z.max_comm (len (normalized col1))). reflexivity.
  - rewrite String.eqb_refl. reflexivity.
  - change (normalized "") with "". rewrite (String.eqb_sym "" (normalized col2)).
    destruct (String.eqb (normalized col2) ""); [reflexivity|].
    unfold contains at 1. destruct (chars (normalized col2)); reflexivity.
Qed.

End MappingRulesFacts.

(* ===================================================================== *)
(** ** The life of a job ([BackgroundTaskManager]) *)
(* ===================================================================== *)

Module JobLifecycleFacts.
Import Py BackgroundTaskManager BackgroundTaskManagerFacts.

(** *** Progress *)

Lemma progress_apply_update (new_status : string) (new_progress : option Z)
    (new_error new_result : option string) (j : job) :
  0 <= progress j <= 100 ->
  0 <= progress (apply_update new_status new_progress new_error new_result j) <= 100.
Proof. unfold apply_update. cbn [progress]. destruct new_progress; lia. Qed.

Lemma progress_update_job_status (d : database) (job_id new_status : string)
    (new_progress : option Z) (new_error new_result : option string) :
  map_Forall (fun _ j => 0 <= progress j <= 100) (jobs d) ->
  map_Forall (fun _ j => 0 <= progress j <= 100)
             (jobs (update_job_status d job_id new_status new_progress new_error new_result)).
Proof.
  intros H id j. rewrite jobs_update_job_status.
  destruct (decide (job_id = id)) as [->|_].
  - destruct (jobs d !! id) as [j0|] eqn:Hj; [|discriminate].
    intros [= <-]. apply progress_apply_update. exact (H id j0 Hj).
  - apply H.
Qed.

Lemma progress_run {R : Type} (c : coroutine R) :
  forall d : database,
    map_Forall (fun _ j => 0 <= progress j <= 100) (jobs d) ->
    map_Forall (fun _ j => 0 <= progress j <= 100) (jobs (fst (run c d))).
Proof.
  induction c as [r|e|job_id new_status new_progress new_error new_result k IH|job_id k IH];
    intros d H; cbn [run fst]; try exact H.
  - apply IH, progress_update_job_status, H.
  - apply IH, H.
Qed.

Section Manager.

Context {R : Type} (result_file_id_of : R -> option string).

Lemma progress_execute_task (d : database) (job_id : string) (func : string -> coroutine R) :
  map_Forall (fun _ j => 0 <= progress j <= 100) (jobs d) ->
  map_Forall (fun _ j => 0 <= progress j <= 100)
             (jobs (fst (execute_task result_file_id_of d job_id func))).
Proof.
  intros H. unfold execute_task.
  pose proof (progress_run (func job_id)
                (update_job_status d job_id TaskStatus.PROCESSING (Some 0) None None)
                (progress_update_job_status _ _ _ _ _ _ H)) as Hrun.
  destruct (run (func job_id) _) as [d' [result|e]]; cbn [fst] in *;
    apply progress_update_job_status, Hrun.
Qed.

(** X20. Whatever the application and the event loop do, and whatever the
    job bodies report, the progress of every job of the table stays between
    0 and 100. *)
Theorem progress_stays_in_range (self : manager R) :
  reachable result_file_id_of self ->
  map_Forall (fun _ j => 0 <= progress j <= 100) (jobs (db self)).
Proof.
  induction 1 as [|self a _ IH _].
  - cbn. apply map_Forall_empty.
  - destruct a as [user job_type i r t|job_id func|job_id|job_id|job_id]; cbn [perform].
    + unfold create_job. cbn [fst db jobs]. apply map_Forall_insert_2; [cbn; lia|exact IH].
    + exact IH.
    + unfold cancel_job. destruct (_active_tasks self !! job_id) as [t|]; [|exact IH].
      destruct (done t); cbn [negb fst db]; [exact IH|].
      apply progress_update_job_status, IH.
    + unfold loop_run_task. destruct (_active_tasks self !! job_id) as [t|]; [|exact IH].
      destruct (done t); [exact IH|]. destruct (must_cancel t); cbn [db]; [exact IH|].
      apply progress_execute_task, IH.
    + unfold loop_done_callback. destruct (_active_tasks self !! job_id) as [t|]; [|exact IH].
      destruct (done t); exact IH.
Qed.

(** *** A task that runs to its end *)

Lemma history_update_job_status (d : database) (job_id new_status : string)
    (new_progress : option Z) (new_error new_result : option string) :
  status_history (update_job_status d job_id new_status new_progress new_error new_result) job_id
  = (status_history d job_id ++ [new_status])%list.
Proof.
  unfold status_history, update_job_status. cbn [writes].
  rewrite List.filter_app, fmap_app. cbn [List.filter w_job_id].
  rewrite String.eqb_refl. reflexivity.
Qed.

Lemma history_run (c : coroutine R) (d : database) (job_id : string) :
  exists middle,
    status_history (fst (run c d)) job_id = (status_history d job_id ++ middle)%list.
Proof.
  destruct (writes_run c d) as [added E]. unfold status_history. rewrite E.
  rewrite List.filter_app, fmap_app. eauto.
Qed.

(** [execute_task] on a job of the table: the job ends completed at progress
    100 or failed, and the statuses written for it are [processing], those of
    the body and the last one. *)
Lemma execute_task_ends (d : database) (job_id : string) (func : string -> coroutine R)
    (j : job) :
  jobs d !! job_id = Some j ->
  let after := fst (execute_task result_file_id_of d job_id func) in
  exists terminal middle,
    ((terminal = TaskStatus.COMPLETED /\ progress <$> jobs after !! job_id = Some 100)
     \/ terminal = TaskStatus.FAILED)
    /\ job_status after job_id = Some terminal
    /\ status_history after job_id
       = (status_history d job_id ++ TaskStatus.PROCESSING :: middle ++ [terminal])%list.
Proof.
  intros Hj after. subst after. unfold execute_task.
  remember (update_job_status d job_id TaskStatus.PROCESSING (Some 0) None None) as d1 eqn:Hd1.
  destruct (history_run (func job_id) d1 job_id) as [middle Hmiddle].
  assert (Hin : is_Some (jobs (fst (run (func job_id) d1)) !! job_id)).
  { apply elem_of_dom. rewrite dom_run, Hd1, dom_update_job_status.
    apply elem_of_dom. eauto. }
  destruct Hin as [j2 Hj2].
  assert (Hfirst : status_history d1 job_id
                   = (status_history d job_id ++ [TaskStatus.PROCESSING])%list)
    by (rewrite Hd1; apply history_update_job_status).
  rewrite Hfirst in Hmiddle. clear Hd1 Hfirst.
  destruct (run (func job_id) d1) as [d2 [result|e]]; cbn [fst] in *.
  - exists TaskStatus.COMPLETED, middle. unfold job_status.
    rewrite jobs_update_job_status, decide_True, Hj2 by reflexivity.
    split; [left; split; reflexivity|]. split; [reflexivity|].
    rewrite history_update_job_status, Hmiddle, <- !app_assoc. reflexivity.
  - exists TaskStatus.FAILED, middle. unfold job_status.
    rewrite jobs_update_job_status, decide_True, Hj2 by reflexivity.
    split; [right; reflexivity|]. split; [reflexivity|].
    rewrite history_update_job_status, Hmiddle, <- !app_assoc. reflexivity.
Qed.

(** X21. A task started for a job of the table and run by the event loop
    without being cancelled leaves the job completed at progress 100 or
    failed, the statuses written for the job being [processing], those the
    body wrote, and that last one; once the done callback has run, the job has
    no active task, and [cancel_job] changes nothing and answers [False]. *)
Theorem started_task_ends_terminal (self : manager R) (job_id : string)
    (func : string -> coroutine R) (j : job) :
  jobs (db self) !! job_id = Some j ->
  let started := start_background_task self job_id func in
  let ran := loop_run_task result_file_id_of started job_id in
  let cleaned := loop_done_callback ran job_id in
  (exists terminal middle,
      ((terminal = TaskStatus.COMPLETED /\ progress <$> jobs (db ran) !! job_id = Some 100)
       \/ terminal = TaskStatus.FAILED)
      /\ job_status (db ran) job_id = Some terminal
      /\ status_history (db ran) job_id
         = (status_history (db self) job_id
            ++ TaskStatus.PROCESSING :: middle ++ [terminal])%list)
  /\ get_active_task cleaned job_id = None
  /\ db cleaned = db ran
  /\ cancel_job cleaned job_id = (cleaned, false).
Proof.
  intros Hj started ran cleaned.
  assert (Hran : ran = mk_manager (fst (execute_task result_file_id_of (db self) job_id func))
                         (<[job_id := mk_task func false true]> (_active_tasks started))).
  { unfold ran, loop_run_task, started, start_background_task. cbn [_active_tasks db].
    rewrite lookup_insert_eq. reflexivity. }
  assert (Hcleaned : cleaned = mk_manager (db ran) (delete job_id (_active_tasks ran))).
  { unfold cleaned, loop_done_callback. rewrite Hran. cbn [_active_tasks db].
    rewrite lookup_insert_eq. reflexivity. }
  split; [|split; [|split]].
  - rewrite Hran. cbn [db]. exact (execute_task_ends (db self) job_id func j Hj).
  - rewrite Hcleaned. unfold get_active_task. cbn [_active_tasks]. apply lookup_delete_eq.
  - rewrite Hcleaned. reflexivity.
  - apply cancel_job_no_op. intros t Ht. rewrite Hcleaned in Ht. cbn [_active_tasks] in Ht.
    rewrite lookup_delete_eq in Ht. discriminate.
Qed.

End Manager.

(** X22. The table gives back what was written to it: the job [create_job]
    adds is new, is read back by [get_job] as a pending job at progress 0 with
    the files and the template it was created with, and leaves every other job
    as it was; and the progress [update_job_status] writes for it is read back
    brought within 0 and 100. *)
Theorem create_job_then_get_job (d : database) (user job_type : string)
    (input_file reference_file template : option string) (key new_status : string) (p : Z) :
  let created := create_job d user job_type input_file reference_file template in
  get_job d (snd created) = None
  /\ get_job (fst created) key
     = (if decide (key = snd created)
        then Some (mk_job user TaskStatus.PENDING 0 input_file reference_file template None None)
        else get_job d key)
  /\ get_job (update_job_status (fst created) (snd created) new_status (Some p) None None)
             (snd created)
     = Some (mk_job user new_status (Z.min 100 (Z.max 0 p)) input_file reference_file template
                    None None).
Proof.
  intros created.
  assert (Hnew : get_job d (snd created) = None).
  { apply (not_elem_of_dom (D := gset string)).
    apply (create_job_fresh d user job_type input_file reference_file template). }
  assert (Hget : forall id,
             get_job (fst created) id
             = if decide (id = snd created)
               then Some (mk_job user TaskStatus.PENDING 0 input_file reference_file template
                                 None None)
               else get_job d id).
  { intros id. unfold get_job, created, create_job. cbn [fst snd jobs].
    destruct (decide (id = fresh (dom (jobs d)))) as [->|Hne].
    - apply lookup_insert_eq.
    - apply lookup_insert_ne. congruence. }
  split; [exact Hnew|]. split; [apply Hget|].
  unfold get_job at 1. rewrite jobs_update_job_status, decide_True by reflexivity.
  fold (get_job (fst created) (snd created)). rewrite Hget, decide_True by reflexivity.
  reflexivity.
Qed.

End JobLifecycleFacts.

Lemma progress_stays_in_range_witness :
  let step (self : BackgroundTaskManager.manager unit) a :=
    BackgroundTaskManager.perform (fun _ : unit => None) self a in
  let created :=
    step (BackgroundTaskManager.initial_manager unit)
         (BackgroundTaskManager.CreateJob "alice" "transform" (Some "file-1") None None) in
  let job_id := fresh (∅ : gset string) in
  let started :=
    step created
         (BackgroundTaskManager.StartBackgroundTask job_id
            (fun id => BackgroundTaskManager.AwaitUpdateJobStatus
                         id "processing" (Some 250) None None
                         (BackgroundTaskManager.Throw (Py.mk_exn Py.ValueError "boom")))) in
  let ran := step started (BackgroundTaskManager.LoopRunTask job_id) in
  map_Forall (fun _ j => 0 <= BackgroundTaskManager.progress j <= 100)
             (BackgroundTaskManager.jobs (BackgroundTaskManager.db ran)).
Proof.
  intros step created job_id started ran.
  apply (JobLifecycleFacts.progress_stays_in_range (fun _ : unit => None) ran).
  unfold ran, started, created, step.
  repeat (apply BackgroundTaskManager.reachable_perform);
    try apply BackgroundTaskManager.reachable_initial; try exact I.
  cbn. apply elem_of_dom. eexists. apply lookup_insert_eq.
Defined.

Lemma started_task_ends_terminal_witness :
  let created :=
    BackgroundTaskManager.create_job (BackgroundTaskManager.mk_database ∅ [])
      "alice" "transform" (Some "file-1") None None in
  let self := BackgroundTaskManager.mk_manager (fst created)
                (∅ : gmap string (BackgroundTaskManager.task unit)) in
  let job_id := snd created in
  let func (id : string) : BackgroundTaskManager.coroutine unit :=
    BackgroundTaskManager.AwaitUpdateJobStatus id "processing" (Some 50) None None
      (BackgroundTaskManager.Return tt) in
  let started := BackgroundTaskManager.start_background_task self job_id func in
  let ran := BackgroundTaskManager.loop_run_task (fun _ : unit => None) started job_id in
  let cleaned := BackgroundTaskManager.loop_done_callback ran job_id in
  (exists terminal middle,
      ((terminal = TaskStatus.COMPLETED
        /\ BackgroundTaskManager.progress
             <$> BackgroundTaskManager.jobs (BackgroundTaskManager.db ran) !! job_id = Some 100)
       \/ terminal = TaskStatus.FAILED)
      /\ BackgroundTaskManager.job_status (BackgroundTaskManager.db ran) job_id = Some terminal
      /\ BackgroundTaskManager.status_history (BackgroundTaskManager.db ran) job_id
         = (BackgroundTaskManager.status_history (BackgroundTaskManager.db self) job_id
            ++ TaskStatus.PROCESSING :: middle ++ [terminal])%list)
  /\ BackgroundTaskManager.get_active_task cleaned job_id = None
  /\ BackgroundTaskManager.db cleaned = BackgroundTaskManager.db ran
  /\ BackgroundTaskManager.cancel_job cleaned job_id = (cleaned, false).
Proof.
  intros created self job_id func started ran cleaned.
  exact (JobLifecycleFacts.started_task_ends_terminal (fun _ : unit => None) self job_id func
           _ (lookup_insert_eq _ _ _)).
Defined.

Lemma cancel_before_first_run_witness :
  let created :=
    BackgroundTaskManager.create_job (BackgroundTaskManager.mk_database ∅ [])
      "alice" "transform" (Some "file-1") None None in
  let self := BackgroundTaskManager.mk_manager (fst created)
                (∅ : gmap string (BackgroundTaskManager.task unit)) in
  let job_id := snd created in
  let func (id : string) : BackgroundTaskManager.coroutine unit :=
    BackgroundTaskManager.Return tt in
  let started := BackgroundTaskManager.start_background_task self job_id func in
  let cancelled := fst (BackgroundTaskManager.cancel_job started job_id) in
  let ended := BackgroundTaskManager.loop_run_task (fun _ : unit => None) cancelled job_id in
  snd (BackgroundTaskManager.cancel_job started job_id) = true
  /\ BackgroundTaskManager.job_status (BackgroundTaskManager.db cancelled) job_id
     = Some TaskStatus.CANCELLED
  /\ BackgroundTaskManager.status_history (BackgroundTaskManager.db ended) job_id
     = (BackgroundTaskManager.status_history (BackgroundTaskManager.db self) job_id
        ++ [TaskStatus.CANCELLED])%list
  /\ BackgroundTaskManager.db ended = BackgroundTaskManager.db cancelled.
Proof.
  intros created self job_id func started cancelled ended.
  exact (BackgroundTaskManagerFacts.cancel_before_first_run (fun _ : unit => None) self job_id
           func _ (lookup_insert_eq _ _ _)).
Defined.

(* ===================================================================== *)
(** ** The job bodies under [execute_task] ([JobProcessor]) *)
(* ===================================================================== *)

Module JobBodyFacts.
Import Py BackgroundTaskManager BackgroundTaskManagerFacts JobProcessor JobProcessorFacts.

Lemma reported_progress_app (d : database) (added : list status_write) (after : database) :
  writes after = (writes d ++ added)%list ->
  reported_progress d after = omap w_progress added.
Proof. intros H. unfold reported_progress. rewrite H, drop_app_length. reflexivity. Qed.

Section Analysis.

Context {structure : Type} (analyze_structure : string -> string -> result structure).

(** X23. A file analysis run by [execute_task] for a job of the table: when
    the analysis of the file returns, the job ends completed at progress 100,
    its other fields unchanged, after the progress values 0, 10, 30, 100 and
    100, and the structure and the file identifier are returned; when the
    analysis raises, the job ends failed at progress 30 after the values 0, 10
    and 30, with the error message [File analysis failed: ] followed by the
    text of the exception, which is what is raised. *)
Theorem file_analysis_job (d : database) (job_id file_id user : string) (j : job) :
  jobs d !! job_id = Some j ->
  let ran :=
    execute_task (fun _ : structure * string => None) d job_id
                 (process_file_analysis analyze_structure file_id user) in
  match analyze_structure file_id user with
  | Ok found =>
      snd ran = Ok (found, file_id)
      /\ jobs (fst ran) !! job_id
         = Some (mk_job (user_id j) TaskStatus.COMPLETED 100 (input_file_id j)
                        (reference_file_id j) (template_id j) (error_message j)
                        (result_file_id j))
      /\ reported_progress d (fst ran) = [0; 10; 30; 100; 100]
  | Raise e =>
      snd ran = Raise (analysis_failure e)
      /\ jobs (fst ran) !! job_id
         = Some (mk_job (user_id j) TaskStatus.FAILED 30 (input_file_id j)
                        (reference_file_id j) (template_id j)
                        (Some ("File analysis failed: " +:+ exc_msg e)) (result_file_id j))
      /\ reported_progress d (fst ran) = [0; 10; 30]
  end.
Proof.
  intros Hj ran. subst ran. unfold execute_task, process_file_analysis.
  destruct (analyze_structure file_id user) as [found|e]; cbn [run fst snd].
  - split; [reflexivity|]. split.
    + rewrite !jobs_update_job_status, !decide_True, Hj by reflexivity. reflexivity.
    + erewrite reported_progress_app; [|unfold update_job_status; cbn [writes];
                                         rewrite <- !app_assoc; reflexivity].
      reflexivity.
  - split; [reflexivity|]. split.
    + rewrite !jobs_update_job_status, !decide_True, Hj by reflexivity. reflexivity.
    + erewrite reported_progress_app; [|unfold update_job_status; cbn [writes];
                                         rewrite <- !app_assoc; reflexivity].
      reflexivity.
Qed.

End Analysis.

Section Transformation.

Context {mapping_config transform_result : Type}
  (output_file_id : transform_result -> option string)
  (transform_file : string -> mapping_config -> string -> string -> result transform_result).

(** X24. A file transformation run by [execute_task] for a job of the table:
    when [transform_file] returns, the job ends completed at progress 100 and
    its result file is the output file of the transformation, unless that one
    is absent or empty, in which case the result file of the job stays what it
    was; when [transform_file] raises, the job ends failed at progress 20 with
    the error message [File transformation failed: ] followed by the text of
    the exception, which is what is raised. *)
Theorem file_transformation_job (d : database) (job_id input_id output_format user : string)
    (config : mapping_config) (j : job) :
  jobs d !! job_id = Some j ->
  let ran :=
    execute_task (outcome_result_file_id (transform_result := transform_result)) d job_id
                 (process_file_transformation output_file_id transform_file
                    input_id output_format config user) in
  match transform_file input_id config output_format user with
  | Ok result =>
      snd ran = Ok (mk_transformation_outcome input_id (output_file_id result) result)
      /\ jobs (fst ran) !! job_id
         = Some (mk_job (user_id j) TaskStatus.COMPLETED 100 (input_file_id j)
                        (reference_file_id j) (template_id j) (error_message j)
                        (match output_file_id result with
                         | Some id => if String.eqb id "" then result_file_id j else Some id
                         | None => result_file_id j
                         end))
      /\ reported_progress d (fst ran) = [0; 20; 100; 100]
  | Raise e =>
      snd ran = Raise (transformation_failure e)
      /\ jobs (fst ran) !! job_id
         = Some (mk_job (user_id j) TaskStatus.FAILED 20 (input_file_id j)
                        (reference_file_id j) (template_id j)
                        (Some ("File transformation failed: " +:+ exc_msg e))
                        (result_file_id j))
      /\ reported_progress d (fst ran) = [0; 20]
  end.
Proof.
  intros Hj ran. subst ran. unfold execute_task, process_file_transformation.
  destruct (transform_file input_id config output_format user) as [result|e];
    cbn [run fst snd outcome_result_file_id].
  - split; [reflexivity|]. split.
    + rewrite !jobs_update_job_status, !decide_True, Hj by reflexivity.
      cbn [fmap option_fmap option_map]. f_equal. unfold apply_update.
      cbn [user_id status progress input_file_id reference_file_id template_id
           error_message result_file_id].
      f_equal. destruct (output_file_id result) as [id|]; [|reflexivity].
      destruct (String.eqb id ""); reflexivity.
    + erewrite reported_progress_app; [|unfold update_job_status; cbn [writes];
                                         rewrite <- !app_assoc; reflexivity].
      reflexivity.
  - split; [reflexivity|]. split.
    + rewrite !jobs_update_job_status, !decide_True, Hj by reflexivity. reflexivity.
    + erewrite reported_progress_app; [|unfold update_job_status; cbn [writes];
                                         rewrite <- !app_assoc; reflexivity].
      reflexivity.
Qed.

End Transformation.

Section Batch.

Context {structure : Type} (analyze_structure : string -> string -> result structure).
Context (job_id operation user : string).

Local Abbreviation processed_entry := (processed_entry analyze_structure operation user).
Local Abbreviation failed_entry := (failed_entry analyze_structure operation user).

Lemma entries_count (file_ids : list string) :
  (List.length (omap processed_entry file_ids) + List.length (omap failed_entry file_ids)
   = List.length file_ids)%nat.
Proof.
  induction file_ids as [|file_id file_ids IH]; [reflexivity|].
  rewrite !omap_cons_entry, !length_app.
  destruct (entry_exclusive analyze_structure operation user file_id)
    as [[[x ->] ->]|[-> [y ->]]]; simpl option_list; simpl List.length; lia.
Qed.

Lemma batch_loop_outcome (total_files : Z) (todo : list string) :
  forall (idx : Z) (processed_files : list (string * structure))
         (failed_files : list (string * string)) (d : database),
    let processed_files' := (processed_files ++ omap processed_entry todo)%list in
    let failed_files' := (failed_files ++ omap failed_entry todo)%list in
    match snd (run (batch_loop analyze_structure job_id operation user total_files idx todo
                               processed_files failed_files) d) with
    | Ok r =>
        r = mk_batch_result total_files
              (Z.of_nat (List.length processed_files')) (Z.of_nat (List.length failed_files'))
              processed_files' failed_files'
    | Raise e => exists cause, e = batch_failure cause
    end.
Proof.
  induction todo as [|file_id todo IH]; intros idx processed_files failed_files d.
  - cbn. rewrite !app_nil_r. reflexivity.
  - rewrite !omap_cons_entry. cbn [batch_loop].
    unfold processed_entry at 1 3, failed_entry at 1 3.
    destruct (batch_progress idx total_files) as [p|e]; [|cbn; eauto].
    cbn [run].
    destruct (String.eqb operation "analyze");
      [destruct (analyze_structure file_id user) as [result|e]|];
      match goal with
      | |- context [run (batch_loop _ _ _ _ _ _ _ ?done ?missed) ?d'] =>
          pose proof (IH (idx + 1) done missed d') as Hrest
      end;
      cbv zeta in Hrest |- *; simpl option_list; rewrite <- !app_assoc in Hrest;
      exact Hrest.
Qed.

(** X25. A batch either returns or raises [Batch processing failed: ] followed
    by the text of an exception, never another exception: no failure of an
    item leaves it. When it returns, the total is the number of file
    identifiers, every one of them is among the results or among the errors,
    in the order of the batch, and the two counts add up to the total. *)
Theorem process_batch_files_outcome (file_ids : list string) (d : database) :
  match snd (run (process_batch_files analyze_structure file_ids operation user job_id) d) with
  | Ok r =>
      total r = Z.of_nat (List.length file_ids)
      /\ processed r + failed r = total r
      /\ results r = omap processed_entry file_ids
      /\ errors r = omap failed_entry file_ids
  | Raise e => exists cause, e = batch_failure cause
  end.
Proof.
  unfold process_batch_files.
  pose proof (batch_loop_outcome (Z.of_nat (List.length file_ids)) file_ids 0 [] [] d) as H.
  cbn zeta in H.
  destruct (snd (run _ d)) as [r|e]; [|exact H].
  subst r. cbn [total processed failed results errors List.app].
  pose proof (entries_count file_ids). repeat split. lia.
Qed.

End Batch.

End JobBodyFacts.

Lemma file_analysis_job_witness :
  let created :=
    BackgroundTaskManager.create_job (BackgroundTaskManager.mk_database ∅ [])
      "alice" "analysis" (Some "file-1") None None in
  let analyze_structure (file_id user : string) : Py.result (list string) :=
    Py.Raise (Py.mk_exn Py.ValueError "File not found") in
  let ran :=
    BackgroundTaskManager.execute_task (fun _ : list string * string => None)
      (fst created) (snd created)
      (JobProcessor.process_file_analysis analyze_structure "file-1" "alice") in
  snd ran = Py.Raise (JobProcessor.analysis_failure (Py.mk_exn Py.ValueError "File not found"))
  /\ BackgroundTaskManager.jobs (fst ran) !! snd created
     = Some (BackgroundTaskManager.mk_job "alice" TaskStatus.FAILED 30 (Some "file-1") None None
               (Some "File analysis failed: File not found") None)
  /\ JobProcessor.reported_progress (fst created) (fst ran) = [0; 10; 30].
Proof.
  intros created analyze_structure ran.
  exact (JobBodyFacts.file_analysis_job analyze_structure (fst created) (snd created)
           "file-1" "alice" _ (lookup_insert_eq _ _ _)).
Defined.

Lemma file_transformation_job_witness :
  let created :=
    BackgroundTaskManager.create_job (BackgroundTaskManager.mk_database ∅ [])
      "alice" "transform" (Some "file-1") None None in
  let transform_file (input_file_id : string) (config : unit) (output_format user : string)
      : Py.result (option string) := Py.Ok (Some "file-2") in
  let ran :=
    BackgroundTaskManager.execute_task
      (JobProcessor.outcome_result_file_id (transform_result := option string))
      (fst created) (snd created)
      (JobProcessor.process_file_transformation id transform_file "file-1" "csv" tt "alice") in
  snd ran = Py.Ok (JobProcessor.mk_transformation_outcome "file-1" (Some "file-2") (Some "file-2"))
  /\ BackgroundTaskManager.jobs (fst ran) !! snd created
     = Some (BackgroundTaskManager.mk_job "alice" TaskStatus.COMPLETED 100 (Some "file-1") None
               None None (Some "file-2"))
  /\ JobProcessor.reported_progress (fst created) (fst ran) = [0; 20; 100; 100].
Proof.
  intros created transform_file ran.
  exact (JobBodyFacts.file_transformation_job id transform_file (fst created) (snd created)
           "file-1" "csv" "alice" tt _ (lookup_insert_eq _ _ _)).
Defined.

(* ===================================================================== *)
(** ** Text files ([TXTParser]) *)
(* ===================================================================== *)

Module TXTParserFacts.
Import Py PyFacts TextFacts BaseParser InferDataTypeFacts TXTParser.

Lemma dom_fold_insert {A : Type} (pairs : list (string * A)) :
  forall d : gmap string A,
    dom (fold_left (fun d pair => <[fst pair := snd pair]> d) pairs d)
    = dom d ∪ list_to_set pairs.*1.
Proof.
  induction pairs as [|[k v] pairs IH]; intros d; cbn [fold_left].
  - csimpl. set_solver.
  - rewrite IH, dom_insert_L. csimpl. set_solver.
Qed.

Lemma dom_dict {A : Type} (pairs : list (string * A)) :
  dom (dict pairs) = list_to_set pairs.*1.
Proof. unfold dict. rewrite dom_fold_insert, dom_empty_L. set_solver. Qed.

Lemma dom_delimited_row (delimiter : ascii) (headers : list string) (line : string)
    (r : gmap string value) :
  delimited_row delimiter headers line = Some r -> dom r = list_to_set headers.
Proof.
  unfold delimited_row. intros H.
  destruct (Nat.eqb_spec (List.length (split delimiter line)) (List.length headers)) as [Hlen|_];
    [|discriminate].
  injection H as <-. rewrite dom_dict, fst_zip; [reflexivity|].
  rewrite length_fmap, Hlen. reflexivity.
Qed.

Lemma omap_delimited_row (delimiter : ascii) (names : list string) (rest : list string) :
  omap (delimited_row delimiter names) rest
  = (fun line => dict (zip names (VStr <$> split delimiter line)))
      <$> List.filter (fun line => (List.length (split delimiter line) =? List.length names)%nat)
                      rest.
Proof.
  induction rest as [|line rest IH]; [reflexivity|].
  csimpl. unfold delimited_row at 1.
  destruct (List.length (split delimiter line) =? List.length names)%nat; csimpl;
    rewrite IH; reflexivity.
Qed.

(** X26. Every row [parse] reads from a text has the headers of the result as
    its keys, no more and no less, whether the text is read as delimited or
    line by line. In a delimited text the rows are those of the lines after
    the first that hold as many values as the first line holds headers, in
    order, each the [dict(zip(headers, values))] of its line: a line with more
    or fewer values gives no row, and no line is cut or filled to fit. *)
Theorem parse_rows_have_headers (lines : list string) :
  let result := parse lines in
  Forall (fun r => dom r = list_to_set (headers result)) (data result)
  /\ (metadata_structure_type result ∈ ["csv"; "tsv"; "pipe_delimited"] ->
      let delimiter :=
        if String.eqb (metadata_structure_type result) "csv" then ","%char
        else if String.eqb (metadata_structure_type result) "tsv" then tab
        else "|"%char in
      headers result = split delimiter (default "" (head lines))
      /\ data result
         = (fun line => dict (zip (headers result) (VStr <$> split delimiter line)))
             <$> List.filter
                   (fun line => (List.length (split delimiter line)
                                 =? List.length (headers result))%nat)
                   (tail lines)).
Proof.
  intros result. subst result. split.
  - apply Forall_forall. intros r. unfold parse.
    destruct (existsb (String.eqb (detect_structure_type lines))
                      ["csv"; "tsv"; "pipe_delimited"]).
    + destruct lines as [|first rest]; cbn [data headers]; intros Hin.
      * inversion Hin.
      * apply list_elem_of_omap in Hin as (line & _ & Hrow).
        exact (dom_delimited_row _ _ _ _ Hrow).
    + cbn [data headers]. intros Hin.
      apply elem_of_lookup_imap in Hin as (i & line & -> & _).
      unfold numbered_row. rewrite dom_dict. reflexivity.
  - unfold parse.
    destruct (existsb (String.eqb (detect_structure_type lines))
                      ["csv"; "tsv"; "pipe_delimited"]) eqn:Hdelimited.
    + destruct lines as [|first rest].
      * discriminate Hdelimited.
      * cbn [metadata_structure_type data headers head tail default]. intros _.
        split; [reflexivity|]. apply omap_delimited_row.
    + cbn [metadata_structure_type]. intros Hin. exfalso.
      apply not_true_iff_false in Hdelimited. apply Hdelimited.
      apply existsb_exists. exists (detect_structure_type lines).
      split; [|apply String.eqb_refl].
      apply list_elem_of_In. exact Hin.
Qed.

Lemma split_chars_no_sep (sep : ascii) (l : list ascii) :
  existsb (Ascii.eqb sep) l = false -> split_chars sep l = [l].
Proof.
  induction l as [|c l IH]; cbn [existsb split_chars]; [reflexivity|].
  intros H. apply orb_false_iff in H as [Hc Hl]. rewrite (IH Hl).
  rewrite Ascii.eqb_sym, Hc. reflexivity.
Qed.

Lemma split_chars_app_sep (sep : ascii) (part l : list ascii) :
  existsb (Ascii.eqb sep) part = false ->
  split_chars sep (part ++ sep :: l) = part :: split_chars sep l.
Proof.
  induction part as [|c part IH]; cbn [existsb List.app]; intros H.
  - cbn [split_chars]. destruct (split_chars sep l) as [|p ps] eqn:E.
    + exfalso. exact (split_chars_not_nil _ _ E).
    + rewrite Ascii.eqb_refl. reflexivity.
  - apply orb_false_iff in H as [Hc Hpart]. cbn [split_chars]. rewrite (IH Hpart).
    rewrite Ascii.eqb_sym, Hc. reflexivity.
Qed.

Lemma split_join_chars (sep : ascii) (parts : list (list ascii)) :
  parts <> [] ->
  Forall (fun part => existsb (Ascii.eqb sep) part = false) parts ->
  split_chars sep (join_chars sep parts) = parts.
Proof.
  induction parts as [|part parts IH]; [congruence|]. intros _ Hall.
  apply Forall_cons in Hall as [Hpart Hall].
  destruct parts as [|part' parts].
  - apply split_chars_no_sep. exact Hpart.
  - change (join_chars sep (part :: part' :: parts))
      with (part ++ sep :: join_chars sep (part' :: parts))%list.
    rewrite (split_chars_app_sep _ _ _ Hpart), IH; [reflexivity|discriminate|exact Hall].
Qed.

Lemma chars_join (sep : ascii) (parts : list string) :
  chars (join (String sep "") parts) = join_chars sep (chars <$> parts).
Proof.
  induction parts as [|part parts IH]; [reflexivity|].
  destruct parts as [|part' parts]; [reflexivity|].
  change (join (String sep "") (part :: part' :: parts))
    with (part +:+ String sep "" +:+ join (String sep "") (part' :: parts)).
  rewrite !chars_append, IH. reflexivity.
Qed.

(** Splitting what [join] made of parts that do not hold the separator
    gives the parts back. *)
Lemma split_join (sep : ascii) (parts : list string) :
  parts <> [] ->
  Forall (fun part => contains_char sep part = false) parts ->
  split sep (join (String sep "") parts) = parts.
Proof.
  intros Hparts Hall. unfold split. rewrite chars_join, split_join_chars.
  - rewrite <- list_fmap_compose. rewrite <- (list_fmap_id parts) at 2.
    apply list_fmap_ext. intros _ part _. apply text_chars.
  - destruct parts; [congruence|discriminate].
  - apply Forall_fmap. exact Hall.
Qed.

Lemma contains_char_append (c : ascii) (s t : string) :
  contains_char c (s +:+ t) = contains_char c s || contains_char c t.
Proof. unfold contains_char. rewrite chars_append. apply existsb_app. Qed.

Lemma contains_char_join_first (c : ascii) (sep first : string) (rest : list string) :
  contains_char c first = true -> contains_char c (join sep (first :: rest)) = true.
Proof.
  intros H. destruct rest as [|second rest]; [exact H|].
  change (join sep (first :: second :: rest))
    with (first +:+ sep +:+ join sep (second :: rest)).
  rewrite contains_char_append, H. reflexivity.
Qed.

Lemma contains_char_join_sep (sep : ascii) (first second : string) (rest : list string) :
  contains_char sep (join (String sep "") (first :: second :: rest)) = true.
Proof.
  change (join (String sep "") (first :: second :: rest))
    with (first +:+ String sep "" +:+ join (String sep "") (second :: rest)).
  rewrite !contains_char_append.
  replace (contains_char sep (String sep "")) with true; [apply orb_true_r|].
  unfold contains_char. cbn. rewrite Ascii.eqb_refl. reflexivity.
Qed.

(** X27. A text read back: a header line of two names or more joined by
    commas, followed by lines of as many values joined by commas, no name and
    no value holding a comma, is read by [parse] as comma-separated, with the
    names as headers and one row to the line, [dict(zip(names, values))]. *)
Theorem comma_text_round_trip (names : list string) (rows : list (list string)) :
  (2 <= List.length names)%nat ->
  Forall (fun name => contains_char "," name = false) names ->
  Forall (fun values => List.length values = List.length names
                        /\ Forall (fun v => contains_char "," v = false) values) rows ->
  parse (join "," names :: (join "," <$> rows))
  = mk_parse_result ((fun values => dict (zip names (VStr <$> values))) <$> rows)
                    names "csv" (Z.of_nat (S (List.length rows))).
Proof.
  intros Hnames Hclean Hrows.
  assert (Hsplit : split "," (join "," names) = names).
  { apply split_join; [|exact Hclean]. destruct names; [simpl in Hnames; lia|discriminate]. }
  assert (Htype : detect_structure_type (join "," names :: (join "," <$> rows)) = "csv").
  { unfold detect_structure_type.
    replace (take 10 (join "," names :: (join "," <$> rows)))
      with (join "," names :: take 9 (join "," <$> rows)) by reflexivity.
    rewrite contains_char_join_first; [reflexivity|].
    destruct names as [|first [|second names]]; [simpl in Hnames; lia..|].
    apply contains_char_join_sep. }
  unfold parse. rewrite Htype. cbn [existsb String.eqb Ascii.eqb Bool.eqb orb andb].
  rewrite Hsplit. clear Htype. f_equal.
  - induction Hrows as [|values rows [Hlen Hvalues] _ IH]; [reflexivity|].
    csimpl. unfold delimited_row at 1. rewrite split_join.
    + rewrite Hlen, Nat.eqb_refl. csimpl. f_equal. exact IH.
    + destruct values; [simpl in Hlen; lia|discriminate].
    + exact Hvalues.
  - cbn [List.length]. rewrite length_fmap. reflexivity.
Qed.

End TXTParserFacts.

Lemma comma_text_round_trip_witness :
  TXTParser.parse (Py.join "," ["name"; "age"]
                   :: (Py.join "," <$> [["ann"; "31"]; ["bob"; "x|y"]]))
  = TXTParser.mk_parse_result
      ((fun values => Py.dict (zip ["name"; "age"] (Py.VStr <$> values)))
         <$> [["ann"; "31"]; ["bob"; "x|y"]])
      ["name"; "age"] "csv" (Z.of_nat (S (List.length [["ann"; "31"]; ["bob"; "x|y"]]))).
Proof.
  apply (TXTParserFacts.comma_text_round_trip ["name"; "age"] [["ann"; "31"]; ["bob"; "x|y"]]).
  - simpl. lia.
  - repeat constructor.
  - repeat constructor.
Defined.

(* ===================================================================== *)
(** ** The delimiter of a delimited file ([PipeDelimitedParser]) *)
(* ===================================================================== *)

Module PipeDelimitedParserFacts.
Import Py PipeDelimitedParser.

(** X28. The delimiter [detect_delimiter] answers is one of the bar, the tab,
    the semicolon and the colon, never the comma: the one that occurs most
    often in the first 8192 characters, and of several that do, the first in
    that order; so the bar when none of them occurs. *)
Theorem detect_delimiter_most_common (content : string) :
  let sample := slice_to content 8192 in
  let found := detect_delimiter content in
  exists before after : list ascii,
    candidates = (before ++ found :: after)%list
    /\ Forall (fun c => count_char c sample < count_char found sample) before
    /\ Forall (fun c => count_char c sample <= count_char found sample) after.
Proof.
  intros sample found. subst found. unfold detect_delimiter, most_common. fold sample.
  cbn [candidates tail fold_left].
  destruct (Z.ltb_spec (count_char "|" sample) (count_char tab sample));
    [destruct (Z.ltb_spec (count_char tab sample) (count_char ";" sample))
    |destruct (Z.ltb_spec (count_char "|" sample) (count_char ";" sample))];
    [destruct (Z.ltb_spec (count_char ";" sample) (count_char ":" sample))
    |destruct (Z.ltb_spec (count_char tab sample) (count_char ":" sample))
    |destruct (Z.ltb_spec (count_char ";" sample) (count_char ":" sample))
    |destruct (Z.ltb_spec (count_char "|" sample) (count_char ":" sample))];
    first [ exists [], [tab; ";"%char; ":"%char];
            split; [reflexivity|]; split; repeat constructor; lia
          | exists ["|"%char], [";"%char; ":"%char];
            split; [reflexivity|]; split; repeat constructor; lia
          | exists ["|"%char; tab], [":"%char];
            split; [reflexivity|]; split; repeat constructor; lia
          | exists ["|"%char; tab; ";"%char], [];
            split; [reflexivity|]; split; repeat constructor; lia ].
Qed.

End PipeDelimitedParserFacts.

(* ===================================================================== *)
(** ** The comparison of two structures ([ParsingService]) *)
(* ===================================================================== *)

Module ParsingServiceFacts.
Import Py ParsingService.

(** X29. The comparison of the columns of two structures never reports a
    column of the reference alone, whatever the columns are: that set is a set
    less itself. The exact matches and the columns of the input alone share
    no column and make up the columns of the input between them, and the
    exact matches are the columns of both. *)
Theorem compare_columns_sets (input_structure_columns reference_structure_columns : list string) :
  let compared := compare_columns input_structure_columns reference_structure_columns in
  reference_only_columns compared = ∅
  /\ exact_matches compared ∪ input_only_columns compared
     = list_to_set input_structure_columns
  /\ exact_matches compared ## input_only_columns compared
  /\ exact_matches compared
     = list_to_set input_structure_columns ∩ list_to_set reference_structure_columns.
Proof.
  intros compared. subst compared. unfold compare_columns.
  cbn [reference_only_columns exact_matches input_only_columns].
  split; [set_solver|]. split; [|split; [set_solver|reflexivity]].
  apply set_eq. intros x. rewrite elem_of_union, elem_of_intersection, elem_of_difference.
  destruct (decide (x ∈ (list_to_set reference_structure_columns : gset string))); tauto.
Qed.

End ParsingServiceFacts.

(* ===================================================================== *)
(** ** The choice of the output generator ([OutputGeneratorFactory]) *)
(* ===================================================================== *)

Module OutputGeneratorFactoryFacts.
Import Py OutputGeneratorFactory.

Lemma supported_formats_are_keys (key : string) :
  key ∈ get_supported_formats <-> is_Some (GENERATORS !! key).
Proof.
  rewrite <- (elem_of_dom (D := gset string)). unfold GENERATORS.
  rewrite dom_list_to_map_L, elem_of_list_to_set. reflexivity.
Qed.

(** X30. [create_generator] accepts the formats [get_supported_formats]
    lists, whatever the case of their letters, and no other: for those it
    gives a generator of the registered class with the data and the headers
    it was given, with column widths for [fixed] alone, the empty ones when
    none are given; for every other format it raises a [ValueError] that
    names the format as it was written. *)
Theorem create_generator_supported (output_format : string) (data : list (gmap string value))
    (headers : list string) (column_widths : option (gmap string Z)) :
  if decide (lower output_format ∈ get_supported_formats)
  then exists g,
      create_generator output_format data headers column_widths = Ok g
      /\ GENERATORS !! lower output_format = Some (generator_cls g)
      /\ generator_data g = data
      /\ generator_headers g = headers
      /\ generator_column_widths g
         = (if decide (lower output_format = "fixed")
            then Some (default ∅ column_widths) else None)
  else create_generator output_format data headers column_widths
       = Raise (unsupported_output_format output_format).
Proof.
  unfold create_generator.
  destruct (decide (lower output_format ∈ get_supported_formats)) as [Hin|Hout].
  - apply supported_formats_are_keys in Hin as [cls Hcls]. rewrite Hcls.
    destruct (String.eqb_spec (lower output_format) "fixed") as [Hfixed|Hother].
    + rewrite decide_True by exact Hfixed. eexists. repeat split; reflexivity.
    + rewrite decide_False by exact Hother. eexists. repeat split; reflexivity.
  - destruct (GENERATORS !! lower output_format) as [cls|] eqn:Hcls; [|reflexivity].
    exfalso. apply Hout, supported_formats_are_keys. eauto.
Qed.

End OutputGeneratorFactoryFacts.
